(** * L-BERT: the forward computation of [modeling.py], embedded in Rocq

    The development follows [src/com/prj/bundle/modelling/modeling.py].
    Tensors are nested lists (rank by type), float32 arithmetic is idealised
    as arithmetic on [R], Python integers that index or size tensors are
    [nat], integer tensor entries (ids, masks) are [Z].

    What TensorFlow itself supplies and the source only calls is either
    written out from its documented meaning (softmax, one_hot, matmul,
    slice, tril/triu, ...) or, when it is learned, random or outside the
    standard real functions, taken from a [TensorFlow] interface
    (layer normalisation, the random dropout mask, erf).  Learned variables
    are arguments.

    Every [raise] and every assertion of the source is modelled in the
    [result] monad.  The shape checks that TensorFlow performs inside its
    own operations are not: tensor operations are total functions on
    nested lists, and theorems state the shapes they rely on. *)

From Stdlib Require Import String Ascii.
From Stdlib Require Import Reals Lra Lia ZArith Bool Arith List.
Import ListNotations.

(** ** Errors *)

Inductive error : Type :=
| ValueError (msg : string)
| ZeroDivisionError
| IndexError
| AttributeError
| InvalidArgumentError (msg : string).

Inductive result (A : Type) : Type :=
| Ok (a : A)
| Raise (e : error).

Arguments Ok {A} a.
Arguments Raise {A} e.

Definition bind {A B} (m : result A) (k : A -> result B) : result B :=
  match m with
  | Ok a => k a
  | Raise e => Raise e
  end.

Notation "x <- m ;; k" := (bind m (fun x => k))
  (at level 61, m at next level, right associativity).
Notation "' pat <- m ;; k" := (bind m (fun x => match x with pat => k end))
  (at level 61, pat pattern, m at next level, right associativity).

Definition is_ok {A} (m : result A) : bool :=
  match m with Ok _ => true | Raise _ => false end.

(** Monadic loop over a list, threading an accumulator. *)
Fixpoint foldM {A S} (f : S -> A -> result S) (l : list A) (s : S) : result S :=
  match l with
  | [] => Ok s
  | a :: l' => s' <- f s a ;; foldM f l' s'
  end.

(** ** Lists as tensors *)

Abbreviation vec := (list R).
Abbreviation mat := (list (list R)).
Abbreviation tensor3 := (list (list (list R))).
Abbreviation tensor4 := (list (list (list (list R)))).

Fixpoint map2 {A B C} (f : A -> B -> C) (xs : list A) (ys : list B) : list C :=
  match xs, ys with
  | x :: xs', y :: ys' => f x y :: map2 f xs' ys'
  | _, _ => []
  end.

(** [f] applied to every element together with its index. *)
Definition mapi {A B} (f : nat -> A -> B) (l : list A) : list B :=
  map2 f (seq 0 (length l)) l.

(** [l[i] = x] of Python, for [i] in range. *)
Fixpoint list_set {A} (l : list A) (i : nat) (x : A) : list A :=
  match l, i with
  | [], _ => []
  | _ :: t, O => x :: t
  | h :: t, S i' => h :: list_set t i' x
  end.

Definition tabulate {A} (n : nat) (f : nat -> A) : list A := map f (seq 0 n).

Definition width {A} (m : list (list A)) : nat := length (hd [] m).

(** Static shapes, as [get_shape_list] returns them. *)
Definition shape2 {A} (m : list (list A)) : nat * nat :=
  (length m, width m).
Definition shape3 {A} (t : list (list (list A))) : nat * nat * nat :=
  (length t, width t, width (hd [] t)).

(** Well-formedness of nested lists as tensors of a given shape. *)
Definition has_shape1 {A} (n : nat) (v : list A) : bool := length v =? n.
Definition has_shape2 {A} (r c : nat) (m : list (list A)) : bool :=
  (length m =? r) && forallb (has_shape1 c) m.
Definition has_shape3 {A} (b r c : nat) (t : list (list (list A))) : bool :=
  (length t =? b) && forallb (has_shape2 r c) t.
Definition has_shape4 {A} (b n r c : nat) (t : list (list (list (list A)))) : bool :=
  (length t =? b) && forallb (has_shape3 n r c) t.

Definition nth2 {A} (m : list (list A)) (i j : nat) (d : A) : A :=
  nth j (nth i m []) d.
Definition nth3 {A} (t : list (list (list A))) (b i j : nat) (d : A) : A :=
  nth2 (nth b t []) i j d.
Definition nth4 {A} (t : list (list (list (list A)))) (b n i j : nat) (d : A) : A :=
  nth3 (nth b t []) n i j d.

Local Open Scope R_scope.

(** ** numpy and TensorFlow operations used by the source *)

(** [tf.reshape] keeps the row-major sequence of the entries and regroups
    it by the target shape. *)
Definition tf_reshape2 (r c : nat) (flat : list R) : mat :=
  tabulate r (fun i => tabulate c (fun j => nth (i * c + j) flat 0)).
Definition tf_reshape3 (b r c : nat) (flat : list R) : tensor3 :=
  tabulate b (fun i => tf_reshape2 r c (skipn (i * (r * c)) flat)).
Definition tf_reshape4 (b n r c : nat) (flat : list R) : tensor4 :=
  tabulate b (fun i => tf_reshape3 n r c (skipn (i * (n * (r * c))) flat)).

Definition flatten2 {A} (m : list (list A)) : list A := concat m.
Definition flatten3 {A} (t : list (list (list A))) : list A := concat (concat t).
Definition flatten4 {A} (t : list (list (list (list A)))) : list A :=
  concat (concat (concat t)).

(** Elementwise maps, with the index of the element. *)
Class Tensor (T : Type) : Type :=
  tensor_mapi : (list nat -> R -> R) -> T -> T.

#[export] Instance Tensor_R : Tensor R := fun f x => f [] x.
#[export] Instance Tensor_list (T : Type) `{Tensor T} : Tensor (list T) :=
  fun f l => mapi (fun i x => tensor_mapi (fun idx => f (i :: idx)) x) l.

Definition Rsum (l : list R) : R := fold_right Rplus 0 l.

Definition dot (a b : vec) : R := Rsum (map2 Rmult a b).

(** Column [j] of a matrix. *)
Definition column (j : nat) (m : mat) : vec := map (fun row => nth j row 0) m.

(** [tf.matmul(a, b)] on rank-2 tensors. *)
Definition tf_matmul (a b : mat) : mat :=
  map (fun row => map (fun j => dot row (column j b)) (seq 0 (width b))) a.

(** [tf.matmul(a, b, transpose_b=True)] on rank-2 tensors. *)
Definition tf_matmul_transpose_b (a b : mat) : mat :=
  map (fun row => map (fun brow => dot row brow) b) a.

(** [tf.nn.softmax] on a vector; on a tensor it acts on the last axis. *)
Definition softmax (v : vec) : vec :=
  map (fun x => exp x / Rsum (map exp v)) v.

(** [tf.one_hot(ids, depth)]: an index outside [0, depth) gives a zero row. *)
Definition one_hot_row (depth : nat) (id : Z) : vec :=
  map (fun k => if (Z.of_nat k =? id)%Z then 1 else 0) (seq 0 depth).
Definition tf_one_hot (ids : list Z) (depth : nat) : mat :=
  map (one_hot_row depth) ids.

(** [np.arange(n)]. *)
Definition np_arange (n : nat) : list Z := map Z.of_nat (seq 0 n).

(** [np.zeros((r, c))]. *)
Definition np_zeros (r c : nat) : list (list Z) := repeat (repeat 0%Z c) r.

(** [np.tril(m, 0)] and [np.triu(m, 0)]: the diagonal is kept by both. *)
Definition np_tril (m : list (list Z)) : list (list Z) :=
  mapi (fun i row => mapi (fun j x => if (j <=? i)%nat then x else 0%Z) row) m.
Definition np_triu (m : list (list Z)) : list (list Z) :=
  mapi (fun i row => mapi (fun j x => if (i <=? j)%nat then x else 0%Z) row) m.

Definition np_scale (m : list (list Z)) (k : Z) : list (list Z) :=
  map (map (fun x => (x * k)%Z)) m.
Definition np_add (a b : list (list Z)) : list (list Z) :=
  map2 (map2 Z.add) a b.

(** [tf.cast(_, tf.float32)] of an integer matrix. *)
Definition tf_cast (m : list (list Z)) : mat := map (map IZR) m.

(** What the source calls in TensorFlow and what cannot be written as a
    function of the arguments seen in the source: the random choice of
    [tf.nn.dropout] to keep the entry at a position (for a given keep
    probability), layer normalisation with its learned scale and offset
    (one pair per variable scope), and [tf.erf]. *)
Inductive norm_scope : Type :=
| EmbeddingsNorm
| AttentionOutputNorm (layer_idx : nat)
| OutputNorm (layer_idx : nat).

Class TensorFlow : Type := {
  tf_random_keep : R -> list nat -> bool;
  tf_contrib_layers_layer_norm : norm_scope -> vec -> vec;
  tf_erf : R -> R
}.

Section Model.

Context {tf : TensorFlow}.

(** [tf.nn.dropout(x, keep_prob)]: an entry is kept and scaled by
    [1 / keep_prob], or set to zero. *)
Definition tf_nn_dropout {T : Type} `{Tensor T} (x : T) (keep_prob : R) : T :=
  tensor_mapi
    (fun idx v => if tf_random_keep keep_prob idx then v / keep_prob else 0) x.

(** ** [dropout] (source lines 456-471) *)

Definition dropout {T : Type} `{Tensor T} (input_tensor : T)
    (dropout_prob : option R) : T :=
  match dropout_prob with
  | None => input_tensor
  | Some p =>
      if Req_dec_T p 0 then input_tensor
      else tf_nn_dropout input_tensor (1 - p)
  end.

(** ** [gelu] and [get_activation] (source lines 366-417) *)

Definition gelu (input_tensor : R) : R :=
  let cdf := 0.5 * (1 + tf_erf (input_tensor / sqrt 2)) in
  input_tensor * cdf.

Definition tf_nn_relu (x : R) : R := Rmax x 0.

(** [str.lower()] on ASCII letters. *)
Definition ascii_lower (c : ascii) : ascii :=
  let n := nat_of_ascii c in
  if ((65 <=? n) && (n <=? 90))%nat then ascii_of_nat (n + 32) else c.

Fixpoint lower (s : string) : string :=
  match s with
  | EmptyString => EmptyString
  | String c s' => String (ascii_lower c) (lower s')
  end.

(** The argument of [get_activation] is a string or anything else, which
    is then taken to be the activation already ([None] included). *)
Inductive activation_arg : Type :=
| ActivationName (s : string)
| ActivationValue (f : option (R -> R)).

Definition get_activation (activation_string : activation_arg)
  : result (option (R -> R)) :=
  match activation_string with
  | ActivationValue f => Ok f
  | ActivationName s =>
      if String.eqb s "" then Ok None
      else
        let act := lower s in
        if String.eqb act "linear" then Ok None
        else if String.eqb act "relu" then Ok (Some tf_nn_relu)
        else if String.eqb act "gelu" then Ok (Some gelu)
        else if String.eqb act "tanh" then Ok (Some tanh)
        else Raise (ValueError ("Unsupported activation: " ++ act))
  end.

Definition apply_activation (activation : option (R -> R)) (x : R) : R :=
  match activation with
  | None => x
  | Some f => f x
  end.

(** ** [layer_norm] and [layer_norm_and_dropout] (source lines 474-486)

    Normalisation runs over the last axis; the variable scope the call
    stands in selects the learned scale and offset. *)

Definition layer_norm (scope : norm_scope) (input_tensor : mat) : mat :=
  map (tf_contrib_layers_layer_norm scope) input_tensor.

Definition layer_norm3 (scope : norm_scope) (input_tensor : tensor3) : tensor3 :=
  map (layer_norm scope) input_tensor.

Definition layer_norm_and_dropout (scope : norm_scope) (input_tensor : tensor3)
    (dropout_prob : option R) : tensor3 :=
  let output_tensor := layer_norm3 scope input_tensor in
  let output_tensor := dropout output_tensor dropout_prob in
  output_tensor.

(** ** Dense layers

    [tf.layers.dense(x, units, activation)] on a rank-2 input creates a
    kernel of shape [in, units] and a bias of shape [units]; the variables
    are given by their entries. *)

Record dense_vars : Type := {
  kernel : nat -> nat -> R;
  bias : nat -> R
}.

Definition tf_layers_dense (v : dense_vars) (inputs : mat) (units : nat)
    (activation : option (R -> R)) : mat :=
  map (fun row =>
         map (fun u =>
                apply_activation activation
                  (Rsum (mapi (fun k x => x * kernel v k u) row) + bias v u))
             (seq 0 units))
      inputs.

(** ** [embedding_lookup] (source lines 517-566) *)

Fixpoint mapM {A B} (f : A -> result B) (l : list A) : result (list B) :=
  match l with
  | [] => Ok []
  | a :: l' => b <- f a ;; bs <- mapM f l' ;; Ok (b :: bs)
  end.

(** The id tensor has rank 2 or rank 3 ([batch_size, seq_length, num_inputs]). *)
Inductive id_tensor : Type :=
| Ids2 (ids : list (list Z))
| Ids3 (ids : list (list (list Z))).

(** [tf.expand_dims(ids, axis=[-1])]. *)
Definition tf_expand_dims_last {A} (ids : list (list A)) : list (list (list A)) :=
  map (map (fun x => [x])) ids.

(** One row of [tf.nn.embedding_lookup(table, ids)]; an index outside the
    table is an error of the gather kernel. *)
Definition gather_row (table : mat) (id : Z) : result vec :=
  if ((0 <=? id) && (id <? Z.of_nat (length table)))%Z
  then Ok (nth (Z.to_nat id) table [])
  else Raise (InvalidArgumentError "indices out of range").

Definition tf_nn_embedding_lookup (table : mat) (ids : list (list (list Z)))
  : result tensor4 :=
  mapM (mapM (mapM (gather_row table))) ids.

(** Source lines 544-545: a rank-2 id tensor gets a last axis of length 1. *)
Definition expand_ids (input_ids : id_tensor) : list (list (list Z)) :=
  match input_ids with
  | Ids2 ids => tf_expand_dims_last ids
  | Ids3 ids => ids
  end.

Definition embedding_lookup (input_ids : id_tensor) (vocab_size : nat)
    (embedding_size : nat) (embedding_table : mat)
    (use_one_hot_embeddings : bool) : result (tensor3 * mat) :=
  let input_ids := expand_ids input_ids in
  let '(b, l, n) := shape3 input_ids in
  output <-
    (if use_one_hot_embeddings then
       let flat_input_ids := flatten3 input_ids in
       let one_hot_input_ids := tf_one_hot flat_input_ids vocab_size in
       let output := tf_matmul one_hot_input_ids embedding_table in
       Ok (tf_reshape3 b l (n * embedding_size) (flatten2 output))
     else
       output <- tf_nn_embedding_lookup embedding_table input_ids ;;
       Ok (tf_reshape3 b l (n * embedding_size) (flatten4 output))) ;;
  Ok (output, embedding_table).

(** ** [cluster_embedding_lookup] (source lines 568-622)

    The table is the variable that [static_initializer] fills from the
    feature file when the model is built. *)

Definition cluster_embedding_lookup (cluster_ids : id_tensor) (cluster_size : nat)
    (embedding_size : nat) (cluster_embedding_table : mat)
    (use_one_hot_embeddings : bool) : result (tensor3 * mat) :=
  let cluster_ids := expand_ids cluster_ids in
  let '(b, l, n) := shape3 cluster_ids in
  cluster_output <-
    (if use_one_hot_embeddings then
       let flat_input_ids := flatten3 cluster_ids in
       let one_hot_input_ids := tf_one_hot flat_input_ids cluster_size in
       let cluster_output := tf_matmul one_hot_input_ids cluster_embedding_table in
       Ok (tf_reshape3 b l (n * embedding_size) (flatten2 cluster_output))
     else
       cluster_output <- tf_nn_embedding_lookup cluster_embedding_table cluster_ids ;;
       Ok (tf_reshape3 b l (n * embedding_size) (flatten4 cluster_output))) ;;
  Ok (cluster_output, cluster_embedding_table).

(** ** [embedding_postprocessor] (source lines 731-852) *)

Definition vec_add (a b : vec) : vec := map2 Rplus a b.
Definition mat_add (a b : mat) : mat := map2 vec_add a b.
Definition tensor3_add (a b : tensor3) : tensor3 := map2 mat_add a b.

(** [output += position_embeddings] with [position_embeddings] of shape
    [[1, seq_length, width]]: the same matrix is added to every batch entry. *)
Definition add_broadcast_batch (output : tensor3) (position_embeddings : tensor3)
  : tensor3 :=
  map (fun o => mat_add o (hd [] position_embeddings)) output.

(** [tf.slice(table, [0, 0], [n, -1])]. *)
Definition tf_slice_rows (table : mat) (n : nat) : mat := firstn n table.

(** The one-hot lookup of the token-type and entity channels, reshaped to
    [[batch_size, seq_length, width]]. *)
Definition one_hot_channel (ids : list (list Z)) (vocab_size : nat) (table : mat)
    (batch_size seq_length width : nat) : tensor3 :=
  let flat_ids := flatten2 ids in
  let one_hot_ids := tf_one_hot flat_ids vocab_size in
  let embeddings := tf_matmul one_hot_ids table in
  tf_reshape3 batch_size seq_length width (flatten2 embeddings).

(** Source lines 779-796: the token-type channel. *)
Definition add_token_type_embeddings (output : tensor3)
    (use_token_type : bool) (token_type_ids : option (list (list Z)))
    (token_type_vocab_size : nat) (token_type_table : mat)
    (batch_size seq_length width : nat) : result tensor3 :=
  if use_token_type then
    match token_type_ids with
    | None =>
        Raise (ValueError
          "`token_type_ids` must be specified if`use_token_type` is True.")
    | Some token_type_ids =>
        let token_type_embeddings :=
          one_hot_channel token_type_ids token_type_vocab_size
            token_type_table batch_size seq_length width in
        Ok (tensor3_add output token_type_embeddings)
    end
  else Ok output.

(** Source lines 798-829: the position channel. *)
Definition add_position_embeddings (output : tensor3)
    (use_position_embeddings : bool) (full_position_embeddings : mat)
    (max_position_embeddings : nat) (seq_length width : nat) : result tensor3 :=
  if use_position_embeddings then
    if (seq_length <=? max_position_embeddings)%nat then
      let position_embeddings :=
        tf_slice_rows full_position_embeddings seq_length in
      let position_embeddings :=
        tf_reshape3 1 seq_length width (flatten2 position_embeddings) in
      Ok (add_broadcast_batch output position_embeddings)
    else Raise (InvalidArgumentError "assert_less_equal")
  else Ok output.

(** Source lines 831-848: the entity channel. *)
Definition add_entity_embeddings (output : tensor3)
    (use_entity_embedding : bool) (entity_type_ids : option (list (list Z)))
    (token_type_vocab_size : nat) (entity_type_table : mat)
    (batch_size seq_length width : nat) : result tensor3 :=
  if use_entity_embedding then
    match entity_type_ids with
    | None =>
        Raise (ValueError
          "`entity_type_ids` must be specified if`use_entity_type` is True.")
    | Some entity_type_ids =>
        let entity_type_embeddings :=
          one_hot_channel entity_type_ids token_type_vocab_size
            entity_type_table batch_size seq_length width in
        Ok (tensor3_add output entity_type_embeddings)
    end
  else Ok output.

Definition embedding_postprocessor (input_tensor : tensor3)
    (use_token_type : bool) (token_type_ids : option (list (list Z)))
    (token_type_vocab_size : nat) (token_type_table : mat)
    (use_position_embeddings : bool) (full_position_embeddings : mat)
    (max_position_embeddings : nat)
    (use_entity_embedding : bool) (entity_type_table : mat)
    (entity_type_ids : option (list (list Z)))
    (dropout_prob : option R) : result tensor3 :=
  let '(batch_size, seq_length, width) := shape3 input_tensor in
  let output := input_tensor in
  output <-
    add_token_type_embeddings output use_token_type token_type_ids
      token_type_vocab_size token_type_table batch_size seq_length width ;;
  output <-
    add_position_embeddings output use_position_embeddings
      full_position_embeddings max_position_embeddings seq_length width ;;
  output <-
    add_entity_embeddings output use_entity_embedding entity_type_ids
      token_type_vocab_size entity_type_table batch_size seq_length width ;;
  Ok (layer_norm_and_dropout EmbeddingsNorm output dropout_prob).

(** ** [create_attention_mask_from_input_mask] (source lines 892-924) *)

(** [a * b] for [a] of shape [[B, F, 1]] and [b] of shape [[B, 1, T]]. *)
Definition broadcast_outer (a b : tensor3) : tensor3 :=
  map2 (fun am bm =>
          map (fun arow => map (fun y => nth 0 arow 0 * y) (nth 0 bm [])) am)
       a b.

Definition create_attention_mask_from_input_mask {A : Type}
    (from_tensor : list (list A)) (to_mask : list (list Z)) : tensor3 :=
  let batch_size := length from_tensor in
  let from_seq_length := width from_tensor in
  let to_seq_length := width to_mask in
  let broadcast_ones : tensor3 :=
    map (map (fun x => [IZR x])) to_mask in
  let to_mask : tensor3 :=
    map (fun row => [map IZR row]) to_mask in
  let mask := broadcast_outer broadcast_ones to_mask in
  mask.

(** ** [get_shape_list], [reshape_to_matrix], [reshape_from_matrix]
    (source lines 1299-1364)

    A tensor handed to the attention layer has rank 2 or rank 3; the rank
    assertions of [get_shape_list] hold by typing. *)

Inductive tensor23 : Type :=
| Rank2 (m : mat)
| Rank3 (t : tensor3).

Definition get_shape_list (tensor : tensor23) : list nat :=
  match tensor with
  | Rank2 m => [length m; width m]
  | Rank3 t => [length t; width t; width (hd [] t)]
  end.

Definition reshape_to_matrix (input_tensor : tensor23) : mat :=
  match input_tensor with
  | Rank2 m => m
  | Rank3 t =>
      let width := width (hd [] t) in
      tf_reshape2 (length t * List.length (hd [] t)) width (flatten3 t)
  end.

(** Called with the shape list of a rank-3 tensor only. *)
Definition reshape_from_matrix (output_tensor : mat)
    (orig_shape_list : nat * nat * nat) : tensor3 :=
  let '(b, l, _) := orig_shape_list in
  let width := width output_tensor in
  tf_reshape3 b l width (flatten2 output_tensor).

(** ** [attention_layer] (source lines 927-1149) *)

Record attention_vars : Type := {
  query_vars : dense_vars;
  key_vars : dense_vars;
  value_vars : dense_vars
}.

(** [tf.transpose(t, [0, 2, 1, 3])] of a tensor of static shape
    [[_, s, n, _]]. *)
Definition tf_transpose_0213 (n s : nat) (t : tensor4) : tensor4 :=
  map (fun m : tensor3 =>
         tabulate n (fun i => tabulate s (fun j => nth i (nth j m []) [])))
      t.

Definition transpose_for_scores (input_tensor : mat)
    (batch_size num_attention_heads seq_length width : nat) : tensor4 :=
  let output_tensor :=
    tf_reshape4 batch_size seq_length num_attention_heads width
      (flatten2 input_tensor) in
  let output_tensor :=
    tf_transpose_0213 num_attention_heads seq_length output_tensor in
  output_tensor.

(** Source lines 1076-1080: the matrix of token distances. *)
Definition distance_matrix (from_seq_length : nat) : list (list Z) :=
  let dist_array := np_arange from_seq_length in
  let dist_attn := np_zeros from_seq_length from_seq_length in
  let dist_attn :=
    fold_left
      (fun dist_attn index =>
         list_set dist_attn index
           (map (fun d => (d - Z.of_nat index)%Z) dist_array))
      (seq 0 (length dist_attn)) dist_attn in
  np_add (np_scale (np_tril dist_attn) (-1)) (np_scale (np_triu dist_attn) 1).

(** Source lines 1081-1082. *)
Definition distance_margin (from_seq_length : nat) : mat :=
  let marg_dist := distance_matrix from_seq_length in
  let marg_dist := tf_cast marg_dist in
  map (fun row => map (fun p => 0.5 - p) (softmax row)) marg_dist.

(** [tf.expand_dims(t, axis=[1])]. *)
Definition tf_expand_dims_1 (t : tensor3) : tensor4 := map (fun m => [m]) t.

(** Sum of a [[B, N, F, T]] tensor and a [[B, 1, F, T]] tensor. *)
Definition add_over_heads (scores bias1 : tensor4) : tensor4 :=
  map2 (fun sb bb => map (fun sn => mat_add sn (hd [] bb)) sb) scores bias1.

Definition tensor4_map (f : R -> R) (t : tensor4) : tensor4 :=
  map (map (map (map f))) t.

(** The values that the statements of the layer hold under their names in
    the source, in the order of the source. *)
Record attention_nodes : Type := {
  raw_attention_scores : tensor4;    (* line 1072 *)
  marg_dist_1082 : mat;              (* line 1082 *)
  marg_dist : tensor4;               (* line 1084 *)
  scaled_attention_scores : tensor4; (* line 1088 *)
  adder : tensor4;                   (* line 1100 *)
  attention_scores : tensor4;        (* line 1108 *)
  attention_probs : tensor4;         (* line 1117 *)
  context_layer : tensor23           (* line 1149 *)
}.

(** Source lines 1007-1023: the sizes [B], [F] and [T]. *)
Definition attention_dims (from_tensor to_tensor : tensor23)
    (batch_size from_seq_length to_seq_length : option nat)
  : result (nat * nat * nat) :=
  let from_shape := get_shape_list from_tensor in
  let to_shape := get_shape_list to_tensor in
  if negb (length from_shape =? length to_shape)%nat then
    Raise (ValueError
      "The rank of `from_tensor` must match the rank of `to_tensor`.")
  else
    match from_shape, to_shape with
    | [b; f; _], [_; t; _] => Ok (b, f, t)
    | _, _ =>
        match batch_size, from_seq_length, to_seq_length with
        | Some b, Some f, Some t => Ok (b, f, t)
        | _, _, _ =>
            Raise (ValueError
              "When passing in rank 2 tensors to attention_layer, the values for `batch_size`, `from_seq_length`, and `to_seq_length` must all be specified.")
        end
    end.

Definition attention_layer_nodes (vars : attention_vars)
    (from_tensor to_tensor : tensor23)
    (attention_mask sub_attention_mask : option tensor3)
    (num_attention_heads size_per_head : nat)
    (query_act key_act value_act : option (R -> R))
    (attention_probs_dropout_prob : option R)
    (do_return_2d_tensor : bool)
    (batch_size from_seq_length to_seq_length : option nat)
  : result attention_nodes :=
  '(batch_size, from_seq_length, to_seq_length) <-
    attention_dims from_tensor to_tensor batch_size from_seq_length
      to_seq_length ;;
  let from_tensor_2d := reshape_to_matrix from_tensor in
  let to_tensor_2d := reshape_to_matrix to_tensor in
  let query_layer :=
    tf_layers_dense (query_vars vars) from_tensor_2d
      (num_attention_heads * size_per_head) query_act in
  let key_layer :=
    tf_layers_dense (key_vars vars) to_tensor_2d
      (num_attention_heads * size_per_head) key_act in
  let value_layer :=
    tf_layers_dense (value_vars vars) to_tensor_2d
      (num_attention_heads * size_per_head) value_act in
  let query_layer :=
    transpose_for_scores query_layer batch_size num_attention_heads
      from_seq_length size_per_head in
  let key_layer :=
    transpose_for_scores key_layer batch_size num_attention_heads
      to_seq_length size_per_head in
  let raw_scores := map2 (map2 tf_matmul_transpose_b) query_layer key_layer in
  (* distance adjusted attention mechanism *)
  let marg_dist := distance_margin from_seq_length in
  match attention_mask with
  | None => Raise (ValueError "None values not supported.")
  | Some attention_mask =>
      let marg_dist_1082 := marg_dist in
      let marg_dist :=
        map (fun m => map2 (map2 Rmult) m marg_dist) attention_mask in
      let marg_dist := tf_expand_dims_1 marg_dist in
      let biased_scores := add_over_heads raw_scores marg_dist in
      if (size_per_head =? 0)%nat then Raise ZeroDivisionError
      else
      let scaled_scores :=
        tensor4_map (fun x => x * (1 / sqrt (INR size_per_head)))
          biased_scores in
      let attention_mask := tf_expand_dims_1 attention_mask in
      let adder := tensor4_map (fun x => (1 - x) * -10000) attention_mask in
      let attention_scores := add_over_heads scaled_scores adder in
      let attention_probs := map (map (map softmax)) attention_scores in
      let dropped_probs := dropout attention_probs attention_probs_dropout_prob in
      let value_layer :=
        tf_reshape4 batch_size to_seq_length num_attention_heads size_per_head
          (flatten2 value_layer) in
      let value_layer :=
        tf_transpose_0213 num_attention_heads to_seq_length value_layer in
      let context_layer := map2 (map2 tf_matmul) dropped_probs value_layer in
      let context_layer :=
        tf_transpose_0213 from_seq_length num_attention_heads context_layer in
      let context_layer :=
        if do_return_2d_tensor then
          Rank2 (tf_reshape2 (batch_size * from_seq_length)
                   (num_attention_heads * size_per_head)
                   (flatten4 context_layer))
        else
          Rank3 (tf_reshape3 batch_size from_seq_length
                   (num_attention_heads * size_per_head)
                   (flatten4 context_layer)) in
      Ok {| raw_attention_scores := raw_scores;
            marg_dist_1082 := marg_dist_1082;
            marg_dist := marg_dist;
            scaled_attention_scores := scaled_scores;
            adder := adder;
            attention_scores := attention_scores;
            attention_probs := attention_probs;
            context_layer := context_layer |}
  end.

Definition attention_layer (vars : attention_vars)
    (from_tensor to_tensor : tensor23)
    (attention_mask sub_attention_mask : option tensor3)
    (num_attention_heads size_per_head : nat)
    (query_act key_act value_act : option (R -> R))
    (attention_probs_dropout_prob : option R)
    (do_return_2d_tensor : bool)
    (batch_size from_seq_length to_seq_length : option nat)
  : result tensor23 :=
  nodes <- attention_layer_nodes vars from_tensor to_tensor attention_mask
             sub_attention_mask num_attention_heads size_per_head
             query_act key_act value_act attention_probs_dropout_prob
             do_return_2d_tensor batch_size from_seq_length to_seq_length ;;
  Ok (context_layer nodes).

(** ** [transformer_model] (source lines 1152-1296) *)

Record layer_vars : Type := {
  attention_self_vars : attention_vars;
  attention_output_vars : dense_vars;
  intermediate_vars : dense_vars;
  output_vars : dense_vars
}.

Inductive transformer_output : Type :=
| AllLayers (final_outputs : list tensor3)
| FinalLayer (final_output : tensor3).

(** [int(hidden_size / num_attention_heads)], taken after the divisibility
    check. *)
Definition attention_head_size_of (hidden_size num_attention_heads : nat) : nat :=
  (hidden_size / num_attention_heads)%nat.

(** One pass of the loop body (source lines 1227-1286). *)
Definition transformer_layer (vars : nat -> layer_vars)
    (attention_mask sub_attention_mask : option tensor3)
    (hidden_size num_attention_heads attention_head_size intermediate_size : nat)
    (intermediate_act_fn : option (R -> R))
    (hidden_dropout_prob attention_probs_dropout_prob : option R)
    (batch_size seq_length : nat)
    (state : mat * list mat) (layer_idx : nat) : result (mat * list mat) :=
  let '(prev_output, all_layer_outputs) := state in
  let layer_input := prev_output in
  attention_head <-
    attention_layer (attention_self_vars (vars layer_idx))
      (Rank2 layer_input) (Rank2 layer_input)
      attention_mask sub_attention_mask
      num_attention_heads attention_head_size None None None
      attention_probs_dropout_prob true
      (Some batch_size) (Some seq_length) (Some seq_length) ;;
  let attention_heads := [attention_head] in
  (* [len(attention_heads) == 1], and the head is a matrix *)
  let attention_output := reshape_to_matrix (hd (Rank2 []) attention_heads) in
  let attention_output :=
    tf_layers_dense (attention_output_vars (vars layer_idx))
      attention_output hidden_size None in
  let attention_output := dropout attention_output hidden_dropout_prob in
  let attention_output :=
    layer_norm (AttentionOutputNorm layer_idx)
      (mat_add attention_output layer_input) in
  let intermediate_output :=
    tf_layers_dense (intermediate_vars (vars layer_idx))
      attention_output intermediate_size intermediate_act_fn in
  let layer_output :=
    tf_layers_dense (output_vars (vars layer_idx))
      intermediate_output hidden_size None in
  let layer_output := dropout layer_output hidden_dropout_prob in
  let layer_output :=
    layer_norm (OutputNorm layer_idx) (mat_add layer_output attention_output) in
  Ok (layer_output, all_layer_outputs ++ [layer_output]).

(** Source lines 1208-1296: the stack, for a given head size. *)
Definition transformer_stack (vars : nat -> layer_vars)
    (input_tensor : tensor3)
    (attention_mask sub_attention_mask : option tensor3)
    (hidden_size num_hidden_layers num_attention_heads attention_head_size
       intermediate_size : nat)
    (intermediate_act_fn : option (R -> R))
    (hidden_dropout_prob attention_probs_dropout_prob : option R)
    (do_return_all_layers : bool) : result transformer_output :=
  let input_shape := shape3 input_tensor in
  let '(batch_size, seq_length, input_width) := input_shape in
  if negb (input_width =? hidden_size)%nat then
    Raise (ValueError "The width of the input tensor != hidden size")
  else
  let prev_output := reshape_to_matrix (Rank3 input_tensor) in
  '(prev_output, all_layer_outputs) <-
    foldM (transformer_layer vars attention_mask sub_attention_mask
             hidden_size num_attention_heads attention_head_size
             intermediate_size intermediate_act_fn
             hidden_dropout_prob attention_probs_dropout_prob
             batch_size seq_length)
          (seq 0 num_hidden_layers) (prev_output, []) ;;
  if do_return_all_layers then
    Ok (AllLayers
          (map (fun layer_output => reshape_from_matrix layer_output input_shape)
               all_layer_outputs))
  else
    Ok (FinalLayer (reshape_from_matrix prev_output input_shape)).

Definition not_a_multiple : error :=
  ValueError
    "The hidden size is not a multiple of the number of attention heads".

Definition transformer_model (vars : nat -> layer_vars)
    (input_tensor : tensor3)
    (attention_mask sub_attention_mask : option tensor3)
    (hidden_size num_hidden_layers num_attention_heads intermediate_size : nat)
    (intermediate_act_fn : option (R -> R))
    (hidden_dropout_prob attention_probs_dropout_prob : option R)
    (do_return_all_layers : bool) : result transformer_output :=
  (* [hidden_size % 0] raises *)
  if (num_attention_heads =? 0)%nat then Raise ZeroDivisionError
  else
  if negb (hidden_size mod num_attention_heads =? 0)%nat then
    Raise not_a_multiple
  else
  let attention_head_size :=
    attention_head_size_of hidden_size num_attention_heads in
  transformer_stack vars input_tensor attention_mask sub_attention_mask
    hidden_size num_hidden_layers num_attention_heads attention_head_size
    intermediate_size intermediate_act_fn
    hidden_dropout_prob attention_probs_dropout_prob do_return_all_layers.

(** ** [BertConfig] and [BertModel] (source lines 34-363) *)

Record BertConfig : Type := {
  vocab_size : nat;
  hidden_size : nat;
  num_hidden_layers : nat;
  num_attention_heads : nat;
  intermediate_size : nat;
  hidden_act : activation_arg;
  hidden_dropout_prob : option R;
  attention_probs_dropout_prob : option R;
  max_position_embeddings : nat;
  type_vocab_size : nat;
  initializer_range : R;
  cluster_size : nat
}.

(** The learned variables of the model, by variable scope. *)
Record bert_vars : Type := {
  word_embeddings : mat;
  cluster_embeddings : mat;
  token_type_embeddings : mat;
  position_embeddings : mat;
  entity_embeddings : mat;
  encoder_vars : nat -> layer_vars;
  pooler_vars : dense_vars
}.

(** The attributes that [__init__] sets. *)
Record BertModel_attrs : Type := {
  word_output : tensor3;
  embedding_table : mat;
  cluster_output : tensor3;
  cluster_embedding_table : mat;
  embedding_output : tensor3;
  all_encoder_layers : list tensor3;
  sequence_output : tensor3;
  pooled_output : mat
}.

(** [l[i]] of Python for [i >= 0]. *)
Definition py_index {A} (l : list A) (i : nat) : result A :=
  match nth_error l i with
  | Some x => Ok x
  | None => Raise IndexError
  end.

(** [l[-1]] of Python. *)
Definition py_last {A} (l : list A) : result A :=
  match rev l with
  | x :: _ => Ok x
  | [] => Raise IndexError
  end.

(** [tf.squeeze(t, axis=1)]: the axis must have length 1. *)
Definition tf_squeeze_axis1 (t : tensor3) : result mat :=
  mapM (fun m : mat =>
          match m with
          | [row] => Ok row
          | _ => Raise (ValueError "Can not squeeze dim[1]")
          end) t.

(** [tf.where(tf.equal(ids, v))]: the coordinates of the entries equal to
    [v], in row-major order. *)
Definition tf_where_equal (ids : list (list Z)) (v : Z) : list (nat * nat) :=
  concat
    (mapi (fun b row =>
             concat (mapi (fun l x => if (x =? v)%Z then [(b, l)] else []) row))
          ids).

Definition tf_gather_nd (t : tensor3) (index : list (nat * nat)) : mat :=
  map (fun bl => nth (snd bl) (nth (fst bl) t []) []) index.

(** Source lines 311-314: the hidden state at the terminal token. *)
Definition second_token_tensor_of (sequence_output : tensor3)
    (input_ids : list (list Z)) : mat :=
  let index := tf_where_equal input_ids 1475 in
  let second_token_tensor := tf_gather_nd sequence_output index in
  let '(b, _, h) := shape3 sequence_output in
  tf_reshape2 b h (flatten2 second_token_tensor).

(** Source lines 303-320. *)
Definition pooler (vars : dense_vars) (sequence_output : tensor3)
    (input_ids : list (list Z)) (hidden_size : nat) : result mat :=
  first_token_tensor <- tf_squeeze_axis1 (map (firstn 1) sequence_output) ;;
  let second_token_tensor := second_token_tensor_of sequence_output input_ids in
  Ok (tf_layers_dense vars first_token_tensor hidden_size (Some tanh)).

Definition tf_ones (r c : nat) : list (list Z) := repeat (repeat 1%Z c) r.
Definition tf_zeros (r c : nat) : list (list Z) := repeat (repeat 0%Z c) r.

Definition eval_config (config : BertConfig) : BertConfig :=
  {| vocab_size := vocab_size config;
     hidden_size := hidden_size config;
     num_hidden_layers := num_hidden_layers config;
     num_attention_heads := num_attention_heads config;
     intermediate_size := intermediate_size config;
     hidden_act := hidden_act config;
     hidden_dropout_prob := Some 0;
     attention_probs_dropout_prob := Some 0;
     max_position_embeddings := max_position_embeddings config;
     type_vocab_size := type_vocab_size config;
     initializer_range := initializer_range config;
     cluster_size := cluster_size config |}.

(** [BertModel.__init__].  The result is [None] when [layer_def[0]] is
    false and the constructor sets no attribute.  [feature_locale],
    [kernel_size] and [scope] only name files and variables. *)
Definition BertModel (vars : bert_vars) (config : BertConfig)
    (is_training : bool) (layer_def : list bool)
    (input_ids cluster_ids context_ids : list (list Z))
    (input_mask context_mask token_type_ids : option (list (list Z)))
    (use_one_hot_embeddings : bool) : result (option BertModel_attrs) :=
  let config := if negb is_training then eval_config config else config in
  let '(batch_size, seq_length) := shape2 input_ids in
  let input_mask :=
    match input_mask with
    | None => tf_ones batch_size seq_length
    | Some m => m
    end in
  let context_mask :=
    match context_mask with
    | None => tf_ones batch_size seq_length
    | Some m => m
    end in
  let token_type_ids :=
    match token_type_ids with
    | None => tf_zeros batch_size seq_length
    | Some m => m
    end in
  flag0 <- py_index layer_def 0 ;;
  if flag0 : bool then
    '(word_output, embedding_table) <-
      embedding_lookup (Ids2 input_ids) (vocab_size config)
        (hidden_size config) (word_embeddings vars) use_one_hot_embeddings ;;
    let embedding_output := word_output in
    '(cluster_output, cluster_embedding_table) <-
      cluster_embedding_lookup (Ids2 cluster_ids) (cluster_size config)
        (hidden_size config) (cluster_embeddings vars)
        use_one_hot_embeddings ;;
    let embedding_output := tensor3_add cluster_output embedding_output in
    flag2 <- py_index layer_def 2 ;;
    flag3 <- py_index layer_def 3 ;;
    embedding_output <-
      embedding_postprocessor embedding_output
        flag2 (Some token_type_ids) (type_vocab_size config)
        (token_type_embeddings vars)
        flag3 (position_embeddings vars) (max_position_embeddings config)
        false (entity_embeddings vars) (Some context_mask)
        (hidden_dropout_prob config) ;;
    flag0' <- py_index layer_def 0 ;;
    '(all_encoder_layers, sequence_output) <-
      (if flag0' : bool then
         let attention_mask :=
           create_attention_mask_from_input_mask input_ids input_mask in
         let sub_attention_mask :=
           create_attention_mask_from_input_mask input_ids context_mask in
         intermediate_act_fn <- get_activation (hidden_act config) ;;
         out <-
           transformer_model (encoder_vars vars) embedding_output
             (Some attention_mask) (Some sub_attention_mask)
             (hidden_size config) (num_hidden_layers config)
             (num_attention_heads config) (intermediate_size config)
             intermediate_act_fn
             (hidden_dropout_prob config)
             (attention_probs_dropout_prob config) true ;;
         let all_encoder_layers :=
           match out with
           | AllLayers final_outputs => final_outputs
           | FinalLayer final_output => [final_output]
           end in
         sequence_output <- py_last all_encoder_layers ;;
         Ok (all_encoder_layers, sequence_output)
       else Raise AttributeError) ;;
    pooled_output <-
      pooler (pooler_vars vars) sequence_output input_ids (hidden_size config) ;;
    Ok (Some {| word_output := word_output;
                embedding_table := embedding_table;
                cluster_output := cluster_output;
                cluster_embedding_table := cluster_embedding_table;
                embedding_output := embedding_output;
                all_encoder_layers := all_encoder_layers;
                sequence_output := sequence_output;
                pooled_output := pooled_output |})
  else Ok None.

End Model.

(** ** The distance bias in the words of the specification

    Entry [(i, j)] of the base matrix is [j - i]; entries strictly below
    the diagonal are negated, entries strictly above are kept, the diagonal
    is zero. *)

Definition signed_offset (i j : nat) : Z := (Z.of_nat j - Z.of_nat i)%Z.

Definition margin_entry (i j : nat) : Z :=
  if (j <? i)%nat then (- signed_offset i j)%Z
  else if (i <? j)%nat then signed_offset i j
  else 0%Z.

Definition margin_row (F i : nat) : vec :=
  tabulate F (fun j => IZR (margin_entry i j)).

(** The bias at batch entry [b], from-position [i] and to-position [j]. *)
Definition distance_bias_spec (F : nat) (attention_mask : tensor3)
    (b i j : nat) : R :=
  nth3 attention_mask b i j 0 * (0.5 - nth j (softmax (margin_row F i)) 0).

(** ** Shapes as propositions *)

Definition shaped2 {A} (r c : nat) (m : list (list A)) : Prop :=
  length m = r /\ forall i, (i < r)%nat -> length (nth i m []) = c.

Definition shaped3 {A} (b r c : nat) (t : list (list (list A))) : Prop :=
  length t = b /\ forall i, (i < b)%nat -> shaped2 r c (nth i t []).

Definition shaped4 {A} (b n r c : nat) (t : list (list (list (list A)))) : Prop :=
  length t = b /\ forall i, (i < b)%nat -> shaped3 n r c (nth i t []).

(** Every id lies in [[0, V)]. *)
Definition valid_ids (V : nat) (ids : list (list (list Z))) : bool :=
  forallb (fun id => (0 <=? id)%Z && (id <? Z.of_nat V)%Z) (flatten3 ids).

(** ** A TensorFlow and variables on which the model can be run

    Dropout keeps every entry, layer normalisation and erf are the
    identity; every dense layer has the identity kernel and no bias. *)

Definition plain_tf : TensorFlow :=
  {| tf_random_keep := fun _ _ => true;
     tf_contrib_layers_layer_norm := fun _ v => v;
     tf_erf := fun x => x |}.

Definition identity_dense : dense_vars :=
  {| kernel := fun k u => if (k =? u)%nat then 1 else 0;
     bias := fun _ => 0 |}.

Definition identity_attention : attention_vars :=
  {| query_vars := identity_dense;
     key_vars := identity_dense;
     value_vars := identity_dense |}.

Definition identity_layer : layer_vars :=
  {| attention_self_vars := identity_attention;
     attention_output_vars := identity_dense;
     intermediate_vars := identity_dense;
     output_vars := identity_dense |}.

Definition sample_config : BertConfig :=
  {| vocab_size := 2;
     hidden_size := 1;
     num_hidden_layers := 1;
     num_attention_heads := 1;
     intermediate_size := 1;
     hidden_act := ActivationName "tanh";
     hidden_dropout_prob := None;
     attention_probs_dropout_prob := None;
     max_position_embeddings := 2;
     type_vocab_size := 2;
     initializer_range := 0.02;
     cluster_size := 2 |}.

Definition sample_vars : bert_vars :=
  {| word_embeddings := [[1]; [2]];
     cluster_embeddings := [[3]; [4]];
     token_type_embeddings := [[5]; [6]];
     position_embeddings := [[7]; [8]];
     entity_embeddings := [];
     encoder_vars := fun _ => identity_layer;
     pooler_vars := identity_dense |}.

(** Whether a construction ends with the attributes set. *)
Definition sets_attributes (r : result (option BertModel_attrs)) : bool :=
  match r with
  | Ok (Some _) => true
  | _ => false
  end.

(** ** Python dictionaries

    A [dict] (and an [OrderedDict]) keeps its items in insertion order;
    assigning to a key that is present replaces its value in place. *)

Definition dict (V : Type) : Type := list (string * V).

Fixpoint dict_get {V} (d : dict V) (k : string) : option V :=
  match d with
  | [] => None
  | (k', v) :: d' => if String.eqb k' k then Some v else dict_get d' k
  end.

Fixpoint dict_set {V} (d : dict V) (k : string) (v : V) : dict V :=
  match d with
  | [] => [(k, v)]
  | (k', v') :: d' =>
      if String.eqb k' k then (k', v) :: d' else (k', v') :: dict_set d' k v
  end.

Definition dict_keys {V} (d : dict V) : list string := map fst d.

(** [for (key, value) in items: d[key] = value]. *)
Definition dict_update {V} (d : dict V) (items : list (string * V)) : dict V :=
  fold_left (fun d kv => dict_set d (fst kv) (snd kv)) items d.

(** ** [BertConfig] as the dictionary of its attributes
    (source lines 34-109) *)

Inductive pyval : Type :=
| PyNone
| PyBool (b : bool)
| PyInt (n : Z)
| PyFloat (x : R)
| PyStr (s : string).

(** [BertConfig.__init__]: the attributes in the order they are assigned. *)
Definition BertConfig_init (vocab_size : pyval) : dict pyval :=
  [ ("vocab_size"%string, vocab_size);
    ("hidden_size"%string, PyInt 768);
    ("num_hidden_layers"%string, PyInt 12);
    ("num_attention_heads"%string, PyInt 12);
    ("hidden_act"%string, PyStr "gelu");
    ("intermediate_size"%string, PyInt 3072);
    ("hidden_dropout_prob"%string, PyFloat 0.1);
    ("attention_probs_dropout_prob"%string, PyFloat 0.1);
    ("max_position_embeddings"%string, PyInt 512);
    ("type_vocab_size"%string, PyInt 16);
    ("initializer_range"%string, PyFloat 0.02) ].

(** [BertConfig.from_dict]: the [__dict__] of the new object. *)
Definition from_dict (json_object : dict pyval) : dict pyval :=
  let config := BertConfig_init PyNone in
  dict_update config json_object.

(** [BertConfig.to_dict]: a deep copy of [__dict__]. *)
Definition to_dict (config : dict pyval) : dict pyval := config.

(** ** [get_assignment_map_from_checkpoint] (source lines 420-453)

    Names are strings without line breaks, with ASCII digits. *)

Definition is_digit (c : ascii) : bool :=
  let n := nat_of_ascii c in ((48 <=? n) && (n <=? 57))%nat.

Fixpoint all_digits (s : string) : bool :=
  match s with
  | EmptyString => true
  | String c s' => is_digit c && all_digits s'
  end.

(** The parts before and after the last colon. *)
Fixpoint split_last_colon (s : string) : option (string * string) :=
  match s with
  | EmptyString => None
  | String c s' =>
      match split_last_colon s' with
      | Some (p, q) => Some (String c p, q)
      | None => if Ascii.eqb c ":" then Some (EmptyString, s') else None
      end
  end.

(** The match of the name against the pattern of the source (anything,
    a colon, digits up to the end) and its first group: the greedy group
    ends at the last colon, which digits only, and at least one, follow. *)
Definition re_match_port (name : string) : option string :=
  match split_last_colon name with
  | Some (p, q) =>
      if negb (String.eqb q "") && all_digits q then Some p else None
  | None => None
  end.

Definition is_output_head (name : string) : bool :=
  String.eqb name "output_weights:0" || String.eqb name "output_bias:0".

(** The first loop (source lines 427-440). *)
Definition name_to_variable_of {Var : Type} (var_name : Var -> string)
    (tvars : list Var) : dict Var :=
  fold_left
    (fun name_to_variable var =>
       let name := var_name var in
       if is_output_head name then name_to_variable
       else
         let name :=
           match re_match_port name with
           | Some group1 => group1
           | None => name
           end in
         dict_set name_to_variable name var)
    tvars [].

(** [init_vars] is what [tf.train.list_variables] reads from the
    checkpoint: names with shapes. *)
Definition get_assignment_map_from_checkpoint {Var Shape : Type}
    (var_name : Var -> string) (tvars : list Var)
    (init_vars : list (string * Shape)) : dict Var * dict nat :=
  let name_to_variable := name_to_variable_of var_name tvars in
  fold_left
    (fun maps x =>
       let '(assignment_map, initialized_variable_names) := maps in
       let name := fst x in
       match dict_get name_to_variable name with
       | None => maps
       | Some var =>
           (dict_set assignment_map name var,
            dict_set (dict_set initialized_variable_names name 1%nat)
              (name ++ ":0") 1%nat)
       end)
    init_vars ([], []).

(** ** [static_initializer] (source lines 494-514)

    [reader] is the list of rows that [csv.reader] yields, [py_float s] is
    [float(s.strip())], [None] when Python raises. *)

(** [s.split(sep)] for a separator of one character. *)
Fixpoint split_on (sep : ascii) (s : string) : list string :=
  match s with
  | EmptyString => [EmptyString]
  | String c s' =>
      if Ascii.eqb c sep then EmptyString :: split_on sep s'
      else
        match split_on sep s' with
        | h :: t => String c h :: t
        | [] => [String c EmptyString]
        end
  end.

(** [m[index] = row] of numpy for a matrix with [ncols] columns: the index
    must be in range, a row of length 1 is broadcast. *)
Definition np_assign_row (m : mat) (ncols index : nat) (row : vec)
  : result mat :=
  if (index <? length m)%nat then
    if (length row =? ncols)%nat then Ok (list_set m index row)
    else if (length row =? 1)%nat then
      Ok (list_set m index (repeat (hd 0 row) ncols))
    else Raise (ValueError "could not broadcast input array")
  else Raise IndexError.

Definition static_initializer (py_float : string -> option R)
    (reader : list (list string)) (cluster_size embedding_size : nat)
  : result mat :=
  let static_embed := repeat (repeat 0 embedding_size) cluster_size in
  state <-
    foldM
      (fun (state : mat * nat) (line : list string) =>
         let '(static_embed, index) := state in
         field <- py_index line 1 ;;
         decoyArray <-
           mapM (fun currVal =>
                   match py_float currVal with
                   | Some x => Ok x
                   | None =>
                       Raise (ValueError "could not convert string to float")
                   end)
                (split_on "," field) ;;
         static_embed <-
           np_assign_row static_embed embedding_size index decoyArray ;;
         Ok (static_embed, S index))
      reader (static_embed, 0%nat) ;;
  Ok (fst state).

(** ** [distance_embedding_lookup] (source lines 625-670) *)

Definition mat_sub (a b : mat) : mat := map2 (map2 Rminus) a b.

Definition distance_embedding_lookup (input_ids : id_tensor)
    (distance_size embedding_size : nat) (distance_embedding_table : mat)
  : tensor3 * mat :=
  let input_ids := expand_ids input_ids in
  let distance_correlation_tensor :=
    tf_matmul_transpose_b distance_embedding_table distance_embedding_table in
  let marg_dist := distance_matrix distance_size in
  let marg_dist := tf_cast marg_dist in
  let marg_dist := map softmax marg_dist in
  let distance_correlation_tensor :=
    mat_sub distance_correlation_tensor marg_dist in
  let distance_output :=
    tf_matmul distance_correlation_tensor distance_embedding_table in
  let flat_mask_ids := flatten3 input_ids in
  let one_hot_mask := tf_one_hot flat_mask_ids distance_size in
  let distance_output := tf_matmul one_hot_mask distance_output in
  let '(b, l, n) := shape3 input_ids in
  let distance_output :=
    tf_reshape3 b l (n * embedding_size) (flatten2 distance_output) in
  (distance_output, distance_embedding_table).

(** ** [context_embedding_lookup] (source lines 673-729) *)


(** ** [context_postprocessor] (source lines 855-890) *)

Definition context_postprocessor (input_tensor : tensor3)
    (use_context_type : bool) (mask_ids : option (list (list Z)))
    (mask_type_table : mat) : result tensor3 :=
  let '(batch_size, seq_length, width) := shape3 input_tensor in
  let output := input_tensor in
  output <-
    (if use_context_type then
       match mask_ids with
       | None =>
           Raise (ValueError "`mask_ids` must be specified if`mask_ids` is True.")
       | Some mask_ids =>
           let mask_type_embeddings :=
             one_hot_channel mask_ids 2 mask_type_table
               batch_size seq_length width in
           Ok (tensor3_add output mask_type_embeddings)
       end
     else Ok output) ;;
  Ok output.

(** What a one-hot lookup selects for an id: the row of the table, or
    zeros for an id outside [[0, V)]. *)
Definition in_vocab (V : nat) (id : Z) : bool :=
  ((0 <=? id) && (id <? Z.of_nat V))%Z.

Definition row_or_zeros (table : mat) (V E : nat) (id : Z) : vec :=
  if in_vocab V id then nth (Z.to_nat id) table [] else repeat 0 E.

(** The key under which a live variable is looked up in the checkpoint:
    its name without the [:<digits>] suffix of the output port. *)
Definition checkpoint_key (name : string) : string :=
  match re_match_port name with
  | Some group1 => group1
  | None => name
  end.

(** The activations that [get_activation] knows by name. *)
Definition known_activation_names : list string :=
  [ ""; "linear"; "relu"; "gelu"; "tanh" ]%string.

(** The row that [static_initializer] writes for a line of the file:
    the second field, split at the commas and converted, a single value
    filling the whole row. *)
Definition embedding_row (py_float : string -> option R)
    (embedding_size : nat) (line : list string) : result vec :=
  field <- py_index line 1 ;;
  decoyArray <-
    mapM (fun currVal =>
            match py_float currVal with
            | Some x => Ok x
            | None => Raise (ValueError "could not convert string to float")
            end)
         (split_on "," field) ;;
  if (length decoyArray =? embedding_size)%nat then Ok decoyArray
  else if (length decoyArray =? 1)%nat then
    Ok (repeat (hd 0 decoyArray) embedding_size)
  else Raise (ValueError "could not broadcast input array").

(** ** Basic facts on lists *)

Lemma length_map2 {A B C} (f : A -> B -> C) (xs : list A) (ys : list B) :
  length (map2 f xs ys) = Nat.min (length xs) (length ys).
Proof.
  revert ys; induction xs as [|x xs IH]; intros [|y ys]; simpl; auto.
Qed.

Lemma nth_map2 {A B C} (f : A -> B -> C) (xs : list A) (ys : list B) i da db dc :
  (i < length xs)%nat -> (i < length ys)%nat ->
  nth i (map2 f xs ys) dc = f (nth i xs da) (nth i ys db).
Proof.
  revert ys i; induction xs as [|x xs IH]; intros [|y ys] [|i]; simpl;
    intros Hx Hy; try lia; auto.
  apply IH; lia.
Qed.

Lemma map2_seq_shift {B C} (f : nat -> B -> C) (s : nat) (ys : list B) :
  map2 f (seq (S s) (length ys)) ys = map2 (fun i => f (S i)) (seq s (length ys)) ys.
Proof.
  revert s; induction ys as [|y ys IH]; intros s; simpl; auto.
  f_equal. apply IH.
Qed.

Lemma length_mapi {B C} (f : nat -> B -> C) (l : list B) :
  length (mapi f l) = length l.
Proof.
  unfold mapi. rewrite length_map2, length_seq. apply Nat.min_id.
Qed.

Lemma nth_mapi {B C} (f : nat -> B -> C) (l : list B) i db dc :
  (i < length l)%nat -> nth i (mapi f l) dc = f i (nth i l db).
Proof.
  intros Hi. unfold mapi.
  rewrite (nth_map2 f _ _ i 0%nat db) by (rewrite ?length_seq; lia).
  rewrite seq_nth by lia. reflexivity.
Qed.

Lemma length_tabulate {C} (n : nat) (f : nat -> C) : length (tabulate n f) = n.
Proof. unfold tabulate. now rewrite length_map, length_seq. Qed.

Lemma nth_tabulate {C} (n : nat) (f : nat -> C) i d :
  (i < n)%nat -> nth i (tabulate n f) d = f i.
Proof.
  intros Hi. unfold tabulate.
  rewrite (nth_indep _ d (f 0%nat)) by (rewrite length_map, length_seq; lia).
  rewrite map_nth, seq_nth by lia. reflexivity.
Qed.

Lemma length_list_set {C} (l : list C) i x : length (list_set l i x) = length l.
Proof.
  revert i; induction l as [|h t IH]; intros [|i]; simpl; auto.
Qed.

Lemma nth_list_set {C} (l : list C) i k x d :
  nth k (list_set l i x) d =
  if ((k =? i) && (k <? length l))%nat then x else nth k l d.
Proof.
  revert i k; induction l as [|h t IH]; intros i k.
  - destruct i, k; simpl; rewrite ?andb_false_r; reflexivity.
  - destruct i as [|i], k as [|k]; simpl; try reflexivity.
    rewrite IH. reflexivity.
Qed.

(** ** The matrix of token distances *)

Ltac nat_cases :=
  repeat match goal with
         | |- context [(?a <=? ?b)%nat] => destruct (Nat.leb_spec a b)
         | |- context [(?a <? ?b)%nat] => destruct (Nat.ltb_spec a b)
         | |- context [(?a =? ?b)%nat] => destruct (Nat.eqb_spec a b)
         end;
  simpl; try reflexivity; try lia; try congruence.

Lemma fold_set_rows {C} (f : nat -> C) (k s : nat) (acc : list C) :
  length (fold_left (fun a i => list_set a i (f i)) (seq s k) acc) = length acc /\
  forall i d,
    nth i (fold_left (fun a i => list_set a i (f i)) (seq s k) acc) d =
    if ((s <=? i) && (i <? s + k) && (i <? length acc))%nat then f i
    else nth i acc d.
Proof.
  revert s acc; induction k as [|k IH]; intros s acc; simpl.
  - split; [reflexivity|]. intros i d. nat_cases.
  - destruct (IH (S s) (list_set acc s (f s))) as [HL HN].
    split; [rewrite HL; apply length_list_set|].
    intros i d. rewrite HN, length_list_set, nth_list_set. nat_cases.
Qed.

Lemma nth_map_in {A B} (f : A -> B) (l : list A) i da db :
  (i < length l)%nat -> nth i (map f l) db = f (nth i l da).
Proof.
  intros H. rewrite (nth_indep _ db (f da)) by (rewrite length_map; lia).
  apply map_nth.
Qed.

Lemma length_np_zeros r c : length (np_zeros r c) = r.
Proof. unfold np_zeros. apply repeat_length. Qed.

Lemma length_np_arange n : length (np_arange n) = n.
Proof. unfold np_arange. now rewrite length_map, length_seq. Qed.

Lemma nth_np_arange n j d : (j < n)%nat -> nth j (np_arange n) d = Z.of_nat j.
Proof.
  intros H. change (nth j (tabulate n Z.of_nat) d = Z.of_nat j).
  now apply (nth_tabulate n Z.of_nat).
Qed.

Lemma length_distance_matrix F : length (distance_matrix F) = F.
Proof.
  unfold distance_matrix, np_add, np_scale, np_tril, np_triu.
  rewrite length_map2, !length_map, !length_mapi.
  destruct (fold_set_rows (fun index => map (fun d => (d - Z.of_nat index)%Z) (np_arange F))
              (length (np_zeros F F)) 0 (np_zeros F F)) as [HL _].
  rewrite HL, length_np_zeros. apply Nat.min_id.
Qed.

Lemma distance_matrix_row F i :
  (i < F)%nat ->
  nth i (distance_matrix F) [] = tabulate F (fun j => margin_entry i j).
Proof.
  intros Hi. unfold distance_matrix.
  destruct (fold_set_rows (fun index => map (fun d => (d - Z.of_nat index)%Z) (np_arange F))
              (length (np_zeros F F)) 0 (np_zeros F F)) as [HL HN].
  set (dist_attn := fold_left _ _ _) in *.
  rewrite length_np_zeros in *.
  assert (Hrow : nth i dist_attn [] = map (fun d => (d - Z.of_nat i)%Z) (np_arange F)).
  { rewrite HN. simpl. nat_cases. }
  assert (Hlen : length (nth i dist_attn []) = F).
  { rewrite Hrow, length_map. apply length_np_arange. }
  unfold np_add, np_scale, np_tril, np_triu.
  rewrite (nth_map2 _ _ _ i [] []) by (rewrite length_map, length_mapi; lia).
  rewrite !(nth_map_in _ _ i []) by (rewrite length_mapi; lia).
  rewrite !(nth_mapi _ _ i []) by lia.
  apply nth_ext with (d := 0%Z) (d' := 0%Z).
  - rewrite length_map2, !length_map, !length_mapi, Hlen, length_tabulate.
    apply Nat.min_id.
  - intros j Hj.
    rewrite length_map2, !length_map, !length_mapi, Hlen, Nat.min_id in Hj.
    rewrite (nth_map2 _ _ _ j 0%Z 0%Z) by (rewrite length_map, length_mapi; lia).
    rewrite nth_tabulate by lia.
    rewrite !(nth_map_in _ _ j 0%Z) by (rewrite length_mapi; lia).
    rewrite !(nth_mapi _ _ j 0%Z) by lia.
    rewrite Hrow.
    rewrite (nth_map_in _ _ j 0%Z) by (rewrite length_np_arange; lia).
    rewrite nth_np_arange by lia.
    unfold margin_entry, signed_offset. nat_cases.
Qed.

Lemma length_softmax v : length (softmax v) = length v.
Proof. unfold softmax. apply length_map. Qed.

Lemma length_distance_margin F : length (distance_margin F) = F.
Proof.
  unfold distance_margin, tf_cast. rewrite !length_map. apply length_distance_matrix.
Qed.

Lemma distance_margin_row F i :
  (i < F)%nat ->
  nth i (distance_margin F) [] =
  map (fun p => 0.5 - p) (softmax (margin_row F i)).
Proof.
  intros Hi. unfold distance_margin, tf_cast. cbv zeta.
  rewrite (nth_map_in _ _ i []) by (rewrite length_map, length_distance_matrix; lia).
  rewrite (nth_map_in _ _ i []) by (rewrite length_distance_matrix; lia).
  rewrite distance_matrix_row by lia.
  unfold margin_row, tabulate. rewrite map_map. reflexivity.
Qed.

Lemma length_margin_row F i : length (margin_row F i) = F.
Proof. unfold margin_row. apply length_tabulate. Qed.

(** ** Softmax and the exponential *)

Lemma Rsum_exp_pos (v : list R) : 0 <= Rsum (map exp v).
Proof.
  induction v as [|x v IH]; simpl; [lra|].
  pose proof (exp_pos x). lra.
Qed.

Lemma Rsum_exp_ge (v : list R) u :
  (u < length v)%nat -> exp (nth u v 0) <= Rsum (map exp v).
Proof.
  revert u; induction v as [|x v IH]; intros [|u] Hu; simpl in *; try lia.
  - pose proof (Rsum_exp_pos v). lra.
  - specialize (IH u ltac:(lia)). pose proof (exp_pos x). lra.
Qed.

Lemma nth_softmax (v : list R) j :
  (j < length v)%nat ->
  nth j (softmax v) 0 = exp (nth j v 0) / Rsum (map exp v).
Proof.
  intros Hj. unfold softmax. rewrite (nth_map_in _ _ j 0) by lia. reflexivity.
Qed.

(** A position's probability is bounded by its score's distance to any
    other score of the row. *)
Lemma softmax_le_exp_gap (v : list R) j u :
  (j < length v)%nat -> (u < length v)%nat ->
  nth j (softmax v) 0 <= exp (nth j v 0 - nth u v 0).
Proof.
  intros Hj Hu. rewrite nth_softmax by lia.
  pose proof (Rsum_exp_ge v u Hu) as Hge.
  pose proof (exp_pos (nth u v 0)) as Hpu.
  pose proof (exp_pos (nth j v 0)) as Hpj.
  unfold Rminus. rewrite exp_plus, exp_Ropp.
  unfold Rdiv. apply Rmult_le_compat_l; [lra|].
  apply Rinv_le_contravar; lra.
Qed.

Lemma exp_10_gt : 10000 < exp 10.
Proof.
  assert (Hsq : forall a x, 0 < a -> a < exp x -> a * a < exp (x + x)).
  { intros a x Ha Hx. rewrite exp_plus. nra. }
  assert (H0 : 37 / 32 < exp (5 / 32)).
  { pose proof (exp_ineq1 (5 / 32)) as H. lra. }
  apply Hsq in H0; [|lra]. apply Hsq in H0; [|lra]. apply Hsq in H0; [|lra].
  apply Hsq in H0; [|lra]. apply Hsq in H0; [|lra]. apply Hsq in H0; [|lra].
  match type of H0 with _ < exp ?x => replace x with 10 in H0 by lra end.
  lra.
Qed.

Lemma exp_le_one (x : R) : x <= 0 -> exp x <= 1.
Proof.
  intros [H|H].
  - apply exp_increasing in H. rewrite exp_0 in H. lra.
  - subst. rewrite exp_0. lra.
Qed.

Lemma exp_below_minus_10 (x : R) : x <= - 10 -> exp x < 1 / 10000.
Proof.
  intros Hx.
  pose proof exp_10_gt as H10. pose proof (exp_pos x) as Hp.
  assert (H : exp x * exp 10 <= 1).
  { rewrite <- exp_plus. apply exp_le_one. lra. }
  nra.
Qed.

(** ** Shapes inside the attention layer *)

Lemma has_shape2_spec {A} (r c : nat) (m : list (list A)) :
  has_shape2 r c m = true -> shaped2 r c m.
Proof.
  unfold has_shape2, shaped2. intros H. apply andb_prop in H. destruct H as [H1 H2].
  apply Nat.eqb_eq in H1. split; [exact H1|].
  intros i Hi. rewrite forallb_forall in H2.
  specialize (H2 (nth i m [])). unfold has_shape1 in H2.
  apply Nat.eqb_eq. apply H2. apply nth_In. lia.
Qed.

Lemma has_shape3_spec {A} (b r c : nat) (t : list (list (list A))) :
  has_shape3 b r c t = true -> shaped3 b r c t.
Proof.
  unfold has_shape3, shaped3. intros H. apply andb_prop in H. destruct H as [H1 H2].
  apply Nat.eqb_eq in H1. split; [exact H1|].
  intros i Hi. rewrite forallb_forall in H2.
  apply has_shape2_spec. apply H2. apply nth_In. lia.
Qed.

Lemma nth_map_nil {A B} (f : A -> B) (l : list (list A)) i :
  nth i (map (map f) l) [] = map f (nth i l []).
Proof. change (@nil B) with (map f []). apply map_nth. Qed.

Lemma shaped2_tabulate {A} r c (f : nat -> nat -> A) :
  shaped2 r c (tabulate r (fun i => tabulate c (f i))).
Proof.
  split; [apply length_tabulate|].
  intros i Hi. rewrite nth_tabulate by lia. apply length_tabulate.
Qed.

Lemma transpose_for_scores_shape x B N S W :
  shaped4 B N S W (transpose_for_scores x B N S W).
Proof.
  unfold transpose_for_scores, tf_transpose_0213, tf_reshape4.
  split; [now rewrite length_map, length_tabulate|].
  intros b Hb.
  rewrite (nth_map_in _ _ b []) by (rewrite length_tabulate; lia).
  split; [apply length_tabulate|].
  intros n Hn. rewrite nth_tabulate by lia.
  split; [apply length_tabulate|].
  intros s Hs. rewrite nth_tabulate by lia.
  rewrite nth_tabulate by lia.
  unfold tf_reshape3. rewrite nth_tabulate by lia.
  unfold tf_reshape2. rewrite nth_tabulate by lia.
  apply length_tabulate.
Qed.

Lemma raw_scores_shape q k B N F T W :
  shaped4 B N F W q -> shaped4 B N T W k ->
  shaped4 B N F T (map2 (map2 tf_matmul_transpose_b) q k).
Proof.
  intros [Hq Hqs] [Hk Hks].
  split; [rewrite length_map2, Hq, Hk; apply Nat.min_id|].
  intros b Hb. destruct (Hqs b Hb) as [Hq1 Hq2]. destruct (Hks b Hb) as [Hk1 Hk2].
  rewrite (nth_map2 _ _ _ b [] []) by lia.
  split; [rewrite length_map2, Hq1, Hk1; apply Nat.min_id|].
  intros n Hn. destruct (Hq2 n Hn) as [Hq3 _]. destruct (Hk2 n Hn) as [Hk3 _].
  rewrite (nth_map2 _ _ _ n [] []) by lia.
  unfold tf_matmul_transpose_b.
  split; [now rewrite length_map|].
  intros i Hi. rewrite (nth_map_in _ _ i []) by lia.
  now rewrite length_map.
Qed.

Lemma shaped4_tensor4_map g B N F T (t : tensor4) :
  shaped4 B N F T t -> shaped4 B N F T (tensor4_map g t).
Proof.
  intros [H1 H2]. unfold tensor4_map.
  split; [now rewrite length_map|].
  intros b Hb. destruct (H2 b Hb) as [H3 H4]. rewrite nth_map_nil.
  split; [now rewrite length_map|].
  intros n Hn. destruct (H4 n Hn) as [H5 H6]. rewrite nth_map_nil.
  split; [now rewrite length_map|].
  intros i Hi. rewrite nth_map_nil. rewrite length_map. now apply H6.
Qed.

Lemma shaped4_expand_dims_1 B F T (t : tensor3) :
  shaped3 B F T t -> shaped4 B 1 F T (tf_expand_dims_1 t).
Proof.
  intros [H1 H2]. unfold tf_expand_dims_1.
  split; [now rewrite length_map|].
  intros b Hb. rewrite (nth_map_in _ _ b []) by lia.
  split; [reflexivity|].
  intros n Hn. assert (n = 0%nat) as -> by lia. cbn [nth]. now apply H2.
Qed.

Lemma nth4_expand_dims_1 (t : tensor3) b i j :
  nth4 (tf_expand_dims_1 t) b 0 i j 0 = nth3 t b i j 0.
Proof.
  unfold nth4, nth3, tf_expand_dims_1.
  destruct (Nat.lt_ge_cases b (length t)) as [Hb|Hb].
  - rewrite (nth_map_in _ _ b []) by lia. reflexivity.
  - rewrite (nth_overflow (map _ t)) by (rewrite length_map; lia).
    rewrite (nth_overflow t) by lia.
    unfold nth2. cbn [nth]. destruct i, j; reflexivity.
Qed.

Lemma nth4_tensor4_map (g : R -> R) (t : tensor4) b n i j :
  g 0 = 0 ->
  nth4 (tensor4_map g t) b n i j 0 = g (nth4 t b n i j 0).
Proof.
  intros Hg. unfold nth4, nth3, nth2, tensor4_map.
  rewrite !nth_map_nil. rewrite <- Hg at 1. apply map_nth.
Qed.

Lemma nth4_tensor4_map_in (g : R -> R) (t : tensor4) B N F T b n i j :
  shaped4 B N F T t ->
  (b < B)%nat -> (n < N)%nat -> (i < F)%nat -> (j < T)%nat ->
  nth4 (tensor4_map g t) b n i j 0 = g (nth4 t b n i j 0).
Proof.
  intros [H1 H2] Hb Hn Hi Hj. destruct (H2 b Hb) as [H3 H4].
  destruct (H4 n Hn) as [H5 H6]. specialize (H6 i Hi).
  unfold nth4, nth3, nth2, tensor4_map.
  rewrite !nth_map_nil. apply nth_map_in. lia.
Qed.

Lemma shaped4_add_over_heads B N F T (s b1 : tensor4) :
  shaped4 B N F T s -> shaped4 B 1 F T b1 ->
  shaped4 B N F T (add_over_heads s b1).
Proof.
  intros [Hs1 Hs2] [Hb1 Hb2]. unfold add_over_heads.
  split; [rewrite length_map2, Hs1, Hb1; apply Nat.min_id|].
  intros b Hb. destruct (Hs2 b Hb) as [Hs3 Hs4]. destruct (Hb2 b Hb) as [Hb3 Hb4].
  rewrite (nth_map2 _ _ _ b [] []) by lia.
  split; [now rewrite length_map|].
  intros n Hn. destruct (Hs4 n Hn) as [Hs5 Hs6].
  destruct (Hb4 0%nat ltac:(lia)) as [Hb5 Hb6].
  rewrite (nth_map_in _ _ n []) by lia.
  assert (Hhd : hd [] (nth b b1 []) = nth 0 (nth b b1 []) []).
  { destruct (nth b b1 []); reflexivity. }
  rewrite Hhd. unfold mat_add, vec_add.
  split; [rewrite length_map2, Hs5, Hb5; apply Nat.min_id|].
  intros i Hi. rewrite (nth_map2 _ _ _ i [] []) by lia.
  rewrite length_map2, (Hs6 i Hi), (Hb6 i Hi). apply Nat.min_id.
Qed.

Lemma nth4_add_over_heads (s b1 : tensor4) B N F T b n i j :
  shaped4 B N F T s -> shaped4 B 1 F T b1 ->
  (b < B)%nat -> (n < N)%nat -> (i < F)%nat -> (j < T)%nat ->
  nth4 (add_over_heads s b1) b n i j 0 =
  nth4 s b n i j 0 + nth4 b1 b 0 i j 0.
Proof.
  intros [Hs1 Hs2] [Hb1 Hb2] Hb Hn Hi Hj.
  destruct (Hs2 b Hb) as [Hs3 Hs4]. destruct (Hb2 b Hb) as [Hb3 Hb4].
  destruct (Hs4 n Hn) as [Hs5 Hs6].
  destruct (Hb4 0%nat ltac:(lia)) as [Hb5 Hb6].
  unfold nth4, nth3, nth2, add_over_heads.
  rewrite (nth_map2 _ _ _ b [] []) by lia.
  rewrite (nth_map_in _ _ n []) by lia.
  unfold mat_add, vec_add.
  assert (Hhd : hd [] (nth b b1 []) = nth 0 (nth b b1 []) []).
  { destruct (nth b b1 []); reflexivity. }
  rewrite Hhd.
  rewrite (nth_map2 _ _ _ i [] []) by lia.
  rewrite (nth_map2 _ _ _ j 0 0) by (rewrite ?Hs6, ?Hb6; lia).
  reflexivity.
Qed.

(** The mask times the margin has the shape of the mask, and its entries
    are those of [distance_bias_spec]. *)
Lemma masked_margin_shape B F (attention_mask : tensor3) :
  shaped3 B F F attention_mask ->
  shaped3 B F F
    (map (fun m => map2 (map2 Rmult) m (distance_margin F)) attention_mask).
Proof.
  intros [H1 H2]. split; [now rewrite length_map|].
  intros b Hb. destruct (H2 b Hb) as [H3 H4].
  rewrite (nth_map_in _ _ b []) by lia.
  split; [rewrite length_map2, H3, length_distance_margin; apply Nat.min_id|].
  intros i Hi.
  rewrite (nth_map2 _ _ _ i [] []) by (rewrite ?length_distance_margin; lia).
  rewrite length_map2, (H4 i Hi), distance_margin_row, length_map,
    length_softmax, length_margin_row by lia.
  apply Nat.min_id.
Qed.

Lemma masked_margin_entry B F (attention_mask : tensor3) b i j :
  shaped3 B F F attention_mask ->
  (b < B)%nat -> (i < F)%nat -> (j < F)%nat ->
  nth3 (map (fun m => map2 (map2 Rmult) m (distance_margin F)) attention_mask)
       b i j 0 =
  distance_bias_spec F attention_mask b i j.
Proof.
  intros [H1 H2] Hb Hi Hj. destruct (H2 b Hb) as [H3 H4].
  unfold nth3, nth2, distance_bias_spec.
  rewrite (nth_map_in _ _ b []) by lia.
  rewrite (nth_map2 _ _ _ i [] []) by (rewrite ?length_distance_margin; lia).
  rewrite distance_margin_row by lia.
  rewrite (nth_map2 _ _ _ j 0 0)
    by (rewrite ?length_map, ?length_softmax, ?length_margin_row, ?H4; lia).
  rewrite (nth_map_in _ _ j 0) by (rewrite length_softmax, length_margin_row; lia).
  reflexivity.
Qed.

(** ** The scores of the attention layer *)

Section AttentionScores.

Context {tf : TensorFlow}.

(** What a run of the layer computes, node by node, for self-attention
    with a mask of matching shape. *)
Lemma attention_layer_nodes_run
    (vars : attention_vars) (from_tensor to_tensor : tensor23)
    (attention_mask : tensor3) (sub_attention_mask : option tensor3)
    (num_attention_heads size_per_head : nat)
    (query_act key_act value_act : option (R -> R))
    (attention_probs_dropout_prob : option R) (do_return_2d_tensor : bool)
    (batch_size from_seq_length to_seq_length : option nat) (B F : nat) :
  attention_dims from_tensor to_tensor batch_size from_seq_length to_seq_length
    = Ok (B, F, F) ->
  shaped3 B F F attention_mask ->
  size_per_head <> 0%nat ->
  exists nodes,
    attention_layer_nodes vars from_tensor to_tensor (Some attention_mask)
      sub_attention_mask num_attention_heads size_per_head
      query_act key_act value_act attention_probs_dropout_prob
      do_return_2d_tensor batch_size from_seq_length to_seq_length = Ok nodes /\
    shaped4 B num_attention_heads F F (raw_attention_scores nodes) /\
    marg_dist nodes =
      tf_expand_dims_1
        (map (fun m => map2 (map2 Rmult) m (distance_margin F)) attention_mask) /\
    scaled_attention_scores nodes =
      tensor4_map (fun x => x * (1 / sqrt (INR size_per_head)))
        (add_over_heads (raw_attention_scores nodes) (marg_dist nodes)) /\
    adder nodes =
      tensor4_map (fun x => (1 - x) * -10000) (tf_expand_dims_1 attention_mask) /\
    attention_scores nodes =
      add_over_heads (scaled_attention_scores nodes) (adder nodes) /\
    attention_probs nodes = map (map (map softmax)) (attention_scores nodes).
Proof.
  intros Hdims Hmask HH.
  unfold attention_layer_nodes. rewrite Hdims. cbn [bind].
  destruct (Nat.eqb_spec size_per_head 0) as [E|_]; [contradiction|].
  eexists. split; [reflexivity|].
  cbn [raw_attention_scores marg_dist scaled_attention_scores adder
         attention_scores attention_probs].
  split.
  - apply raw_scores_shape with (W := size_per_head);
      apply transpose_for_scores_shape.
  - repeat (split; [reflexivity|]). reflexivity.
Qed.

(** C1: in [attention_layer] (self-attention, a mask of shape [[B, F, F]],
    a non-zero head size) the layer runs, and the bias added to the raw
    scores at batch entry [b] and positions [(i, j)] is the attention mask
    times [0.5 - softmax] of row [i] of the margin matrix ([j - i], negated
    strictly below the diagonal, kept strictly above it, zero on it); it is
    the same for every head [n], and it is added before the scores are
    multiplied by [1 / sqrt size_per_head]. *)
Theorem attention_distance_bias_before_scaling
    (vars : attention_vars) (from_tensor to_tensor : tensor23)
    (attention_mask : tensor3) (sub_attention_mask : option tensor3)
    (num_attention_heads size_per_head : nat)
    (query_act key_act value_act : option (R -> R))
    (attention_probs_dropout_prob : option R) (do_return_2d_tensor : bool)
    (batch_size from_seq_length to_seq_length : option nat) (B F : nat) :
  attention_dims from_tensor to_tensor batch_size from_seq_length to_seq_length
    = Ok (B, F, F) ->
  has_shape3 B F F attention_mask = true ->
  size_per_head <> 0%nat ->
  exists nodes,
    attention_layer_nodes vars from_tensor to_tensor (Some attention_mask)
      sub_attention_mask num_attention_heads size_per_head
      query_act key_act value_act attention_probs_dropout_prob
      do_return_2d_tensor batch_size from_seq_length to_seq_length = Ok nodes /\
    forall b n i j,
      (b < B)%nat -> (n < num_attention_heads)%nat -> (i < F)%nat -> (j < F)%nat ->
      nth4 (marg_dist nodes) b 0 i j 0 =
        distance_bias_spec F attention_mask b i j /\
      nth4 (scaled_attention_scores nodes) b n i j 0 =
        (nth4 (raw_attention_scores nodes) b n i j 0
         + distance_bias_spec F attention_mask b i j)
        * (1 / sqrt (INR size_per_head)).
Proof.
  intros Hdims Hmask HH. apply has_shape3_spec in Hmask.
  destruct (attention_layer_nodes_run vars from_tensor to_tensor attention_mask
              sub_attention_mask num_attention_heads size_per_head
              query_act key_act value_act attention_probs_dropout_prob
              do_return_2d_tensor batch_size from_seq_length to_seq_length B F
              Hdims Hmask HH)
    as (nodes & Hrun & Hraw & Hmarg & Hscaled & _).
  exists nodes. split; [exact Hrun|].
  intros b n i j Hb Hn Hi Hj.
  assert (Hentry : nth4 (marg_dist nodes) b 0 i j 0 =
                   distance_bias_spec F attention_mask b i j).
  { rewrite Hmarg, nth4_expand_dims_1.
    now apply masked_margin_entry with (B := B). }
  split; [exact Hentry|].
  rewrite Hscaled, nth4_tensor4_map by lra.
  rewrite (nth4_add_over_heads _ _ B num_attention_heads F F); try lia; auto.
  - now rewrite Hentry.
  - rewrite Hmarg. apply shaped4_expand_dims_1. now apply masked_margin_shape.
Qed.

(** C3, as amended: the penalty added to the scaled scores is [-10000]
    where the mask is 0 and exactly 0 where the mask is 1, so the score of
    an unmasked position is unchanged.  The probability of a masked
    position [j] is bounded through any unmasked position [u] of the same
    row by [exp (s_j - 10000 - s_u)], [s] being the scores before the
    penalty; it is below [1e-4] when [s_j] exceeds [s_u] by at most
    9990. *)
Theorem attention_mask_penalty
    (vars : attention_vars) (from_tensor to_tensor : tensor23)
    (attention_mask : tensor3) (sub_attention_mask : option tensor3)
    (num_attention_heads size_per_head : nat)
    (query_act key_act value_act : option (R -> R))
    (attention_probs_dropout_prob : option R) (do_return_2d_tensor : bool)
    (batch_size from_seq_length to_seq_length : option nat) (B F : nat) :
  attention_dims from_tensor to_tensor batch_size from_seq_length to_seq_length
    = Ok (B, F, F) ->
  has_shape3 B F F attention_mask = true ->
  size_per_head <> 0%nat ->
  exists nodes,
    attention_layer_nodes vars from_tensor to_tensor (Some attention_mask)
      sub_attention_mask num_attention_heads size_per_head
      query_act key_act value_act attention_probs_dropout_prob
      do_return_2d_tensor batch_size from_seq_length to_seq_length = Ok nodes /\
    forall b n i j,
      (b < B)%nat -> (n < num_attention_heads)%nat -> (i < F)%nat -> (j < F)%nat ->
      (nth3 attention_mask b i j 0 = 0 ->
         nth4 (adder nodes) b 0 i j 0 = -10000) /\
      (nth3 attention_mask b i j 0 = 1 ->
         nth4 (adder nodes) b 0 i j 0 = 0 /\
         nth4 (attention_scores nodes) b n i j 0 =
           nth4 (scaled_attention_scores nodes) b n i j 0) /\
      (nth3 attention_mask b i j 0 = 0 ->
         forall u, (u < F)%nat -> nth3 attention_mask b i u 0 = 1 ->
           nth4 (attention_probs nodes) b n i j 0 <=
             exp (nth4 (scaled_attention_scores nodes) b n i j 0 - 10000
                  - nth4 (scaled_attention_scores nodes) b n i u 0) /\
           (nth4 (scaled_attention_scores nodes) b n i j 0
              - nth4 (scaled_attention_scores nodes) b n i u 0 <= 9990 ->
            nth4 (attention_probs nodes) b n i j 0 < 1 / 10000)).
Proof.
  intros Hdims Hmask HH. apply has_shape3_spec in Hmask.
  destruct (attention_layer_nodes_run vars from_tensor to_tensor attention_mask
              sub_attention_mask num_attention_heads size_per_head
              query_act key_act value_act attention_probs_dropout_prob
              do_return_2d_tensor batch_size from_seq_length to_seq_length B F
              Hdims Hmask HH)
    as (nodes & Hrun & Hraw & Hmarg & Hscaled & Hadder & Hscores & Hprobs).
  exists nodes. split; [exact Hrun|].
  assert (Hsh_marg : shaped4 B 1 F F (marg_dist nodes)).
  { rewrite Hmarg. apply shaped4_expand_dims_1. now apply masked_margin_shape. }
  assert (Hsh_scaled : shaped4 B num_attention_heads F F
                         (scaled_attention_scores nodes)).
  { rewrite Hscaled. apply shaped4_tensor4_map.
    now apply shaped4_add_over_heads. }
  assert (Hsh_adder : shaped4 B 1 F F (adder nodes)).
  { rewrite Hadder. apply shaped4_tensor4_map. now apply shaped4_expand_dims_1. }
  assert (Hsh_scores : shaped4 B num_attention_heads F F (attention_scores nodes)).
  { rewrite Hscores. now apply shaped4_add_over_heads. }
  assert (Hadd : forall b i j, (b < B)%nat -> (i < F)%nat -> (j < F)%nat ->
            nth4 (adder nodes) b 0 i j 0 =
            (1 - nth3 attention_mask b i j 0) * -10000).
  { intros b i j Hb Hi Hj. rewrite Hadder.
    rewrite (nth4_tensor4_map_in _ _ B 1 F F) by
      (try lia; now apply shaped4_expand_dims_1).
    now rewrite nth4_expand_dims_1. }
  assert (Hsc : forall b n i j,
            (b < B)%nat -> (n < num_attention_heads)%nat ->
            (i < F)%nat -> (j < F)%nat ->
            nth4 (attention_scores nodes) b n i j 0 =
            nth4 (scaled_attention_scores nodes) b n i j 0
            + (1 - nth3 attention_mask b i j 0) * -10000).
  { intros b n i j Hb Hn Hi Hj. rewrite Hscores.
    rewrite (nth4_add_over_heads _ _ B num_attention_heads F F) by (auto; lia).
    now rewrite Hadd. }
  intros b n i j Hb Hn Hi Hj.
  split; [|split].
  - intros Hm. rewrite Hadd, Hm by lia. lra.
  - intros Hm. split.
    + rewrite Hadd, Hm by lia. lra.
    + rewrite Hsc, Hm by lia. lra.
  - intros Hm u Hu Hmu.
    destruct Hsh_scores as [Hl1 Hl2]. destruct (Hl2 b Hb) as [Hl3 Hl4].
    destruct (Hl4 n Hn) as [Hl5 Hl6]. pose proof (Hl6 i Hi) as Hl7.
    set (row := nth i (nth n (nth b (attention_scores nodes) []) []) []) in *.
    assert (Hp : nth4 (attention_probs nodes) b n i j 0 = nth j (softmax row) 0).
    { rewrite Hprobs. unfold nth4, nth3, nth2.
      rewrite (nth_map_in _ _ b []) by lia.
      rewrite (nth_map_in _ _ n []) by lia.
      rewrite (nth_map_in _ _ i []) by lia. reflexivity. }
    assert (Hrj : nth j row 0 =
                  nth4 (scaled_attention_scores nodes) b n i j 0 - 10000).
    { change (nth j row 0) with (nth4 (attention_scores nodes) b n i j 0).
      rewrite Hsc, Hm by lia. lra. }
    assert (Hru : nth u row 0 = nth4 (scaled_attention_scores nodes) b n i u 0).
    { change (nth u row 0) with (nth4 (attention_scores nodes) b n i u 0).
      rewrite Hsc, Hmu by lia. lra. }
    pose proof (softmax_le_exp_gap row j u ltac:(lia) ltac:(lia)) as Hle.
    rewrite Hrj, Hru in Hle. rewrite Hp.
    split; [exact Hle|].
    intros Hgap. eapply Rle_lt_trans; [exact Hle|].
    apply exp_below_minus_10. lra.
Qed.

(** C4, as amended: the matrix [0.5 - softmax(margin)] built in the layer
    depends on the from-sequence length alone, and the bias added to the
    scores, which is this matrix times the attention mask, depends on the
    from-sequence length and the attention mask alone: two runs with the
    same from-sequence length build the same matrix whatever their tensors,
    variables, activations, head sizes and masks are, and add the same bias
    when their attention masks are the same. *)
Theorem distance_bias_depends_on_length_and_mask
    (vars1 vars2 : attention_vars)
    (from_tensor1 to_tensor1 from_tensor2 to_tensor2 : tensor23)
    (attention_mask1 attention_mask2 sub_attention_mask1 sub_attention_mask2
       : option tensor3)
    (num_attention_heads1 size_per_head1 num_attention_heads2 size_per_head2
       : nat)
    (query_act1 key_act1 value_act1 query_act2 key_act2 value_act2
       : option (R -> R))
    (attention_probs_dropout_prob1 attention_probs_dropout_prob2 : option R)
    (do_return_2d_tensor1 do_return_2d_tensor2 : bool)
    (batch_size1 from_seq_length1 to_seq_length1
     batch_size2 from_seq_length2 to_seq_length2 : option nat)
    (B1 T1 B2 T2 F : nat) (nodes1 nodes2 : attention_nodes) :
  attention_dims from_tensor1 to_tensor1 batch_size1 from_seq_length1
    to_seq_length1 = Ok (B1, F, T1) ->
  attention_dims from_tensor2 to_tensor2 batch_size2 from_seq_length2
    to_seq_length2 = Ok (B2, F, T2) ->
  attention_layer_nodes vars1 from_tensor1 to_tensor1 attention_mask1
    sub_attention_mask1 num_attention_heads1 size_per_head1
    query_act1 key_act1 value_act1 attention_probs_dropout_prob1
    do_return_2d_tensor1 batch_size1 from_seq_length1 to_seq_length1
    = Ok nodes1 ->
  attention_layer_nodes vars2 from_tensor2 to_tensor2 attention_mask2
    sub_attention_mask2 num_attention_heads2 size_per_head2
    query_act2 key_act2 value_act2 attention_probs_dropout_prob2
    do_return_2d_tensor2 batch_size2 from_seq_length2 to_seq_length2
    = Ok nodes2 ->
  marg_dist_1082 nodes1 = marg_dist_1082 nodes2 /\
  (attention_mask1 = attention_mask2 -> marg_dist nodes1 = marg_dist nodes2).
Proof.
  intros Hd1 Hd2 Hr1 Hr2.
  unfold attention_layer_nodes in Hr1, Hr2.
  rewrite Hd1 in Hr1. rewrite Hd2 in Hr2. cbn [bind] in Hr1, Hr2.
  destruct attention_mask1 as [m1|]; [|discriminate].
  destruct attention_mask2 as [m2|]; [|discriminate].
  destruct (size_per_head1 =? 0)%nat; [discriminate|].
  destruct (size_per_head2 =? 0)%nat; [discriminate|].
  injection Hr1 as <-. injection Hr2 as <-.
  cbn [marg_dist_1082 marg_dist]. split; [reflexivity|].
  intros Hm. injection Hm as ->. reflexivity.
Qed.

End AttentionScores.

(** A run of the layer on which C1 can be read off: two tokens, one
    head of size 1, the second token masked. *)
Lemma attention_distance_bias_before_scaling_witness :
  exists nodes,
    attention_layer_nodes (tf := plain_tf) identity_attention
      (Rank2 [[1]; [2]]) (Rank2 [[1]; [2]])
      (Some [[[1; 0]; [1; 0]]]) None 1 1 None None None None true
      (Some 1%nat) (Some 2%nat) (Some 2%nat) = Ok nodes /\
    nth4 (scaled_attention_scores nodes) 0 0 0 1 0 =
      (nth4 (raw_attention_scores nodes) 0 0 0 1 0
       + distance_bias_spec 2 [[[1; 0]; [1; 0]]] 0 0 1)
      * (1 / sqrt (INR 1)).
Proof.
  destruct (attention_distance_bias_before_scaling (tf := plain_tf)
              identity_attention (Rank2 [[1]; [2]]) (Rank2 [[1]; [2]])
              [[[1; 0]; [1; 0]]] None 1 1 None None None None true
              (Some 1%nat) (Some 2%nat) (Some 2%nat) 1 2)
    as (nodes & Hrun & H).
  - reflexivity.
  - reflexivity.
  - discriminate.
  - exists nodes. split; [exact Hrun|]. apply H; lia.
Defined.

Lemma attention_mask_penalty_witness :
  exists nodes,
    attention_layer_nodes (tf := plain_tf) identity_attention
      (Rank2 [[1]; [2]]) (Rank2 [[1]; [2]])
      (Some [[[1; 0]; [1; 0]]]) None 1 1 None None None None true
      (Some 1%nat) (Some 2%nat) (Some 2%nat) = Ok nodes /\
    nth4 (adder nodes) 0 0 0 1 0 = -10000.
Proof.
  destruct (attention_mask_penalty (tf := plain_tf)
              identity_attention (Rank2 [[1]; [2]]) (Rank2 [[1]; [2]])
              [[[1; 0]; [1; 0]]] None 1 1 None None None None true
              (Some 1%nat) (Some 2%nat) (Some 2%nat) 1 2)
    as (nodes & Hrun & H).
  - reflexivity.
  - reflexivity.
  - discriminate.
  - exists nodes. split; [exact Hrun|].
    apply (H 0 0 0 1)%nat; try lia. reflexivity.
Defined.

Lemma softmax_pair (a b : R) :
  a = b -> exp a / (exp a + (exp b + 0)) = 1 / 2.
Proof. intros ->. pose proof (exp_pos b). field. lra. Qed.

(** C3, the claim as stated fails: for a sequence that is all padding
    (input mask [[0, 0]]) every position is masked, and the masked
    positions of a row share the probability 1. *)
Lemma attention_mask_penalty_counterexample :
  let attention_mask :=
    create_attention_mask_from_input_mask [[0; 0]]%Z [[0; 0]]%Z in
  exists nodes,
    attention_layer_nodes (tf := plain_tf) identity_attention
      (Rank2 [[0]; [0]]) (Rank2 [[0]; [0]])
      (Some attention_mask) None 1 1 None None None None true
      (Some 1%nat) (Some 2%nat) (Some 2%nat) = Ok nodes /\
    nth3 attention_mask 0 0 0 0 = 0 /\
    nth4 (attention_probs nodes) 0 0 0 0 0 = 1 / 2 /\
    ~ nth4 (attention_probs nodes) 0 0 0 0 0 < 1 / 10000.
Proof.
  cbv zeta. eexists. split; [reflexivity|].
  split; [cbn; lra|].
  match goal with |- ?p = _ /\ _ => assert (H : p = 1 / 2) end.
  { cbn. apply softmax_pair. lra. }
  split; [exact H|]. rewrite H. lra.
Qed.

(** C4, the claim as stated fails: two runs on one token, which differ in
    the attention mask only, add different biases. *)
Lemma distance_bias_counterexample :
  exists nodes1 nodes2,
    attention_layer_nodes (tf := plain_tf) identity_attention
      (Rank2 [[1]]) (Rank2 [[1]]) (Some [[[1]]]) None 1 1
      None None None None true (Some 1%nat) (Some 1%nat) (Some 1%nat)
      = Ok nodes1 /\
    attention_layer_nodes (tf := plain_tf) identity_attention
      (Rank2 [[1]]) (Rank2 [[1]]) (Some [[[0]]]) None 1 1
      None None None None true (Some 1%nat) (Some 1%nat) (Some 1%nat)
      = Ok nodes2 /\
    marg_dist nodes1 <> marg_dist nodes2.
Proof.
  eexists. eexists. split; [reflexivity|]. split; [reflexivity|].
  cbn. intros H. injection H as H.
  assert (E : exp 0 / (exp 0 + 0) = 1).
  { pose proof (exp_pos 0). field. lra. }
  rewrite E in H. lra.
Qed.

Lemma distance_bias_depends_on_length_and_mask_witness :
  exists nodes1 nodes2,
    attention_layer_nodes (tf := plain_tf) identity_attention
      (Rank2 [[1]; [2]]) (Rank2 [[1]; [2]]) (Some [[[1; 0]; [1; 0]]]) None 1 1
      None None None None true (Some 1%nat) (Some 2%nat) (Some 2%nat)
      = Ok nodes1 /\
    attention_layer_nodes (tf := plain_tf) identity_attention
      (Rank3 [[[5]; [7]]]) (Rank3 [[[5]; [7]]]) (Some [[[1; 1]; [1; 1]]])
      None 1 1 None None (Some tanh) (Some 0.1) false None None None
      = Ok nodes2 /\
    marg_dist_1082 nodes1 = marg_dist_1082 nodes2.
Proof.
  eexists. eexists. split; [reflexivity|]. split; [reflexivity|].
  refine (proj1 (distance_bias_depends_on_length_and_mask (tf := plain_tf)
    identity_attention identity_attention
    (Rank2 [[1]; [2]]) (Rank2 [[1]; [2]])
    (Rank3 [[[5]; [7]]]) (Rank3 [[[5]; [7]]])
    (Some [[[1; 0]; [1; 0]]]) (Some [[[1; 1]; [1; 1]]]) None None
    1 1 1 1 None None None None None (Some tanh) None (Some 0.1) true false
    (Some 1%nat) (Some 2%nat) (Some 2%nat) None None None
    1 2 1 2 2 _ _ _ _ _ _)); reflexivity.
Defined.

(** ** Dropout *)

(** C9: [dropout] returns its input itself when the dropout probability is
    unset ([None]) or exactly 0.0, for a tensor of any rank. *)
Theorem dropout_zero_is_identity {tf : TensorFlow} (T : Type) (HT : Tensor T)
    (input_tensor : T) :
  dropout input_tensor None = input_tensor /\
  dropout input_tensor (Some 0) = input_tensor.
Proof.
  split; [reflexivity|].
  unfold dropout. destruct (Req_dec_T 0 0) as [_|H]; [reflexivity|].
  exfalso. apply H. reflexivity.
Qed.

(** ** The attention mask *)

(** The mask entry at [(b, f, t)] is the product of the input mask at the
    from-position and at the to-position. *)
Lemma create_attention_mask_entry {A} (from_tensor : list (list A))
    (to_mask : list (list Z)) (B L : nat) (b f t : nat) :
  shaped2 B L to_mask ->
  (b < B)%nat -> (f < L)%nat -> (t < L)%nat ->
  nth3 (create_attention_mask_from_input_mask from_tensor to_mask) b f t 0 =
  IZR (nth2 to_mask b f 0%Z) * IZR (nth2 to_mask b t 0%Z).
Proof.
  intros [H1 H2] Hb Hf Ht. pose proof (H2 b Hb) as H3.
  unfold create_attention_mask_from_input_mask, broadcast_outer, nth3, nth2.
  cbv zeta.
  rewrite (nth_map2 _ _ _ b [] []) by (rewrite length_map; lia).
  rewrite (nth_map_in _ _ b []) by lia.
  rewrite (nth_map_in _ _ b []) by lia.
  cbn [nth].
  rewrite (nth_map_in _ _ f []) by (rewrite length_map; lia).
  rewrite (nth_map_in _ _ f 0%Z) by lia. cbn [nth].
  rewrite (nth_map_in _ _ t 0) by (rewrite length_map; lia).
  rewrite (nth_map_in _ _ t 0%Z) by lia.
  reflexivity.
Qed.

(** C2 fails on the code: with the input mask [[1, 0]] the row of the
    padded from-position 1 is zero at the attendable to-position 0, and the
    rows of the mask are not copies of one another. *)
Theorem create_attention_mask_padded_row :
  let to_mask := [[1; 0]]%Z in
  let mask := create_attention_mask_from_input_mask [[31; 51]]%Z to_mask in
  IZR (nth2 to_mask 0 0 0%Z) = 1 /\
  nth3 mask 0 0 0 0 = 1 /\
  nth3 mask 0 1 0 0 = 0 /\
  nth 0 (nth 0 mask []) [] <> nth 1 (nth 0 mask []) [].
Proof.
  cbv zeta. cbn. repeat split; try lra.
  intros H. injection H as H _. lra.
Qed.

(** ** The divisibility check of the transformer *)

Lemma foldM_error {A S} (P : error -> Prop) (f : S -> A -> result S) :
  (forall s a e, f s a = Raise e -> P e) ->
  forall l s e, foldM f l s = Raise e -> P e.
Proof.
  intros Hf l. induction l as [|a l IH]; intros s e H; cbn in H.
  - discriminate.
  - destruct (f s a) as [s'|e'] eqn:E; cbn in H.
    + now apply (IH s').
    + injection H as <-. now apply (Hf s a).
Qed.

Lemma transformer_layer_error {tf : TensorFlow}
    (vars : nat -> layer_vars) (attention_mask sub_attention_mask : option tensor3)
    (hidden_size num_attention_heads attention_head_size intermediate_size : nat)
    (intermediate_act_fn : option (R -> R))
    (hidden_dropout_prob attention_probs_dropout_prob : option R)
    (batch_size seq_length : nat) (state : list (list R) * list (list (list R)))
    (layer_idx : nat) (e : error) :
  transformer_layer vars attention_mask sub_attention_mask hidden_size
    num_attention_heads attention_head_size intermediate_size
    intermediate_act_fn hidden_dropout_prob attention_probs_dropout_prob
    batch_size seq_length state layer_idx = Raise e ->
  e <> not_a_multiple.
Proof.
  unfold transformer_layer, attention_layer, attention_layer_nodes.
  destruct state as [prev all]. cbn [attention_dims get_shape_list length Nat.eqb negb bind].
  destruct attention_mask as [m|]; cbn [bind].
  - destruct (attention_head_size =? 0)%nat; cbn [bind]; intros H.
    + injection H as <-. discriminate.
    + discriminate.
  - intros H. injection H as <-. discriminate.
Qed.

(** C6: [transformer_model] raises when the hidden size is not a multiple
    of the number of heads (Python's [%] itself raises for zero heads);
    when [hidden_size = num_attention_heads * w] the divisibility error is
    not raised, and for a positive number of heads the model is the stack
    run with heads of width [w = hidden_size / num_attention_heads]. *)
Theorem transformer_model_head_size {tf : TensorFlow}
    (vars : nat -> layer_vars) (input_tensor : tensor3)
    (attention_mask sub_attention_mask : option tensor3)
    (hidden_size num_hidden_layers num_attention_heads intermediate_size : nat)
    (intermediate_act_fn : option (R -> R))
    (hidden_dropout_prob attention_probs_dropout_prob : option R)
    (do_return_all_layers : bool) :
  let run :=
    transformer_model vars input_tensor attention_mask sub_attention_mask
      hidden_size num_hidden_layers num_attention_heads intermediate_size
      intermediate_act_fn hidden_dropout_prob attention_probs_dropout_prob
      do_return_all_layers in
  ((forall w, hidden_size <> (num_attention_heads * w)%nat) ->
     run = Raise not_a_multiple \/ run = Raise ZeroDivisionError) /\
  (forall w, hidden_size = (num_attention_heads * w)%nat ->
     run <> Raise not_a_multiple /\
     (num_attention_heads <> 0%nat ->
        attention_head_size_of hidden_size num_attention_heads = w /\
        (hidden_size / num_attention_heads)%nat = w /\
        run =
          transformer_stack vars input_tensor attention_mask sub_attention_mask
            hidden_size num_hidden_layers num_attention_heads w
            intermediate_size intermediate_act_fn
            hidden_dropout_prob attention_probs_dropout_prob
            do_return_all_layers)).
Proof.
  cbv zeta. unfold transformer_model. split.
  - intros Hnot.
    destruct (Nat.eqb_spec num_attention_heads 0) as [E|E]; [now right|].
    destruct (Nat.eqb_spec (hidden_size mod num_attention_heads) 0) as [M|M];
      [|now left].
    exfalso. apply (Hnot (hidden_size / num_attention_heads)%nat).
    rewrite (Nat.div_mod_eq hidden_size num_attention_heads) at 1. lia.
  - intros w Hw.
    destruct (Nat.eqb_spec num_attention_heads 0) as [E|E];
      [split; [discriminate|contradiction]|].
    assert (M : (hidden_size mod num_attention_heads = 0)%nat).
    { subst hidden_size. rewrite Nat.mul_comm. now apply Nat.Div0.mod_mul. }
    assert (D : (hidden_size / num_attention_heads = w)%nat).
    { subst hidden_size. rewrite Nat.mul_comm. now apply Nat.div_mul. }
    rewrite M. cbn [Nat.eqb negb]. unfold attention_head_size_of. rewrite D.
    split.
    + unfold transformer_stack, not_a_multiple.
      destruct (shape3 input_tensor) as [[b l] wd].
      destruct (negb (wd =? hidden_size)%nat); [discriminate|].
      destruct (foldM _ _ _) as [[p a]|e] eqn:E0; cbn [bind].
      * destruct do_return_all_layers; discriminate.
      * intros H. injection H as H. revert H.
        refine (foldM_error (fun e => e <> not_a_multiple) _ _ _ _ _ E0).
        intros s a e0. apply transformer_layer_error.
    + intros _. auto.
Qed.

Lemma transformer_model_head_size_witness :
  (transformer_model (tf := plain_tf) (fun _ => identity_layer)
     [[[1; 2; 3]]] (Some [[[1]]]) None 3 1 2 8 None None None true
   = Raise not_a_multiple \/
   transformer_model (tf := plain_tf) (fun _ => identity_layer)
     [[[1; 2; 3]]] (Some [[[1]]]) None 3 1 2 8 None None None true
   = Raise ZeroDivisionError) /\
  attention_head_size_of 4 2 = 2%nat /\
  transformer_model (tf := plain_tf) (fun _ => identity_layer)
    [[[1; 2; 3; 4]]] (Some [[[1]]]) None 4 1 2 8 None None None true
  <> Raise not_a_multiple.
Proof.
  split.
  - apply (proj1 (transformer_model_head_size (tf := plain_tf)
             (fun _ => identity_layer) [[[1; 2; 3]]] (Some [[[1]]]) None
             3 1 2 8 None None None true)).
    intros w. lia.
  - destruct (proj2 (transformer_model_head_size (tf := plain_tf)
                (fun _ => identity_layer) [[[1; 2; 3; 4]]] (Some [[[1]]]) None
                4 1 2 8 None None None true) 2%nat eq_refl) as [H1 H2].
    destruct (H2 ltac:(discriminate)) as [H3 _].
    split; assumption.
Defined.

(** ** Reshapes *)

Lemma nth_concat_uniform {A} (m : list (list A)) (c i j : nat) (d : A) :
  (forall k, (k < length m)%nat -> length (nth k m []) = c) ->
  (i < length m)%nat -> (j < c)%nat ->
  nth (i * c + j) (concat m) d = nth j (nth i m []) d.
Proof.
  revert i; induction m as [|r m IH]; intros i Hm Hi Hj; cbn in *; [lia|].
  assert (Hr : length r = c) by (apply (Hm 0%nat); lia).
  destruct i as [|i].
  - cbn. rewrite app_nth1 by lia. reflexivity.
  - rewrite app_nth2 by (rewrite Hr; nia).
    replace (S i * c + j - length r)%nat with (i * c + j)%nat by (rewrite Hr; nia).
    apply IH; try lia.
    intros k Hk. apply (Hm (S k)). lia.
Qed.

Lemma tf_reshape2_flatten (r c : nat) (m : list (list R)) :
  shaped2 r c m -> tf_reshape2 r c (flatten2 m) = m.
Proof.
  intros [H1 H2]. unfold tf_reshape2, flatten2.
  apply nth_ext with (d := []) (d' := []); [now rewrite length_tabulate|].
  intros i Hi. rewrite length_tabulate in Hi.
  rewrite nth_tabulate by lia.
  apply nth_ext with (d := 0) (d' := 0); [now rewrite length_tabulate, H2|].
  intros j Hj. rewrite length_tabulate in Hj.
  rewrite nth_tabulate by lia.
  apply nth_concat_uniform; try lia.
  intros k Hk. apply H2. lia.
Qed.

Lemma shaped2_firstn {A} (r c n : nat) (m : list (list A)) :
  shaped2 r c m -> (n <= r)%nat -> shaped2 n c (firstn n m).
Proof.
  intros [H1 H2] Hn. split; [rewrite length_firstn; lia|].
  intros i Hi.
  replace (nth i (firstn n m) []) with (nth i m []).
  - apply H2. lia.
  - rewrite <- (firstn_skipn n m) at 1.
    rewrite app_nth1 by (rewrite length_firstn; lia). reflexivity.
Qed.

(** ** The position channel of [embedding_postprocessor] *)

Section Postprocessor.

Context {tf : TensorFlow}.

(** C7: with position embeddings enabled, a sequence longer than
    [max_position_embeddings] makes [embedding_postprocessor] raise (the
    range assertion, unless the token-type channel has raised before it)
    and never return; for a sequence that fits, what is added to every
    batch entry is exactly the first [seq_length] rows of the position
    table of shape [[max_position_embeddings, width]]. *)
Theorem position_embeddings_range_and_slice
    (input_tensor : tensor3)
    (use_token_type : bool) (token_type_ids : option (list (list Z)))
    (token_type_vocab_size : nat) (token_type_table : mat)
    (full_position_embeddings : mat) (max_position_embeddings : nat)
    (use_entity_embedding : bool) (entity_type_table : mat)
    (entity_type_ids : option (list (list Z)))
    (dropout_prob : option R)
    (batch_size seq_length width : nat) :
  shape3 input_tensor = (batch_size, seq_length, width) ->
  let run :=
    embedding_postprocessor input_tensor use_token_type token_type_ids
      token_type_vocab_size token_type_table
      true full_position_embeddings max_position_embeddings
      use_entity_embedding entity_type_table entity_type_ids dropout_prob in
  let token_types :=
    add_token_type_embeddings input_tensor use_token_type token_type_ids
      token_type_vocab_size token_type_table batch_size seq_length width in
  ((max_position_embeddings < seq_length)%nat ->
     is_ok run = false /\
     (is_ok token_types = true ->
        run = Raise (InvalidArgumentError "assert_less_equal"))) /\
  ((seq_length <= max_position_embeddings)%nat ->
     has_shape2 max_position_embeddings width full_position_embeddings = true ->
     (forall output,
        add_position_embeddings output true full_position_embeddings
          max_position_embeddings seq_length width =
        Ok (map (fun o => mat_add o (firstn seq_length full_position_embeddings))
                output)) /\
     run =
       (output <- token_types ;;
        output <-
          add_entity_embeddings
            (map (fun o =>
                    mat_add o (firstn seq_length full_position_embeddings))
                 output)
            use_entity_embedding entity_type_ids token_type_vocab_size
            entity_type_table batch_size seq_length width ;;
        Ok (layer_norm_and_dropout EmbeddingsNorm output dropout_prob))).
Proof.
  intros Hshape. cbv zeta. unfold embedding_postprocessor. rewrite Hshape.
  split.
  - intros Hlong.
    assert (E : (seq_length <=? max_position_embeddings)%nat = false)
      by (apply Nat.leb_gt; lia).
    destruct (add_token_type_embeddings _ _ _ _ _ _ _ _) as [out|e];
      cbn [bind is_ok].
    + unfold add_position_embeddings. rewrite E. cbn [bind is_ok]. auto.
    + split; [reflexivity|discriminate].
  - intros Hfit Htable.
    assert (E : (seq_length <=? max_position_embeddings)%nat = true)
      by (apply Nat.leb_le; lia).
    assert (Hpos : forall output,
              add_position_embeddings output true full_position_embeddings
                max_position_embeddings seq_length width =
              Ok (map (fun o =>
                         mat_add o (firstn seq_length full_position_embeddings))
                      output)).
    { intros output. unfold add_position_embeddings. rewrite E.
      unfold add_broadcast_batch, tf_reshape3, tf_slice_rows. cbn [tabulate seq map hd].
      cbn [Nat.mul skipn].
      rewrite tf_reshape2_flatten; [reflexivity|].
      apply shaped2_firstn with (r := max_position_embeddings); [|lia].
      now apply has_shape2_spec. }
    split; [exact Hpos|].
    destruct (add_token_type_embeddings _ _ _ _ _ _ _ _) as [out|e];
      cbn [bind]; [|reflexivity].
    rewrite Hpos. reflexivity.
Qed.

End Postprocessor.

Lemma position_embeddings_range_and_slice_witness :
  is_ok (embedding_postprocessor (tf := plain_tf) [[[1; 2]; [3; 4]; [5; 6]]]
           false None 2 [] true [[10; 20]; [30; 40]] 2 false [] None None)
    = false /\
  add_position_embeddings [[[1; 2]; [3; 4]]] true
    [[10; 20]; [30; 40]; [50; 60]] 3 2 2 =
  Ok [mat_add [[1; 2]; [3; 4]] [[10; 20]; [30; 40]]].
Proof.
  split.
  - apply (proj1 (position_embeddings_range_and_slice (tf := plain_tf)
       [[[1; 2]; [3; 4]; [5; 6]]] false None 2 [] [[10; 20]; [30; 40]] 2
       false [] None None 1 3 2 eq_refl)). lia.
  - apply (proj2 (position_embeddings_range_and_slice (tf := plain_tf)
       [[[1; 2]; [3; 4]]] false None 2 [] [[10; 20]; [30; 40]; [50; 60]] 3
       false [] None None 1 2 2 eq_refl) ltac:(lia) eq_refl).
Defined.

(** ** Embedding lookup: gather and one-hot product *)

Lemma dot_one_hot_from (c : list R) (k s n : nat) :
  Rsum (map2 Rmult
          (map (fun i => if (Z.of_nat i =? Z.of_nat k)%Z then 1 else 0) (seq s n))
          c) =
  if ((s <=? k) && (k <? s + n))%nat then nth (k - s) c 0 else 0.
Proof.
  revert s c; induction n as [|n IH]; intros s c; cbn [seq map map2 Rsum fold_right].
  - nat_cases.
  - destruct c as [|x c].
    + change (0 = if ((s <=? k) && (k <? s + S n))%nat
                  then nth (k - s) [] 0 else 0).
      destruct ((s <=? k) && (k <? s + S n))%nat; [|reflexivity].
      now destruct (k - s)%nat.
    + cbn [map2 fold_right]. fold (Rsum (map2 Rmult
        (map (fun i => if (Z.of_nat i =? Z.of_nat k)%Z then 1 else 0) (seq (S s) n)) c)).
      rewrite IH.
      destruct (Z.eqb_spec (Z.of_nat s) (Z.of_nat k)) as [E|E].
      * apply Nat2Z.inj in E. subst k.
        replace (s - s)%nat with 0%nat by lia. cbn [nth].
        nat_cases; lra.
      * assert (s <> k) by (intros ->; now apply E).
        nat_cases; try lra.
        replace (k - s)%nat with (S (k - S s)) by lia. cbn [nth]. lra.
Qed.

Lemma dot_one_hot (depth : nat) (c : list R) (k : nat) :
  (k < depth)%nat ->
  dot (one_hot_row depth (Z.of_nat k)) c = nth k c 0.
Proof.
  intros Hk. unfold dot, one_hot_row. rewrite dot_one_hot_from.
  replace (k - 0)%nat with k by lia. nat_cases.
Qed.

Lemma nth_column (j : nat) (m : list (list R)) (i : nat) :
  nth i (column j m) 0 = nth j (nth i m []) 0.
Proof.
  unfold column.
  destruct (Nat.lt_ge_cases i (length m)) as [Hi|Hi].
  - now rewrite (nth_map_in _ _ i []) by lia.
  - rewrite (nth_overflow (map _ m)) by (rewrite length_map; lia).
    rewrite (nth_overflow m) by lia.
    now destruct j.
Qed.

(** A row of the one-hot product is the row of the table at the id. *)
Lemma matmul_one_hot_row (V E : nat) (table : list (list R)) (id : Z) :
  shaped2 V E table ->
  (0 <= id < Z.of_nat V)%Z ->
  map (fun j => dot (one_hot_row V id) (column j table)) (seq 0 (width table)) =
  nth (Z.to_nat id) table [].
Proof.
  intros [H1 H2] Hid.
  assert (Hk : (Z.to_nat id < V)%nat) by lia.
  assert (Hw : width table = E).
  { unfold width. destruct table as [|r t]; cbn in *; [lia|].
    apply (H2 0%nat). lia. }
  rewrite Hw.
  replace (one_hot_row V id) with (one_hot_row V (Z.of_nat (Z.to_nat id)))
    by (f_equal; lia).
  apply nth_ext with (d := 0) (d' := 0).
  - rewrite length_map, length_seq, H2 by lia. reflexivity.
  - intros j Hj. rewrite length_map, length_seq in Hj.
    rewrite (nth_map_in _ _ j 0%nat) by (rewrite length_seq; lia).
    rewrite seq_nth by lia. cbn [Nat.add].
    rewrite dot_one_hot by lia. apply nth_column.
Qed.

Lemma mapM_ok {A B} (f : A -> result B) (g : A -> B) (l : list A) :
  (forall x, In x l -> f x = Ok (g x)) -> mapM f l = Ok (map g l).
Proof.
  induction l as [|a l IH]; intros H; cbn; [reflexivity|].
  rewrite (H a) by now left. cbn.
  rewrite IH by (intros x Hx; apply H; now right). reflexivity.
Qed.

Lemma In_flatten3 {A} (x : A) (row : list A) (m : list (list A))
    (t : list (list (list A))) :
  In x row -> In row m -> In m t -> In x (flatten3 t).
Proof.
  intros H1 H2 H3. unfold flatten3.
  apply in_concat. exists row. split; [|exact H1].
  apply in_concat. exists m. split; assumption.
Qed.


Lemma shaped3_tf_reshape3 (b r c : nat) (flat : list R) :
  shaped3 b r c (tf_reshape3 b r c flat).
Proof.
  unfold tf_reshape3. split; [apply length_tabulate|].
  intros i Hi. rewrite nth_tabulate by lia.
  unfold tf_reshape2. apply shaped2_tabulate.
Qed.

Lemma gather_all_ok (V E : nat) (table : list (list R))
    (ids : list (list (list Z))) :
  length table = V ->
  valid_ids V ids = true ->
  tf_nn_embedding_lookup table ids =
  Ok (map (map (map (fun id => nth (Z.to_nat id) table []))) ids).
Proof.
  intros Hlen Hvalid. unfold tf_nn_embedding_lookup, valid_ids in *.
  rewrite forallb_forall in Hvalid.
  apply mapM_ok. intros m Hm.
  apply mapM_ok. intros row Hrow.
  apply mapM_ok. intros id Hid.
  unfold gather_row. rewrite Hlen.
  now rewrite (Hvalid id (In_flatten3 id row m ids Hid Hrow Hm)).
Qed.

Lemma one_hot_product_rows (V E : nat) (table : list (list R))
    (ids : list (list (list Z))) :
  shaped2 V E table ->
  valid_ids V ids = true ->
  tf_matmul (tf_one_hot (flatten3 ids) V) table =
  concat (concat (map (map (map (fun id => nth (Z.to_nat id) table []))) ids)).
Proof.
  intros Htable Hvalid. unfold tf_matmul, tf_one_hot, valid_ids in *.
  rewrite forallb_forall in Hvalid.
  rewrite map_map.
  rewrite <- !concat_map. fold (flatten3 ids).
  apply map_ext_in. intros id Hid.
  apply matmul_one_hot_row with (E := E); [exact Htable|].
  specialize (Hvalid id Hid). apply andb_prop in Hvalid. lia.
Qed.

Lemma shape3_of_shaped {A} (B L n : nat) (t : list (list (list A))) :
  shaped3 B L n t ->
  exists l n', shape3 t = (B, l, n') /\
    ((0 < B)%nat -> l = L /\ ((0 < L)%nat -> n' = n)).
Proof.
  intros [H1 H2]. unfold shape3, width. rewrite H1.
  eexists. eexists. split; [reflexivity|].
  intros HB. destruct (H2 0%nat HB) as [H3 H4].
  destruct t as [|m t]; cbn in *; [lia|].
  split; [exact H3|]. intros HL.
  specialize (H4 0%nat HL). destruct m as [|r m]; cbn in *; [lia|]. exact H4.
Qed.

Lemma shaped3_degenerate {A} (B L c b l c' : nat) (t : list (list (list A))) :
  shaped3 b l c' t ->
  b = B -> ((0 < B)%nat -> l = L /\ ((0 < L)%nat -> c' = c)) ->
  shaped3 B L c t.
Proof.
  intros [H1 H2] -> H. split; [exact H1|].
  intros i Hi. destruct (H ltac:(lia)) as [-> Hc].
  destruct (H2 i Hi) as [H3 H4]. split; [exact H3|].
  intros j Hj. rewrite H4 by lia. apply Hc. lia.
Qed.

Lemma shaped2_has_shape {A} (r c : nat) (m : list (list A)) :
  shaped2 r c m -> has_shape2 r c m = true.
Proof.
  intros [H1 H2]. unfold has_shape2. apply andb_true_intro.
  split; [now apply Nat.eqb_eq|].
  apply forallb_forall. intros x Hx.
  destruct (In_nth _ _ [] Hx) as (i & Hi & <-).
  apply Nat.eqb_eq. apply H2. lia.
Qed.

Lemma shaped3_has_shape {A} (b r c : nat) (t : list (list (list A))) :
  shaped3 b r c t -> has_shape3 b r c t = true.
Proof.
  intros [H1 H2]. unfold has_shape3. apply andb_true_intro.
  split; [now apply Nat.eqb_eq|].
  apply forallb_forall. intros x Hx.
  destruct (In_nth _ _ [] Hx) as (i & Hi & <-).
  apply shaped2_has_shape. apply H2. lia.
Qed.

Lemma length_nth_singletons {A} (l : list A) (j : nat) :
  (j < length l)%nat -> length (nth j (map (fun x => [x]) l) []) = 1%nat.
Proof.
  revert j; induction l as [|x l IH]; intros [|j] Hj; cbn in *; try lia.
  apply IH. lia.
Qed.

Lemma shaped3_expand_dims_last {A} (B L n : nat) (ids : list (list A)) :
  shaped3 B L n (tf_expand_dims_last ids) ->
  shaped3 B L 1 (tf_expand_dims_last ids).
Proof.
  intros [H1 H2]. split; [exact H1|].
  intros i Hi. destruct (H2 i Hi) as [H3 H4]. split; [exact H3|].
  intros j Hj. unfold tf_expand_dims_last in *. rewrite length_map in H1.
  rewrite (nth_map_in _ _ i []) in * by lia.
  rewrite length_map in H3.
  apply length_nth_singletons. lia.
Qed.

(** C8: for ids inside the vocabulary and a table of shape
    [[vocab_size, embedding_size]], [embedding_lookup] returns the same
    value by the one-hot product and by the gather; the output has shape
    [[batch_size, seq_length, num_inputs * embedding_size]], which for a
    rank-2 id tensor is [[batch_size, seq_length, embedding_size]]. *)
Theorem embedding_lookup_one_hot_equals_gather
    (input_ids : id_tensor) (vocab_size embedding_size : nat)
    (embedding_table : mat) (B L n : nat) :
  has_shape3 B L n (expand_ids input_ids) = true ->
  valid_ids vocab_size (expand_ids input_ids) = true ->
  has_shape2 vocab_size embedding_size embedding_table = true ->
  embedding_lookup input_ids vocab_size embedding_size embedding_table true =
  embedding_lookup input_ids vocab_size embedding_size embedding_table false /\
  exists output,
    embedding_lookup input_ids vocab_size embedding_size embedding_table false
      = Ok (output, embedding_table) /\
    has_shape3 B L (n * embedding_size) output = true /\
    (forall ids, input_ids = Ids2 ids ->
       has_shape3 B L embedding_size output = true).
Proof.
  intros Hids Hvalid Htable.
  apply has_shape3_spec in Hids. apply has_shape2_spec in Htable.
  unfold embedding_lookup.
  destruct (shape3_of_shaped B L n _ Hids) as (l & n' & Hs & Hdeg).
  rewrite Hs.
  rewrite (gather_all_ok vocab_size embedding_size) by (auto; apply Htable).
  cbn [bind].
  unfold flatten2 at 1, flatten4.
  rewrite (one_hot_product_rows vocab_size embedding_size) by auto.
  fold (flatten2 (A := R)).
  split; [reflexivity|].
  eexists. split; [reflexivity|].
  split.
  - apply shaped3_has_shape.
    apply (shaped3_degenerate B L (n * embedding_size) B l (n' * embedding_size));
      [apply shaped3_tf_reshape3|reflexivity|].
    intros HB. destruct (Hdeg HB) as [-> Hn]. split; [reflexivity|].
    intros HL. now rewrite Hn.
  - intros ids ->. cbn [expand_ids] in *.
    apply shaped3_expand_dims_last in Hids.
    destruct (shape3_of_shaped B L 1 _ Hids) as (l2 & n2 & Hs2 & Hdeg2).
    rewrite Hs in Hs2. injection Hs2 as <- <-.
    apply shaped3_has_shape.
    apply (shaped3_degenerate B L embedding_size B l (n' * embedding_size));
      [apply shaped3_tf_reshape3|reflexivity|].
    intros HB. destruct (Hdeg2 HB) as [-> Hn]. split; [reflexivity|].
    intros HL. rewrite Hn by lia. lia.
Qed.

Lemma embedding_lookup_one_hot_equals_gather_witness :
  embedding_lookup (Ids2 [[2; 0]; [1; 1]]%Z) 3 2
    [[1; 2]; [3; 4]; [5; 6]] true =
  embedding_lookup (Ids2 [[2; 0]; [1; 1]]%Z) 3 2
    [[1; 2]; [3; 4]; [5; 6]] false.
Proof.
  apply (proj1 (embedding_lookup_one_hot_equals_gather
                  (Ids2 [[2; 0]; [1; 1]]%Z) 3 2 [[1; 2]; [3; 4]; [5; 6]]
                  2 2 1 eq_refl eq_refl eq_refl)).
Defined.

(** ** The model as a whole *)

Section ModelFacts.

Context {tf : TensorFlow}.

(** The attention layer does not read [sub_attention_mask]. *)
Lemma attention_layer_ignores_sub_mask
    (vars : attention_vars) (from_tensor to_tensor : tensor23)
    (attention_mask sub1 sub2 : option tensor3)
    (num_attention_heads size_per_head : nat)
    (query_act key_act value_act : option (R -> R))
    (attention_probs_dropout_prob : option R) (do_return_2d_tensor : bool)
    (batch_size from_seq_length to_seq_length : option nat) :
  attention_layer vars from_tensor to_tensor attention_mask sub1
    num_attention_heads size_per_head query_act key_act value_act
    attention_probs_dropout_prob do_return_2d_tensor
    batch_size from_seq_length to_seq_length =
  attention_layer vars from_tensor to_tensor attention_mask sub2
    num_attention_heads size_per_head query_act key_act value_act
    attention_probs_dropout_prob do_return_2d_tensor
    batch_size from_seq_length to_seq_length.
Proof. reflexivity. Qed.

Lemma foldM_ext {A S} (f g : S -> A -> result S) (l : list A) (s : S) :
  (forall s a, f s a = g s a) -> foldM f l s = foldM g l s.
Proof.
  intros H. revert s; induction l as [|a l IH]; intros s; cbn; [reflexivity|].
  rewrite H. destruct (g s a); cbn; auto.
Qed.

Lemma transformer_model_ignores_sub_mask
    (vars : nat -> layer_vars) (input_tensor : tensor3)
    (attention_mask sub1 sub2 : option tensor3)
    (hidden_size num_hidden_layers num_attention_heads intermediate_size : nat)
    (intermediate_act_fn : option (R -> R))
    (hidden_dropout_prob attention_probs_dropout_prob : option R)
    (do_return_all_layers : bool) :
  transformer_model vars input_tensor attention_mask sub1
    hidden_size num_hidden_layers num_attention_heads intermediate_size
    intermediate_act_fn hidden_dropout_prob attention_probs_dropout_prob
    do_return_all_layers =
  transformer_model vars input_tensor attention_mask sub2
    hidden_size num_hidden_layers num_attention_heads intermediate_size
    intermediate_act_fn hidden_dropout_prob attention_probs_dropout_prob
    do_return_all_layers.
Proof.
  unfold transformer_model, transformer_stack.
  destruct (num_attention_heads =? 0)%nat; [reflexivity|].
  destruct (negb _); [reflexivity|].
  destruct (shape3 input_tensor) as [[b l] w].
  destruct (negb _); [reflexivity|].
  rewrite (foldM_ext
    (transformer_layer vars attention_mask sub1 hidden_size num_attention_heads
       (attention_head_size_of hidden_size num_attention_heads)
       intermediate_size intermediate_act_fn hidden_dropout_prob
       attention_probs_dropout_prob b l)
    (transformer_layer vars attention_mask sub2 hidden_size num_attention_heads
       (attention_head_size_of hidden_size num_attention_heads)
       intermediate_size intermediate_act_fn hidden_dropout_prob
       attention_probs_dropout_prob b l)).
  - reflexivity.
  - intros [prev all] layer_idx. unfold transformer_layer.
    now rewrite (attention_layer_ignores_sub_mask _ _ _ _ sub1 sub2).
Qed.

(** C10: the context mask does not reach any output of the model: two
    constructions that differ in [context_mask] only (given or left to its
    default) end alike, with the same embedding output, encoder layers,
    sequence output and pooled output, or with the same error. *)
Theorem BertModel_ignores_context_mask
    (vars : bert_vars) (config : BertConfig) (is_training : bool)
    (layer_def : list bool) (input_ids cluster_ids context_ids : list (list Z))
    (input_mask token_type_ids : option (list (list Z)))
    (context_mask1 context_mask2 : option (list (list Z)))
    (use_one_hot_embeddings : bool) :
  BertModel vars config is_training layer_def input_ids cluster_ids context_ids
    input_mask context_mask1 token_type_ids use_one_hot_embeddings =
  BertModel vars config is_training layer_def input_ids cluster_ids context_ids
    input_mask context_mask2 token_type_ids use_one_hot_embeddings.
Proof.
  unfold BertModel.
  destruct (shape2 input_ids) as [batch_size seq_length].
  destruct (py_index layer_def 0) as [flag0|e]; cbn [bind]; [|reflexivity].
  destruct flag0; [|reflexivity].
  destruct (embedding_lookup _ _ _ _ _) as [[word_output table]|e];
    cbn [bind]; [|reflexivity].
  destruct (cluster_embedding_lookup _ _ _ _ _) as [[cluster_output ctable]|e];
    cbn [bind]; [|reflexivity].
  destruct (py_index layer_def 2) as [flag2|e]; cbn [bind]; [|reflexivity].
  destruct (py_index layer_def 3) as [flag3|e]; cbn [bind]; [|reflexivity].
  unfold embedding_postprocessor.
  destruct (shape3 _) as [[b l] w].
  destruct (add_token_type_embeddings _ _ _ _ _ _ _ _) as [out1|e];
    cbn [bind]; [|reflexivity].
  destruct (add_position_embeddings _ _ _ _ _ _) as [out2|e];
    cbn [bind add_entity_embeddings]; [|reflexivity].
  destruct (get_activation _) as [act|e]; cbn [bind]; [|reflexivity].
  rewrite (transformer_model_ignores_sub_mask _ _ _
             (Some (create_attention_mask_from_input_mask input_ids
                      match context_mask1 with
                      | Some m => m
                      | None => tf_ones batch_size seq_length
                      end))
             (Some (create_attention_mask_from_input_mask input_ids
                      match context_mask2 with
                      | Some m => m
                      | None => tf_ones batch_size seq_length
                      end))).
  reflexivity.
Qed.

Lemma length_dropout {T} `{Tensor T} (l : list T) (p : option R) :
  length (dropout l p) = length l.
Proof.
  unfold dropout. destruct p as [p|]; [|reflexivity].
  destruct (Req_dec_T p 0); [reflexivity|].
  unfold tf_nn_dropout, tensor_mapi, Tensor_list. apply length_mapi.
Qed.

Lemma squeeze_first_rows (t : tensor3) (ft : mat) :
  tf_squeeze_axis1 (map (firstn 1) t) = Ok ft ->
  ft = map (fun s => nth 0 s []) t.
Proof.
  unfold tf_squeeze_axis1. revert ft; induction t as [|m t IH]; intros ft H.
  - cbn in H. now injection H as <-.
  - cbn [map mapM] in H.
    destruct m as [|row m]; [cbn in H; discriminate|].
    change (firstn 1 (row :: m)) with [row] in H. cbn [bind] in H.
    destruct (mapM _ (map (firstn 1) t)) as [rest|e]; cbn [bind] in H;
      [|discriminate].
    injection H as <-. cbn. f_equal. now apply IH.
Qed.

Lemma shaped2_dense (v : dense_vars) (inputs : mat) (units : nat)
    (activation : option (R -> R)) :
  shaped2 (length inputs) units (tf_layers_dense v inputs units activation).
Proof.
  unfold tf_layers_dense. split; [apply length_map|].
  intros i Hi. rewrite (nth_map_in _ _ i []) by lia.
  now rewrite length_map, length_seq.
Qed.

Lemma pooler_value (v : dense_vars) (sequence_output : tensor3)
    (input_ids : list (list Z)) (hidden : nat) (po : mat) :
  pooler v sequence_output input_ids hidden = Ok po ->
  po = tf_layers_dense v (map (fun s => nth 0 s []) sequence_output) hidden
         (Some tanh).
Proof.
  unfold pooler. destruct (tf_squeeze_axis1 _) as [ft|e] eqn:E; cbn; [|discriminate].
  intros H. injection H as <-. now rewrite (squeeze_first_rows _ _ E).
Qed.

Lemma pooler_ignores_input_ids (v : dense_vars) (sequence_output : tensor3)
    (ids1 ids2 : list (list Z)) (hidden : nat) :
  pooler v sequence_output ids1 hidden = pooler v sequence_output ids2 hidden.
Proof. reflexivity. Qed.

Lemma length_embedding_lookup (input_ids : id_tensor) (V E : nat) (table : mat)
    (u : bool) (out : tensor3) (tbl : mat) :
  embedding_lookup input_ids V E table u = Ok (out, tbl) ->
  length out = length (expand_ids input_ids).
Proof.
  unfold embedding_lookup, shape3.
  destruct u.
  - cbn [bind]. intros H. injection H as <- _.
    unfold tf_reshape3. apply length_tabulate.
  - destruct (tf_nn_embedding_lookup _ _); cbn [bind]; [|discriminate].
    intros H. injection H as <- _.
    unfold tf_reshape3. apply length_tabulate.
Qed.

Lemma length_cluster_embedding_lookup (ids : id_tensor) (V E : nat) (table : mat)
    (u : bool) (out : tensor3) (tbl : mat) :
  cluster_embedding_lookup ids V E table u = Ok (out, tbl) ->
  length out = length (expand_ids ids).
Proof.
  unfold cluster_embedding_lookup, shape3.
  destruct u.
  - cbn [bind]. intros H. injection H as <- _.
    unfold tf_reshape3. apply length_tabulate.
  - destruct (tf_nn_embedding_lookup _ _); cbn [bind]; [|discriminate].
    intros H. injection H as <- _.
    unfold tf_reshape3. apply length_tabulate.
Qed.

Lemma length_one_hot_channel ids V table b l w :
  length (one_hot_channel ids V table b l w) = b.
Proof. unfold one_hot_channel, tf_reshape3. apply length_tabulate. Qed.

Lemma length_embedding_postprocessor (input_tensor : tensor3)
    (use_token_type : bool) (token_type_ids : option (list (list Z)))
    (token_type_vocab_size : nat) (token_type_table : mat)
    (use_position_embeddings : bool) (full_position_embeddings : mat)
    (max_position_embeddings : nat)
    (use_entity_embedding : bool) (entity_type_table : mat)
    (entity_type_ids : option (list (list Z)))
    (dropout_prob : option R) (out : tensor3) :
  embedding_postprocessor input_tensor use_token_type token_type_ids
    token_type_vocab_size token_type_table use_position_embeddings
    full_position_embeddings max_position_embeddings use_entity_embedding
    entity_type_table entity_type_ids dropout_prob = Ok out ->
  length out = length input_tensor.
Proof.
  unfold embedding_postprocessor, shape3.
  destruct (add_token_type_embeddings _ _ _ _ _ _ _ _) as [o1|e] eqn:E1;
    cbn [bind]; [|discriminate].
  destruct (add_position_embeddings _ _ _ _ _ _) as [o2|e] eqn:E2;
    cbn [bind]; [|discriminate].
  destruct (add_entity_embeddings _ _ _ _ _ _ _ _) as [o3|e] eqn:E3;
    cbn [bind]; [|discriminate].
  intros H. injection H as <-.
  unfold layer_norm_and_dropout, layer_norm3. rewrite length_dropout, length_map.
  assert (H1 : length o1 = length input_tensor).
  { unfold add_token_type_embeddings in E1.
    destruct use_token_type; [|now injection E1 as <-].
    destruct token_type_ids; [|discriminate]. injection E1 as <-.
    unfold tensor3_add. rewrite length_map2, length_one_hot_channel.
    apply Nat.min_id. }
  assert (H2 : length o2 = length o1).
  { unfold add_position_embeddings in E2.
    destruct use_position_embeddings; [|now injection E2 as <-].
    destruct (_ <=? _)%nat; [|discriminate]. injection E2 as <-.
    unfold add_broadcast_batch. apply length_map. }
  assert (H3 : length o3 = length o2).
  { unfold add_entity_embeddings in E3.
    destruct use_entity_embedding; [|now injection E3 as <-].
    destruct entity_type_ids; [|discriminate]. injection E3 as <-.
    unfold tensor3_add. rewrite length_map2, length_one_hot_channel.
    rewrite H2, H1. apply Nat.min_id. }
  lia.
Qed.

Lemma py_last_map {A B} (f : A -> B) (l : list A) (x : B) :
  py_last (map f l) = Ok x -> exists y, x = f y.
Proof.
  unfold py_last. rewrite <- map_rev.
  destruct (rev l) as [|y r]; cbn; [discriminate|].
  intros H. injection H as <-. now exists y.
Qed.

Lemma transformer_model_all_layers
    (vars : nat -> layer_vars) (input_tensor : tensor3)
    (attention_mask sub_attention_mask : option tensor3)
    (hidden_size num_hidden_layers num_attention_heads intermediate_size : nat)
    (intermediate_act_fn : option (R -> R))
    (hidden_dropout_prob attention_probs_dropout_prob : option R)
    (out : transformer_output) :
  transformer_model vars input_tensor attention_mask sub_attention_mask
    hidden_size num_hidden_layers num_attention_heads intermediate_size
    intermediate_act_fn hidden_dropout_prob attention_probs_dropout_prob true
    = Ok out ->
  exists all_layer_outputs,
    out = AllLayers
            (map (fun layer_output =>
                    reshape_from_matrix layer_output (shape3 input_tensor))
                 all_layer_outputs).
Proof.
  unfold transformer_model, transformer_stack.
  destruct (num_attention_heads =? 0)%nat; [discriminate|].
  destruct (negb _); [discriminate|].
  destruct (shape3 input_tensor) as [[b l] w].
  destruct (negb _); [discriminate|].
  destruct (foldM _ _ _) as [[prev all]|e]; cbn [bind]; [|discriminate].
  intros H. injection H as <-. now exists all.
Qed.

Lemma length_reshape_from_matrix (m : mat) (b l w : nat) :
  length (reshape_from_matrix m (b, l, w)) = b.
Proof. unfold reshape_from_matrix, tf_reshape3. apply length_tabulate. Qed.

Lemma length_expand_ids2 (ids : list (list Z)) :
  length (expand_ids (Ids2 ids)) = length ids.
Proof. cbn. unfold tf_expand_dims_last. apply length_map. Qed.

(** C5: the pooled output that [BertModel] returns is the dense layer with
    tanh applied to the final hidden state at token position 0; it has
    shape [[batch_size, hidden_size]]; the hidden state at the terminator
    token does not enter it: the pooler returns the same value whatever
    ids it is given to search for the terminator. *)
Theorem pooled_output_is_first_token_dense
    (vars : bert_vars) (config : BertConfig) (is_training : bool)
    (layer_def : list bool) (input_ids cluster_ids context_ids : list (list Z))
    (input_mask context_mask token_type_ids : option (list (list Z)))
    (use_one_hot_embeddings : bool) (model : BertModel_attrs) :
  BertModel vars config is_training layer_def input_ids cluster_ids context_ids
    input_mask context_mask token_type_ids use_one_hot_embeddings
    = Ok (Some model) ->
  length cluster_ids = length input_ids ->
  pooled_output model =
    tf_layers_dense (pooler_vars vars)
      (map (fun s => nth 0 s []) (sequence_output model))
      (hidden_size config) (Some tanh) /\
  has_shape2 (length input_ids) (hidden_size config) (pooled_output model)
    = true /\
  forall ids : list (list Z),
    pooler (pooler_vars vars) (sequence_output model) ids (hidden_size config)
    = Ok (pooled_output model).
Proof.
  intros Hrun Hbatch. unfold BertModel in Hrun.
  set (cfg := if negb is_training then eval_config config else config) in Hrun.
  assert (Hhid : hidden_size cfg = hidden_size config)
    by (unfold cfg; now destruct is_training).
  destruct (shape2 input_ids) as [batch_size seq_length].
  destruct (py_index layer_def 0) as [flag0|e]; cbn [bind] in Hrun;
    [|discriminate].
  destruct flag0; [|discriminate].
  destruct (embedding_lookup _ _ _ _ _) as [[wo tbl]|e] eqn:Eword;
    cbn [bind] in Hrun; [|discriminate].
  destruct (cluster_embedding_lookup _ _ _ _ _) as [[co ctbl]|e] eqn:Ecluster;
    cbn [bind] in Hrun; [|discriminate].
  destruct (py_index layer_def 2) as [flag2|e]; cbn [bind] in Hrun;
    [|discriminate].
  destruct (py_index layer_def 3) as [flag3|e]; cbn [bind] in Hrun;
    [|discriminate].
  destruct (embedding_postprocessor _ _ _ _ _ _ _ _ _ _ _ _) as [eo|e] eqn:Epost;
    cbn [bind] in Hrun; [|discriminate].
  destruct (get_activation _) as [act|e]; cbn [bind] in Hrun; [|discriminate].
  destruct (transformer_model _ _ _ _ _ _ _ _ _ _ _ _) as [out|e] eqn:Etrans;
    cbn [bind] in Hrun; [|discriminate].
  destruct (py_last _) as [so|e] eqn:Elast; cbn [bind] in Hrun; [|discriminate].
  destruct (pooler _ _ _ _) as [po|e] eqn:Epool; cbn [bind] in Hrun;
    [|discriminate].
  injection Hrun as <-. cbn [pooled_output sequence_output].
  rewrite Hhid in Epool.
  pose proof (pooler_value _ _ _ _ _ Epool) as Hpo.
  split; [exact Hpo|]. split.
  - apply shaped2_has_shape.
    replace (length input_ids) with
      (length (map (fun s : list (list R) => nth 0 s []) so)).
    + rewrite Hpo. apply shaped2_dense.
    + rewrite length_map.
      destruct (transformer_model_all_layers _ _ _ _ _ _ _ _ _ _ _ _ Etrans)
        as (all & ->).
      destruct (py_last_map _ _ _ Elast) as (y & ->).
      destruct (shape3 eo) as [[b l] w] eqn:Es.
      rewrite length_reshape_from_matrix.
      unfold shape3 in Es. injection Es as <- _ _.
      rewrite (length_embedding_postprocessor _ _ _ _ _ _ _ _ _ _ _ _ _ Epost).
      unfold tensor3_add. rewrite length_map2.
      rewrite (length_embedding_lookup _ _ _ _ _ _ _ Eword).
      rewrite (length_cluster_embedding_lookup _ _ _ _ _ _ _ Ecluster).
      rewrite !length_expand_ids2. lia.
  - intros ids. rewrite <- Epool. reflexivity.
Qed.

End ModelFacts.

Lemma pooled_output_is_first_token_dense_witness :
  exists model,
    BertModel (tf := plain_tf) sample_vars sample_config true
      [true; true; true; true] [[1]]%Z [[1]]%Z [[0]]%Z
      (Some [[1]]%Z) None None true = Ok (Some model) /\
    has_shape2 1 1 (pooled_output model) = true.
Proof.
  assert (Hrun : sets_attributes
            (BertModel (tf := plain_tf) sample_vars sample_config true
               [true; true; true; true] [[1]]%Z [[1]]%Z [[0]]%Z
               (Some [[1]]%Z) None None true) = true) by reflexivity.
  destruct (BertModel (tf := plain_tf) sample_vars sample_config true
              [true; true; true; true] [[1]]%Z [[1]]%Z [[0]]%Z
              (Some [[1]]%Z) None None true) as [[model|]|e] eqn:E;
    try discriminate Hrun.
  exists model. split; [reflexivity|].
  exact (proj1 (proj2 (pooled_output_is_first_token_dense (tf := plain_tf)
    sample_vars sample_config true [true; true; true; true]
    [[1]]%Z [[1]]%Z [[0]]%Z (Some [[1]]%Z) None None true model E eq_refl))).
Defined.

(** * Further properties of the code *)

(** ** The attention probabilities *)





Section AttentionProbabilities.

Context {tf : TensorFlow}.


End AttentionProbabilities.


(** ** The distance margin *)






(** ** The attention mask, in general *)

(** X3: The mask built from a [[B, T]] input mask has shape [[B, T, T]]
    whatever the from-sequence length of [from_tensor] is; its entry at
    [(b, f, t)] is the product of the input mask at [f] and at [t], so it is
    symmetric in the two positions, and for a binary input mask it is 1
    exactly when both positions are attendable. *)
Theorem create_attention_mask_is_outer_product {A : Type}
    (from_tensor : list (list A)) (to_mask : list (list Z)) (B T : nat) :
  length from_tensor = B ->
  has_shape2 B T to_mask = true ->
  let mask := create_attention_mask_from_input_mask from_tensor to_mask in
  has_shape3 B T T mask = true /\
  forall b f t, (b < B)%nat -> (f < T)%nat -> (t < T)%nat ->
    nth3 mask b f t 0 =
      IZR (nth2 to_mask b f 0%Z) * IZR (nth2 to_mask b t 0%Z) /\
    nth3 mask b f t 0 = nth3 mask b t f 0 /\
    ((nth2 to_mask b f 0%Z = 0 \/ nth2 to_mask b f 0%Z = 1)%Z ->
     (nth2 to_mask b t 0%Z = 0 \/ nth2 to_mask b t 0%Z = 1)%Z ->
     (nth3 mask b f t 0 = 1 <->
        nth2 to_mask b f 0%Z = 1%Z /\ nth2 to_mask b t 0%Z = 1%Z) /\
     (nth3 mask b f t 0 = 0 \/ nth3 mask b f t 0 = 1)).
Proof.
  intros _ Hm. cbv zeta. apply has_shape2_spec in Hm.
  split.
  - apply shaped3_has_shape. destruct Hm as [H1 H2].
    unfold create_attention_mask_from_input_mask, broadcast_outer. cbv zeta.
    split; [rewrite length_map2, !length_map, H1; apply Nat.min_id|].
    intros b Hb.
    rewrite (nth_map2 _ _ _ b [] []) by (rewrite length_map; lia).
    rewrite (nth_map_in _ _ b []) by lia.
    rewrite (nth_map_in _ _ b []) by lia. cbn [nth].
    split; [now rewrite !length_map, H2|].
    intros f Hf.
    rewrite (nth_map_in _ _ f []) by (rewrite length_map, H2; lia).
    now rewrite !length_map, H2.
  - intros b f t Hb Hf Ht.
    rewrite !(create_attention_mask_entry from_tensor to_mask B T) by auto.
    split; [reflexivity|]. split; [apply Rmult_comm|].
    intros [-> | ->] [-> | ->]; split; try (split; intros; lra);
      try (right; lra); try (left; lra).
    + split; [intros H; lra|intros [H _]; discriminate].
    + split; [intros H; lra|intros [H _]; discriminate].
    + split; [intros H; lra|intros [_ H]; discriminate].
    + split; [intros _; auto|intros _; lra].
Qed.

Lemma create_attention_mask_is_outer_product_witness :
  has_shape3 2 3 3
    (create_attention_mask_from_input_mask [[31; 51; 99]; [15; 5; 0]]%Z
       [[1; 1; 1]; [1; 1; 0]]%Z) = true.
Proof.
  apply (proj1 (create_attention_mask_is_outer_product
                  [[31; 51; 99]; [15; 5; 0]]%Z [[1; 1; 1]; [1; 1; 0]]%Z 2 3
                  eq_refl eq_refl)).
Defined.

(** ** Flattening to a matrix and back *)

Lemma nth_skipn_plus {A} (l : list A) (s k : nat) (d : A) :
  nth k (skipn s l) d = nth (s + k) l d.
Proof.
  revert l; induction s as [|s IH]; intros l; [reflexivity|].
  destruct l as [|x l]; cbn; [now destruct k|]. apply IH.
Qed.

Lemma length_concat_uniform {A} (m : list (list A)) (c : nat) :
  (forall k, (k < length m)%nat -> length (nth k m []) = c) ->
  length (concat m) = (length m * c)%nat.
Proof.
  induction m as [|r m IH]; intros H; cbn; [reflexivity|].
  pose proof (H 0%nat ltac:(cbn; lia)) as Hr. cbn in Hr.
  rewrite length_app, IH, Hr; [reflexivity|].
  intros k Hk. apply (H (S k)). cbn. lia.
Qed.

(** Entry [(i, j)] of the matrix whose rows are the concatenation of the
    matrices of a rank-3 tensor. *)
Lemma nth_concat_rows {A} (t : list (list (list A))) (B L : nat) (i j : nat) :
  length t = B ->
  (forall k, (k < B)%nat -> length (nth k t []) = L) ->
  (i < B)%nat -> (j < L)%nat ->
  nth (i * L + j) (concat t) [] = nth j (nth i t []) [].
Proof.
  intros H1 H2 Hi Hj. apply nth_concat_uniform; try lia.
  intros k Hk. apply H2. lia.
Qed.

Lemma concat_rows_uniform {A} (t : list (list (list A))) (B L W : nat) :
  shaped3 B L W t ->
  length (concat t) = (B * L)%nat /\
  forall k, (k < length (concat t))%nat -> length (nth k (concat t) []) = W.
Proof.
  intros [H1 H2].
  assert (HL : length (concat t) = (B * L)%nat).
  { rewrite (length_concat_uniform t L), H1; [reflexivity|].
    intros k Hk. apply H2. lia. }
  split; [exact HL|].
  intros k Hk. rewrite HL in Hk.
  assert (HLpos : (0 < L)%nat) by (destruct L; [lia|lia]).
  pose proof (Nat.div_mod_eq k L) as Hdm.
  pose proof (Nat.mod_upper_bound k L ltac:(lia)) as Hmod.
  assert (Hdiv : (k / L < B)%nat) by (apply Nat.Div0.div_lt_upper_bound; lia).
  replace k with (k / L * L + k mod L)%nat by lia.
  rewrite (nth_concat_rows t B L) by (auto; intros; now apply H2).
  destruct (H2 (k / L)%nat Hdiv) as [H3 H4]. now apply H4.
Qed.

Lemma tf_reshape3_flatten3 (B L W : nat) (t : list (list (list R))) :
  shaped3 B L W t -> tf_reshape3 B L W (flatten3 t) = t.
Proof.
  intros Ht. destruct (concat_rows_uniform t B L W Ht) as [HL Hrows].
  destruct Ht as [H1 H2]. unfold tf_reshape3, tf_reshape2, flatten3.
  apply nth_ext with (d := []) (d' := []); [now rewrite length_tabulate|].
  intros i Hi. rewrite length_tabulate in Hi. destruct (H2 i Hi) as [H3 H4].
  rewrite nth_tabulate by lia.
  apply nth_ext with (d := []) (d' := []); [now rewrite length_tabulate|].
  intros i' Hi'. rewrite length_tabulate in Hi'.
  rewrite nth_tabulate by lia.
  apply nth_ext with (d := 0) (d' := 0); [now rewrite length_tabulate, H4|].
  intros j Hj. rewrite length_tabulate in Hj.
  rewrite nth_tabulate by lia.
  rewrite nth_skipn_plus.
  replace (i * (L * W) + (i' * W + j))%nat with ((i * L + i') * W + j)%nat
    by nia.
  rewrite (nth_concat_uniform (concat t) W) by (auto; rewrite HL; nia).
  rewrite (nth_concat_rows t B L) by (auto; intros; now apply H2).
  reflexivity.
Qed.

Lemma flatten2_tf_reshape2 (r c : nat) (flat : list R) :
  length flat = (r * c)%nat -> flatten2 (tf_reshape2 r c flat) = flat.
Proof.
  intros Hlen. unfold flatten2.
  destruct (shaped2_tabulate r c (fun i j => nth (i * c + j) flat 0))
    as [H1 H2].
  fold (tf_reshape2 r c flat) in H1, H2.
  assert (Hu : forall k, (k < length (tf_reshape2 r c flat))%nat ->
                 length (nth k (tf_reshape2 r c flat) []) = c).
  { intros k Hk. apply H2. lia. }
  apply nth_ext with (d := 0) (d' := 0).
  - rewrite (length_concat_uniform _ c Hu), H1. lia.
  - intros k Hk.
    rewrite (length_concat_uniform _ c Hu), H1 in Hk.
    assert (Hc : (0 < c)%nat) by (destruct c; [lia|lia]).
    pose proof (Nat.div_mod_eq k c) as Hdm.
    pose proof (Nat.mod_upper_bound k c ltac:(lia)) as Hmod.
    assert (Hdiv : (k / c < r)%nat)
      by (apply Nat.Div0.div_lt_upper_bound; lia).
    replace k with (k / c * c + k mod c)%nat at 1 by lia.
    rewrite (nth_concat_uniform _ c) by (auto; lia).
    unfold tf_reshape2.
    rewrite nth_tabulate by lia. rewrite nth_tabulate by lia.
    f_equal. lia.
Qed.

Lemma length_flatten3 (B L W : nat) (t : list (list (list R))) :
  shaped3 B L W t -> length (flatten3 t) = (B * L * W)%nat.
Proof.
  intros Ht. destruct (concat_rows_uniform t B L W Ht) as [HL Hrows].
  unfold flatten3. rewrite (length_concat_uniform _ W Hrows), HL. reflexivity.
Qed.

Lemma shaped3_own_shape {A} (B L W : nat) (t : list (list (list A))) :
  shaped3 B L W t -> shaped3 (length t) (width t) (width (hd [] t)) t.
Proof.
  intros Ht. destruct (shape3_of_shaped B L W t Ht) as (l & w & Hs & Hdeg).
  unfold shape3 in Hs. injection Hs as HB Hl Hw.
  destruct Ht as [H1 H2]. rewrite Hl, Hw, H1. split; [exact H1|].
  intros i Hi. destruct (Hdeg ltac:(lia)) as [-> Hw'].
  destruct (H2 i Hi) as [H3 H4]. split; [exact H3|].
  intros j Hj. rewrite H4 by lia. symmetry. apply Hw'. lia.
Qed.

(** X4: A rank-3 tensor that [reshape_to_matrix] flattens to a matrix is
    restored by [reshape_from_matrix], given its original shape list:
    the round trip keeps every value. *)
Theorem reshape_from_matrix_to_matrix (t : tensor3) (B L W : nat) :
  has_shape3 B L W t = true ->
  reshape_from_matrix (reshape_to_matrix (Rank3 t)) (shape3 t) = t.
Proof.
  intros Ht. apply has_shape3_spec in Ht. apply shaped3_own_shape in Ht.
  unfold shape3, reshape_to_matrix, reshape_from_matrix.
  fold (width t) in *. fold (width (hd [] t)) in *.
  set (b := length t) in *. set (l := width t) in *.
  set (w := width (hd [] t)) in *.
  set (m := tf_reshape2 (b * l) w (flatten3 t)).
  assert (Hm : flatten2 m = flatten3 t).
  { unfold m. apply flatten2_tf_reshape2. apply (length_flatten3 _ _ _ _ Ht). }
  rewrite Hm.
  destruct (Nat.eq_dec (b * l) 0) as [E|E].
  - assert (Hw : width m = 0%nat) by (unfold m; rewrite E; reflexivity).
    rewrite Hw. apply tf_reshape3_flatten3.
    destruct Ht as [H1 H2]. split; [exact H1|].
    intros i Hi. destruct (H2 i Hi) as [H3 H4]. split; [exact H3|].
    intros j Hj. nia.
  - assert (Hw : width m = w).
    { unfold m, tf_reshape2, width at 1.
      destruct (b * l)%nat as [|k]; [contradiction|].
      cbn [tabulate seq map hd]. apply length_tabulate. }
    rewrite Hw. now apply tf_reshape3_flatten3.
Qed.

Lemma reshape_from_matrix_to_matrix_witness :
  reshape_from_matrix
    (reshape_to_matrix (Rank3 [[[1; 2]; [3; 4]; [5; 6]]; [[7; 8]; [9; 10]; [11; 12]]]))
    (shape3 [[[1; 2]; [3; 4]; [5; 6]]; [[7; 8]; [9; 10]; [11; 12]]]) =
  [[[1; 2]; [3; 4]; [5; 6]]; [[7; 8]; [9; 10]; [11; 12]]].
Proof.
  apply (reshape_from_matrix_to_matrix
           [[[1; 2]; [3; 4]; [5; 6]]; [[7; 8]; [9; 10]; [11; 12]]] 2 3 2 eq_refl).
Defined.

(** ** The transformer stack *)

Lemma foldM_app {A S} (f : S -> A -> result S) (l1 l2 : list A) (s : S) :
  foldM f (l1 ++ l2) s = (s' <- foldM f l1 s ;; foldM f l2 s').
Proof.
  revert s; induction l1 as [|a l1 IH]; intros s; cbn; [reflexivity|].
  destruct (f s a) as [s'|e]; cbn; [apply IH|reflexivity].
Qed.

Lemma last_map {A B} (f : A -> B) (l : list A) (d : A) :
  last (map f l) (f d) = f (last l d).
Proof.
  induction l as [|a l IH]; [reflexivity|].
  cbn [map]. destruct l as [|b l]; [reflexivity|].
  change (last (f a :: map f (b :: l)) (f d)) with (last (map f (b :: l)) (f d)).
  change (last (a :: b :: l) d) with (last (b :: l) d). exact IH.
Qed.

Lemma last_cons_default {A} (a : A) (l : list A) (d : A) :
  last (a :: l) d = last l a.
Proof.
  revert a d; induction l as [|b l IH]; intros a d; [reflexivity|].
  change (last (a :: b :: l) d) with (last (b :: l) d).
  rewrite (IH b d). symmetry. apply IH.
Qed.

Section TransformerStack.

Context {tf : TensorFlow}.

Variables (vars : nat -> layer_vars)
          (attention_mask sub_attention_mask : option tensor3)
          (hidden_size num_attention_heads attention_head_size
             intermediate_size : nat)
          (intermediate_act_fn : option (R -> R))
          (hidden_dropout_prob attention_probs_dropout_prob : option R)
          (batch_size seq_length : nat).

Let layer :=
  transformer_layer vars attention_mask sub_attention_mask hidden_size
    num_attention_heads attention_head_size intermediate_size
    intermediate_act_fn hidden_dropout_prob attention_probs_dropout_prob
    batch_size seq_length.

(** Every pass of the loop appends its output to the list and hands it to
    the next pass. *)
Lemma transformer_loop_outputs (k s : nat) (prev prev' : mat)
    (all all' : list mat) :
  foldM layer (seq s k) (prev, all) = Ok (prev', all') ->
  exists news,
    all' = all ++ news /\ length news = k /\ prev' = last news prev.
Proof.
  revert s prev all; induction k as [|k IH]; intros s prev all H;
    cbn [seq foldM] in H.
  - injection H as <- <-. exists []. now rewrite app_nil_r.
  - destruct (layer (prev, all) s) as [[p a]|e] eqn:E; cbn [bind] in H;
      [|discriminate].
    assert (Ha : a = all ++ [p]).
    { unfold layer, transformer_layer in E.
      destruct (attention_layer _ _ _ _ _ _ _ _ _ _ _ _ _ _ _); cbn in E;
        [|discriminate].
      now injection E as <- <-. }
    subst a. destruct (IH _ _ _ H) as (news & Hall & Hlen & Hprev).
    exists (p :: news). rewrite Hall, <- app_assoc. cbn [app length].
    split; [reflexivity|]. split; [lia|].
    rewrite Hprev. symmetry. apply last_cons_default.
Qed.

End TransformerStack.

Section TransformerModel.

Context {tf : TensorFlow}.

(** X5: With [do_return_all_layers] the model returns one output per layer;
    without it, it returns the last of them (for no layer at all, the input
    flattened and restored), and it raises the same error in both modes. *)
Theorem transformer_model_final_is_last_layer
    (vars : nat -> layer_vars) (input_tensor : tensor3)
    (attention_mask sub_attention_mask : option tensor3)
    (hidden_size num_hidden_layers num_attention_heads intermediate_size : nat)
    (intermediate_act_fn : option (R -> R))
    (hidden_dropout_prob attention_probs_dropout_prob : option R) :
  let run :=
    transformer_model vars input_tensor attention_mask sub_attention_mask
      hidden_size num_hidden_layers num_attention_heads intermediate_size
      intermediate_act_fn hidden_dropout_prob attention_probs_dropout_prob in
  (forall final_outputs,
     run true = Ok (AllLayers final_outputs) ->
     length final_outputs = num_hidden_layers /\
     run false =
       Ok (FinalLayer
             (last final_outputs
                (reshape_from_matrix (reshape_to_matrix (Rank3 input_tensor))
                   (shape3 input_tensor))))) /\
  (forall e, run true = Raise e -> run false = Raise e).
Proof.
  cbv zeta. unfold transformer_model, transformer_stack.
  destruct (num_attention_heads =? 0)%nat; [split; [discriminate|auto]|].
  destruct (negb (hidden_size mod num_attention_heads =? 0)%nat);
    [split; [discriminate|auto]|].
  destruct (shape3 input_tensor) as [[b l] w] eqn:Hs.
  destruct (negb (w =? hidden_size)%nat); [split; [discriminate|auto]|].
  destruct (foldM _ _ _) as [[prev all]|e] eqn:E; cbn [bind];
    [|split; [discriminate|auto]].
  split; [|discriminate].
  intros outs H. injection H as <-.
  apply transformer_loop_outputs in E.
  destruct E as (news & Hall & Hlen & Hprev).
  cbn [app] in Hall. subst all prev.
  rewrite length_map. split; [exact Hlen|].
  now rewrite (last_map (fun lo => reshape_from_matrix lo (b, l, w))).
Qed.

(** X6: The outputs of the first layers do not depend on the layers that
    follow: a model of [n + 1] layers returns, before its last output,
    the outputs of the model of [n] layers with the same variables. *)
Theorem transformer_model_prefix
    (vars : nat -> layer_vars) (input_tensor : tensor3)
    (attention_mask sub_attention_mask : option tensor3)
    (hidden_size n num_attention_heads intermediate_size : nat)
    (intermediate_act_fn : option (R -> R))
    (hidden_dropout_prob attention_probs_dropout_prob : option R)
    (final_outputs : list tensor3) :
  transformer_model vars input_tensor attention_mask sub_attention_mask
    hidden_size (S n) num_attention_heads intermediate_size
    intermediate_act_fn hidden_dropout_prob attention_probs_dropout_prob true
    = Ok (AllLayers final_outputs) ->
  transformer_model vars input_tensor attention_mask sub_attention_mask
    hidden_size n num_attention_heads intermediate_size
    intermediate_act_fn hidden_dropout_prob attention_probs_dropout_prob true
    = Ok (AllLayers (removelast final_outputs)).
Proof.
  unfold transformer_model, transformer_stack.
  destruct (num_attention_heads =? 0)%nat; [discriminate|].
  destruct (negb (hidden_size mod num_attention_heads =? 0)%nat);
    [discriminate|].
  destruct (shape3 input_tensor) as [[b l] w] eqn:Hs.
  destruct (negb (w =? hidden_size)%nat); [discriminate|].
  rewrite seq_S, foldM_app. cbn [Nat.add].
  destruct (foldM _ (seq 0 n) _) as [[prev all]|e] eqn:E; cbn [bind];
    [|discriminate].
  cbn [foldM].
  destruct (transformer_layer _ _ _ _ _ _ _ _ _ _ _ _ (prev, all) n)
    as [[p a]|e] eqn:E1; cbn [bind]; [|discriminate].
  intros H. injection H as <-.
  assert (Ha : a = all ++ [p]).
  { unfold transformer_layer in E1.
    destruct (attention_layer _ _ _ _ _ _ _ _ _ _ _ _ _ _ _); cbn in E1;
      [|discriminate].
    now injection E1 as <- <-. }
  subst a. rewrite map_app. cbn [map]. now rewrite removelast_last.
Qed.

End TransformerModel.

Lemma transformer_model_final_is_last_layer_witness :
  exists final_outputs,
    transformer_model (tf := plain_tf) (fun _ => identity_layer)
      [[[1; 2]]] (Some [[[1]]]) None 2 2 1 2 None None None true
    = Ok (AllLayers final_outputs) /\
    length final_outputs = 2%nat.
Proof.
  assert (Hok : is_ok (transformer_model (tf := plain_tf)
             (fun _ => identity_layer) [[[1; 2]]] (Some [[[1]]]) None
             2 2 1 2 None None None true) = true) by reflexivity.
  destruct (transformer_model (tf := plain_tf) (fun _ => identity_layer)
              [[[1; 2]]] (Some [[[1]]]) None 2 2 1 2 None None None true)
    as [out|e] eqn:E; [|discriminate Hok].
  destruct (transformer_model_all_layers _ _ _ _ _ _ _ _ _ _ _ _ E)
    as (all & ->).
  eexists. split; [reflexivity|].
  apply (proj1 (transformer_model_final_is_last_layer (tf := plain_tf)
           (fun _ => identity_layer) [[[1; 2]]] (Some [[[1]]]) None
           2 2 1 2 None None None) _ E).
Defined.

Lemma transformer_model_prefix_witness :
  is_ok (transformer_model (tf := plain_tf) (fun _ => identity_layer)
           [[[1; 2]]] (Some [[[1]]]) None 2 1 1 2 None None None true)
  = true.
Proof.
  assert (Hok : is_ok (transformer_model (tf := plain_tf)
             (fun _ => identity_layer) [[[1; 2]]] (Some [[[1]]]) None
             2 2 1 2 None None None true) = true) by reflexivity.
  destruct (transformer_model (tf := plain_tf) (fun _ => identity_layer)
              [[[1; 2]]] (Some [[[1]]]) None 2 2 1 2 None None None true)
    as [out|e] eqn:E; [|discriminate Hok].
  destruct (transformer_model_all_layers _ _ _ _ _ _ _ _ _ _ _ _ E)
    as (all & ->).
  now rewrite (transformer_model_prefix (tf := plain_tf)
                 (fun _ => identity_layer) [[[1; 2]]] (Some [[[1]]]) None
                 2 1 1 2 None None None _ E).
Defined.

(** ** The model in evaluation mode *)

Lemma dropout_at_zero {tf : TensorFlow} {T : Type} `{Tensor T} (x : T) :
  dropout x (Some 0) = x.
Proof.
  unfold dropout. destruct (Req_dec_T 0 0) as [_|E]; [reflexivity|].
  exfalso. now apply E.
Qed.

(** X7: Outside training ([is_training = False]) no entry is dropped: the
    result of [BertModel] is the same for any two random choices of
    [tf.nn.dropout], whatever the dropout probabilities of the
    configuration are. *)
Theorem BertModel_evaluation_has_no_dropout
    (keep1 keep2 : R -> list nat -> bool)
    (norm : norm_scope -> list R -> list R) (erf : R -> R)
    (vars : bert_vars) (config : BertConfig)
    (layer_def : list bool) (input_ids cluster_ids context_ids : list (list Z))
    (input_mask context_mask token_type_ids : option (list (list Z)))
    (use_one_hot_embeddings : bool) :
  BertModel (tf := Build_TensorFlow keep1 norm erf) vars config false
    layer_def input_ids cluster_ids context_ids input_mask context_mask
    token_type_ids use_one_hot_embeddings =
  BertModel (tf := Build_TensorFlow keep2 norm erf) vars config false
    layer_def input_ids cluster_ids context_ids input_mask context_mask
    token_type_ids use_one_hot_embeddings.
Proof.
  unfold BertModel. cbn [negb].
  cbn [eval_config vocab_size hidden_size num_hidden_layers
       num_attention_heads intermediate_size hidden_act hidden_dropout_prob
       attention_probs_dropout_prob max_position_embeddings type_vocab_size
       initializer_range cluster_size].
  destruct (shape2 input_ids) as [batch_size seq_length].
  destruct (py_index layer_def 0) as [flag0|e]; cbn [bind]; [|reflexivity].
  destruct flag0; [|reflexivity].
  destruct (embedding_lookup _ _ _ _ _) as [[wo tbl]|e]; cbn [bind];
    [|reflexivity].
  destruct (cluster_embedding_lookup _ _ _ _ _) as [[co ctbl]|e]; cbn [bind];
    [|reflexivity].
  destruct (py_index layer_def 2) as [flag2|e]; cbn [bind]; [|reflexivity].
  destruct (py_index layer_def 3) as [flag3|e]; cbn [bind]; [|reflexivity].
  assert (Hpost : forall x u1 i1 v1 t1 u2 t2 m2 u3 t3 i3,
    embedding_postprocessor (tf := Build_TensorFlow keep1 norm erf)
      x u1 i1 v1 t1 u2 t2 m2 u3 t3 i3 (Some 0) =
    embedding_postprocessor (tf := Build_TensorFlow keep2 norm erf)
      x u1 i1 v1 t1 u2 t2 m2 u3 t3 i3 (Some 0)).
  { intros. unfold embedding_postprocessor.
    destruct (shape3 x) as [[b l] w].
    destruct (add_token_type_embeddings _ _ _ _ _ _ _ _); cbn [bind];
      [|reflexivity].
    destruct (add_position_embeddings _ _ _ _ _ _); cbn [bind];
      [|reflexivity].
    destruct (add_entity_embeddings _ _ _ _ _ _ _ _); cbn [bind];
      [|reflexivity].
    unfold layer_norm_and_dropout. now rewrite !dropout_at_zero. }
  rewrite Hpost.
  destruct (embedding_postprocessor _ _ _ _ _ _ _ _ _ _ _ _) as [eo|e];
    cbn [bind]; [|reflexivity].
  assert (Hact : get_activation (tf := Build_TensorFlow keep1 norm erf)
                   (hidden_act config) =
                 get_activation (tf := Build_TensorFlow keep2 norm erf)
                   (hidden_act config)) by reflexivity.
  rewrite Hact.
  destruct (get_activation _) as [act|e]; cbn [bind]; [|reflexivity].
  assert (Htrans : forall v x m s h n a i f,
    transformer_model (tf := Build_TensorFlow keep1 norm erf)
      v x m s h n a i f (Some 0) (Some 0) true =
    transformer_model (tf := Build_TensorFlow keep2 norm erf)
      v x m s h n a i f (Some 0) (Some 0) true).
  { intros. unfold transformer_model, transformer_stack.
    destruct (a =? 0)%nat; [reflexivity|].
    destruct (negb _); [reflexivity|].
    destruct (shape3 x) as [[b l] w].
    destruct (negb _); [reflexivity|].
    rewrite (foldM_ext
      (transformer_layer (tf := Build_TensorFlow keep1 norm erf) v m s h a
         (attention_head_size_of h a) i f (Some 0) (Some 0) b l)
      (transformer_layer (tf := Build_TensorFlow keep2 norm erf) v m s h a
         (attention_head_size_of h a) i f (Some 0) (Some 0) b l));
      [reflexivity|].
    intros [prev all] idx.
    unfold transformer_layer, attention_layer, attention_layer_nodes.
    destruct (attention_dims _ _ _ _ _) as [[[bb ff] tt]|e]; cbn [bind];
      [|reflexivity].
    destruct m as [mask|]; [|reflexivity].
    destruct (attention_head_size_of h a =? 0)%nat; [reflexivity|].
    cbn [bind context_layer].
    now rewrite !dropout_at_zero. }
  rewrite Htrans. reflexivity.
Qed.

(** ** What a construction of the model needs *)

Section Construction.

Context {tf : TensorFlow}.

Lemma transformer_model_ok_all
    (vars : nat -> layer_vars) (input_tensor : tensor3)
    (attention_mask sub_attention_mask : option tensor3)
    (hidden_size num_hidden_layers num_attention_heads intermediate_size : nat)
    (intermediate_act_fn : option (R -> R))
    (hidden_dropout_prob attention_probs_dropout_prob : option R)
    (out : transformer_output) :
  transformer_model vars input_tensor attention_mask sub_attention_mask
    hidden_size num_hidden_layers num_attention_heads intermediate_size
    intermediate_act_fn hidden_dropout_prob attention_probs_dropout_prob true
    = Ok out ->
  num_attention_heads <> 0%nat /\
  (hidden_size mod num_attention_heads = 0)%nat /\
  width (hd [] input_tensor) = hidden_size /\
  exists final_outputs,
    out = AllLayers final_outputs /\ length final_outputs = num_hidden_layers.
Proof.
  unfold transformer_model, transformer_stack.
  destruct (Nat.eqb_spec num_attention_heads 0) as [H0|H0]; [discriminate|].
  destruct (Nat.eqb_spec (hidden_size mod num_attention_heads) 0) as [H1|H1];
    cbn [negb]; [|discriminate].
  unfold shape3.
  destruct (Nat.eqb_spec (width (hd [] input_tensor)) hidden_size) as [H2|H2];
    cbn [negb]; [|discriminate].
  destruct (foldM _ _ _) as [[prev all]|err] eqn:E; cbn [bind];
    [|discriminate].
  intros H. injection H as <-.
  apply transformer_loop_outputs in E.
  destruct E as (news & Hall & Hlen & Hprev).
  repeat split; auto.
  eexists. split; [reflexivity|]. rewrite length_map, Hall. exact Hlen.
Qed.

Lemma py_last_is_last {A} (l : list A) (x d : A) :
  py_last l = Ok x -> l <> [] /\ x = last l d.
Proof.
  unfold py_last. destruct (rev l) as [|y r] eqn:E; [discriminate|].
  intros H. injection H as <-.
  assert (Hl : l = rev r ++ [y]).
  { rewrite <- (rev_involutive l), E. reflexivity. }
  subst l. split.
  - intros C. destruct (rev r); discriminate.
  - now rewrite last_last.
Qed.

Lemma embedding_lookup_table (input_ids : id_tensor) (V E : nat) (table : mat)
    (u : bool) (out : tensor3) (tbl : mat) :
  embedding_lookup input_ids V E table u = Ok (out, tbl) -> tbl = table.
Proof.
  unfold embedding_lookup. destruct (shape3 _) as [[b l] n].
  destruct u; cbn [bind].
  - intros H. now injection H as _ <-.
  - destruct (tf_nn_embedding_lookup _ _); cbn [bind]; [|discriminate].
    intros H. now injection H as _ <-.
Qed.

(** X8: When [BertModel] is constructed with its attributes set, the first
    layer flag is set and the flags at indices 2 and 3 exist, the model has
    at least one layer, the number of heads is positive and divides the
    hidden size, and the activation name is known; the model then holds
    one encoder output per layer, the last of which is the sequence output,
    and the word table it was given. *)
Theorem BertModel_construction_requires
    (vars : bert_vars) (config : BertConfig) (is_training : bool)
    (layer_def : list bool) (input_ids cluster_ids context_ids : list (list Z))
    (input_mask context_mask token_type_ids : option (list (list Z)))
    (use_one_hot_embeddings : bool) (model : BertModel_attrs) :
  BertModel vars config is_training layer_def input_ids cluster_ids context_ids
    input_mask context_mask token_type_ids use_one_hot_embeddings
    = Ok (Some model) ->
  nth_error layer_def 0 = Some true /\
  (4 <= length layer_def)%nat /\
  (0 < num_hidden_layers config)%nat /\
  num_attention_heads config <> 0%nat /\
  (hidden_size config mod num_attention_heads config = 0)%nat /\
  is_ok (get_activation (hidden_act config)) = true /\
  length (all_encoder_layers model) = num_hidden_layers config /\
  sequence_output model = last (all_encoder_layers model) [] /\
  embedding_table model = word_embeddings vars.
Proof.
  intros Hrun. unfold BertModel in Hrun.
  set (cfg := if negb is_training then eval_config config else config) in Hrun.
  assert (Hcfg : hidden_size cfg = hidden_size config /\
                 num_hidden_layers cfg = num_hidden_layers config /\
                 num_attention_heads cfg = num_attention_heads config /\
                 hidden_act cfg = hidden_act config)
    by (unfold cfg; now destruct is_training).
  destruct Hcfg as (Hh & Hn & Ha & Hact).
  destruct (shape2 input_ids) as [batch_size seq_length].
  unfold py_index in Hrun.
  destruct (nth_error layer_def 0) as [flag0|] eqn:E0; cbn [bind] in Hrun;
    [|discriminate].
  destruct flag0; [|discriminate].
  destruct (embedding_lookup _ _ _ _ _) as [[wo tbl]|e] eqn:Eword;
    cbn [bind] in Hrun; [|discriminate].
  destruct (cluster_embedding_lookup _ _ _ _ _) as [[co ctbl]|e];
    cbn [bind] in Hrun; [|discriminate].
  destruct (nth_error layer_def 2) as [flag2|] eqn:E2; cbn [bind] in Hrun;
    [|discriminate].
  destruct (nth_error layer_def 3) as [flag3|] eqn:E3; cbn [bind] in Hrun;
    [|discriminate].
  destruct (embedding_postprocessor _ _ _ _ _ _ _ _ _ _ _ _) as [eo|e];
    cbn [bind] in Hrun; [|discriminate].
  rewrite Hact in Hrun.
  destruct (get_activation (hidden_act config)) as [act|e] eqn:Eact;
    cbn [bind] in Hrun; [|discriminate].
  destruct (transformer_model _ _ _ _ _ _ _ _ _ _ _ _) as [out|e] eqn:Etrans;
    cbn [bind] in Hrun; [|discriminate].
  destruct (transformer_model_ok_all _ _ _ _ _ _ _ _ _ _ _ _ Etrans)
    as (Hheads & Hmod & _ & outs & -> & Hlen).
  destruct (py_last outs) as [so|e] eqn:Elast; cbn [bind] in Hrun;
    [|discriminate].
  destruct (pooler _ _ _ _) as [po|e]; cbn [bind] in Hrun; [|discriminate].
  injection Hrun as <-.
  cbn [all_encoder_layers sequence_output embedding_table].
  destruct (py_last_is_last outs so [] Elast) as [Hne Hlast].
  rewrite Hh, Ha in *. rewrite Hn in Hlen.
  split; [reflexivity|].
  split. { assert (nth_error layer_def 3 <> None) by congruence.
           apply nth_error_Some in H. lia. }
  split. { destruct outs; [contradiction|]. cbn in Hlen. lia. }
  repeat split; auto.
  apply (embedding_lookup_table _ _ _ _ _ _ _ Eword).
Qed.

End Construction.

Lemma BertModel_construction_requires_witness :
  exists model,
    BertModel (tf := plain_tf) sample_vars sample_config true
      [true; true; true; true] [[1]]%Z [[1]]%Z [[0]]%Z
      (Some [[1]]%Z) None None true = Ok (Some model) /\
    length (all_encoder_layers model) = 1%nat.
Proof.
  assert (Hrun : sets_attributes
            (BertModel (tf := plain_tf) sample_vars sample_config true
               [true; true; true; true] [[1]]%Z [[1]]%Z [[0]]%Z
               (Some [[1]]%Z) None None true) = true) by reflexivity.
  destruct (BertModel (tf := plain_tf) sample_vars sample_config true
              [true; true; true; true] [[1]]%Z [[1]]%Z [[0]]%Z
              (Some [[1]]%Z) None None true) as [[model|]|e] eqn:E;
    try discriminate Hrun.
  exists model. split; [reflexivity|].
  apply (BertModel_construction_requires (tf := plain_tf) _ _ _ _ _ _ _ _ _ _ _
           model E).
Defined.

(** ** One-hot lookups, id by id *)

Lemma dot_one_hot_outside (c : list R) (id : Z) (s n : nat) :
  (id < Z.of_nat s \/ Z.of_nat (s + n) <= id)%Z ->
  Rsum (map2 Rmult
          (map (fun i => if (Z.of_nat i =? id)%Z then 1 else 0) (seq s n)) c)
  = 0.
Proof.
  revert s c; induction n as [|n IH]; intros s c Hid; [reflexivity|].
  cbn [seq map]. destruct c as [|x c]; [reflexivity|].
  cbn [map2 Rsum fold_right].
  fold (Rsum (map2 Rmult
    (map (fun i => if (Z.of_nat i =? id)%Z then 1 else 0) (seq (S s) n)) c)).
  rewrite IH by lia.
  destruct (Z.eqb_spec (Z.of_nat s) id); [lia|]. lra.
Qed.

Lemma matmul_one_hot_row_outside (V E : nat) (table : list (list R)) (id : Z) :
  width table = E ->
  in_vocab V id = false ->
  map (fun j => dot (one_hot_row V id) (column j table)) (seq 0 (width table)) =
  repeat 0 E.
Proof.
  intros Hw Hid. unfold in_vocab in Hid. rewrite Hw.
  apply nth_ext with (d := 0) (d' := 0).
  - now rewrite length_map, length_seq, repeat_length.
  - intros j Hj. rewrite length_map, length_seq in Hj.
    rewrite (nth_map_in _ _ j 0%nat) by (rewrite length_seq; lia).
    rewrite nth_repeat. unfold dot, one_hot_row.
    apply dot_one_hot_outside.
    apply andb_false_iff in Hid. destruct Hid as [H|H].
    + apply Z.leb_gt in H. lia.
    + apply Z.ltb_ge in H. lia.
Qed.

Lemma width_of_shaped2 {A} (V E : nat) (table : list (list A)) :
  shaped2 V E table -> (0 < V)%nat -> width table = E.
Proof.
  intros [H1 H2] HV. unfold width.
  destruct table as [|r t]; cbn in *; [lia|]. apply (H2 0%nat). lia.
Qed.

Lemma tf_matmul_one_hot (V E : nat) (table : list (list R)) (ids : list Z) :
  shaped2 V E table -> (0 < V)%nat ->
  tf_matmul (tf_one_hot ids V) table = map (row_or_zeros table V E) ids.
Proof.
  intros Ht HV. unfold tf_matmul, tf_one_hot. rewrite map_map.
  apply map_ext. intros id. unfold row_or_zeros.
  destruct (in_vocab V id) eqn:Hid.
  - apply matmul_one_hot_row with (E := E); [exact Ht|].
    unfold in_vocab in Hid. apply andb_prop in Hid. lia.
  - apply matmul_one_hot_row_outside; [|exact Hid].
    now apply width_of_shaped2 with (V := V).
Qed.

Lemma length_row_or_zeros (V E : nat) (table : list (list R)) (id : Z) :
  shaped2 V E table -> length (row_or_zeros table V E id) = E.
Proof.
  intros [H1 H2]. unfold row_or_zeros.
  destruct (in_vocab V id) eqn:Hid; [|apply repeat_length].
  unfold in_vocab in Hid. apply andb_prop in Hid. apply H2. lia.
Qed.

Lemma nth_tf_reshape3_rows (b r c : nat) (rows : list (list R)) (i j : nat) :
  length rows = (b * r)%nat ->
  (forall k, (k < length rows)%nat -> length (nth k rows []) = c) ->
  (i < b)%nat -> (j < r)%nat ->
  nth j (nth i (tf_reshape3 b r c (flatten2 rows)) []) [] =
  nth (i * r + j) rows [].
Proof.
  intros Hlen Hu Hi Hj. unfold tf_reshape3, tf_reshape2, flatten2.
  rewrite nth_tabulate by lia. rewrite nth_tabulate by lia.
  apply nth_ext with (d := 0) (d' := 0).
  - rewrite length_tabulate, Hu; [reflexivity|]. rewrite Hlen. nia.
  - intros k Hk. rewrite length_tabulate in Hk.
    rewrite nth_tabulate by lia. rewrite nth_skipn_plus.
    replace (i * (r * c) + (j * c + k))%nat with ((i * r + j) * c + k)%nat
      by nia.
    apply nth_concat_uniform; auto. rewrite Hlen. nia.
Qed.

Lemma concat_singletons {A} (l : list A) :
  concat (map (fun x => [x]) l) = l.
Proof. induction l as [|x l IH]; cbn; [reflexivity|now rewrite IH]. Qed.

Lemma flatten3_expand_dims_last {A} (ids : list (list A)) :
  flatten3 (tf_expand_dims_last ids) = concat ids.
Proof.
  unfold flatten3, tf_expand_dims_last.
  induction ids as [|r ids IH]; [reflexivity|].
  cbn [map concat]. rewrite concat_app, IH. now rewrite concat_singletons.
Qed.

(** Reading a [[B, L]] id tensor through a one-hot product with a matrix
    [M] of shape [[V, E]]: the row of [M] at each id. *)
Lemma one_hot_lookup_rows (ids : list (list Z)) (V E : nat) (M : mat)
    (B L b0 l0 n0 : nat) :
  shaped2 B L ids -> shaped2 V E M -> (0 < V)%nat ->
  shape3 (tf_expand_dims_last ids) = (b0, l0, n0) ->
  forall b l, (b < B)%nat -> (l < L)%nat ->
    nth l (nth b (tf_reshape3 b0 l0 (n0 * E)
                    (flatten2 (tf_matmul
                       (tf_one_hot (flatten3 (tf_expand_dims_last ids)) V) M)))
             []) [] =
    row_or_zeros M V E (nth2 ids b l 0%Z).
Proof.
  intros Hids Htable HV Hs b l Hb Hl.
  assert (Hsh : shaped3 B L 1 (tf_expand_dims_last ids)).
  { destruct Hids as [H1 H2]. unfold tf_expand_dims_last.
    split; [now rewrite length_map|].
    intros i Hi. rewrite (nth_map_in _ _ i []) by lia.
    split; [now rewrite length_map, H2|].
    intros j Hj. apply length_nth_singletons. rewrite H2; lia. }
  destruct (shape3_of_shaped B L 1 _ Hsh) as (l1 & n1 & Hs1 & Hdeg).
  rewrite Hs in Hs1. injection Hs1 as -> -> ->.
  destruct (Hdeg ltac:(lia)) as [-> Hn]. rewrite Hn by lia.
  rewrite Nat.mul_1_l.
  rewrite (tf_matmul_one_hot V E) by auto.
  rewrite flatten3_expand_dims_last.
  destruct Hids as [H1 H2].
  assert (Hu : forall k, (k < length ids)%nat -> length (nth k ids []) = L)
    by (intros k Hk; apply H2; lia).
  assert (Hlen : length (concat ids) = (B * L)%nat)
    by (now rewrite (length_concat_uniform ids L Hu), H1).
  rewrite (nth_tf_reshape3_rows B L E); try lia.
  - rewrite (nth_map_in _ _ (b * L + l) 0%Z) by (rewrite Hlen; nia).
    unfold nth2.
    now rewrite (nth_concat_uniform ids L) by (auto; lia).
  - now rewrite length_map.
  - intros k Hk. rewrite length_map in Hk.
    rewrite (nth_map_in _ _ k 0%Z) by lia.
    now apply length_row_or_zeros.
Qed.

(** X9: The one-hot path of [embedding_lookup] on a [[B, L]] id tensor returns
    at every position the row of the table at the id there, and the zero
    vector for an id outside the vocabulary: it does not fail on such an
    id. *)
Theorem embedding_lookup_one_hot_rows
    (ids : list (list Z)) (vocab_size embedding_size : nat)
    (embedding_table : mat) (B L : nat) :
  has_shape2 B L ids = true ->
  has_shape2 vocab_size embedding_size embedding_table = true ->
  (0 < vocab_size)%nat ->
  exists output,
    embedding_lookup (Ids2 ids) vocab_size embedding_size embedding_table true
      = Ok (output, embedding_table) /\
    forall b l, (b < B)%nat -> (l < L)%nat ->
      nth l (nth b output []) [] =
      row_or_zeros embedding_table vocab_size embedding_size
        (nth2 ids b l 0%Z).
Proof.
  intros Hids Htable HV.
  apply has_shape2_spec in Hids. apply has_shape2_spec in Htable.
  unfold embedding_lookup. cbn [expand_ids].
  destruct (shape3 (tf_expand_dims_last ids)) as [[b0 l0] n0] eqn:Hs.
  cbn [bind]. eexists. split; [reflexivity|].
  intros b l Hb Hl.
  now apply one_hot_lookup_rows with (B := B) (L := L).
Qed.

Lemma embedding_lookup_one_hot_rows_witness :
  exists output,
    embedding_lookup (Ids2 [[2; 7]; [-1; 0]]%Z) 3 2
      [[1; 2]; [3; 4]; [5; 6]] true = Ok (output, [[1; 2]; [3; 4]; [5; 6]]) /\
    nth 1 (nth 0 output []) [] = [0; 0].
Proof.
  destruct (embedding_lookup_one_hot_rows [[2; 7]; [-1; 0]]%Z 3 2
              [[1; 2]; [3; 4]; [5; 6]] 2 2 eq_refl eq_refl ltac:(lia))
    as (output & Hrun & H).
  exists output. split; [exact Hrun|].
  now rewrite (H 0 1)%nat by lia.
Defined.

(** ** The channels of [embedding_postprocessor] *)

Lemma nth_tensor3_add (a b : tensor3) (B L : nat) (i j : nat) :
  length a = B -> length b = B ->
  length (nth i a []) = L -> length (nth i b []) = L ->
  (i < B)%nat -> (j < L)%nat ->
  nth j (nth i (tensor3_add a b) []) [] =
  vec_add (nth j (nth i a []) []) (nth j (nth i b []) []).
Proof.
  intros Ha Hb Hai Hbi Hi Hj. unfold tensor3_add, mat_add.
  rewrite (nth_map2 _ _ _ i [] []) by lia.
  now rewrite (nth_map2 _ _ _ j [] []) by lia.
Qed.

Lemma nth_one_hot_channel (ids : list (list Z)) (V : nat) (table : mat)
    (B L W : nat) (b l : nat) :
  shaped2 B L ids -> shaped2 V W table -> (0 < V)%nat ->
  (b < B)%nat -> (l < L)%nat ->
  nth l (nth b (one_hot_channel ids V table B L W) []) [] =
  row_or_zeros table V W (nth2 ids b l 0%Z).
Proof.
  intros [H1 H2] Htable HV Hb Hl. unfold one_hot_channel, flatten2 at 2.
  rewrite (tf_matmul_one_hot V W) by auto.
  assert (Hu : forall k, (k < length ids)%nat -> length (nth k ids []) = L)
    by (intros k Hk; apply H2; lia).
  assert (Hlen : length (concat ids) = (B * L)%nat)
    by (now rewrite (length_concat_uniform ids L Hu), H1).
  rewrite (nth_tf_reshape3_rows B L W); try lia.
  - rewrite (nth_map_in _ _ (b * L + l) 0%Z) by (rewrite Hlen; nia).
    unfold nth2.
    now rewrite (nth_concat_uniform ids L) by (auto; lia).
  - now rewrite length_map.
  - intros k Hk. rewrite length_map in Hk.
    rewrite (nth_map_in _ _ k 0%Z) by lia.
    now apply length_row_or_zeros.
Qed.

(** X10: The token-type channel adds to the embedding at every position the
    row of the token-type table at the type id there, and nothing for a
    type id outside the table. *)
Theorem token_type_channel_adds_table_rows
    (input_tensor : tensor3) (token_type_ids : list (list Z))
    (token_type_vocab_size : nat) (token_type_table : mat) (B L W : nat) :
  has_shape3 B L W input_tensor = true ->
  has_shape2 B L token_type_ids = true ->
  has_shape2 token_type_vocab_size W token_type_table = true ->
  (0 < token_type_vocab_size)%nat ->
  exists output,
    add_token_type_embeddings input_tensor true (Some token_type_ids)
      token_type_vocab_size token_type_table B L W = Ok output /\
    forall b l, (b < B)%nat -> (l < L)%nat ->
      nth l (nth b output []) [] =
      vec_add (nth l (nth b input_tensor []) [])
        (row_or_zeros token_type_table token_type_vocab_size W
           (nth2 token_type_ids b l 0%Z)) /\
      (in_vocab token_type_vocab_size (nth2 token_type_ids b l 0%Z) = false ->
       nth l (nth b output []) [] = nth l (nth b input_tensor []) []).
Proof.
  intros Hin Hids Htable HV.
  apply has_shape3_spec in Hin. apply has_shape2_spec in Hids.
  apply has_shape2_spec in Htable.
  unfold add_token_type_embeddings. eexists. split; [reflexivity|].
  intros b l Hb Hl. destruct Hin as [H1 H2]. destruct (H2 b Hb) as [H3 H4].
  assert (Hentry :
    nth l (nth b (tensor3_add input_tensor
             (one_hot_channel token_type_ids token_type_vocab_size
                token_type_table B L W)) []) [] =
    vec_add (nth l (nth b input_tensor []) [])
      (row_or_zeros token_type_table token_type_vocab_size W
         (nth2 token_type_ids b l 0%Z))).
  { rewrite (nth_tensor3_add _ _ B L); auto.
    - now rewrite nth_one_hot_channel.
    - apply length_one_hot_channel.
    - unfold one_hot_channel, tf_reshape3.
      rewrite nth_tabulate by lia. unfold tf_reshape2. apply length_tabulate. }
  split; [exact Hentry|].
  intros Hout. rewrite Hentry. unfold row_or_zeros. rewrite Hout.
  unfold vec_add.
  apply nth_ext with (d := 0) (d' := 0).
  - rewrite length_map2, repeat_length, (H4 l Hl). apply Nat.min_id.
  - intros k Hk.
    rewrite length_map2, repeat_length, (H4 l Hl), Nat.min_id in Hk.
    rewrite (nth_map2 _ _ _ k 0 0) by (rewrite ?repeat_length, ?H4; lia).
    rewrite nth_repeat. lra.
Qed.

Lemma token_type_channel_adds_table_rows_witness :
  exists output,
    add_token_type_embeddings [[[1; 2]; [3; 4]]] true (Some [[1; 5]]%Z)
      2 [[10; 20]; [30; 40]] 1 2 2 = Ok output /\
    nth 1 (nth 0 output []) [] = [3; 4].
Proof.
  destruct (token_type_channel_adds_table_rows [[[1; 2]; [3; 4]]] [[1; 5]]%Z
              2 [[10; 20]; [30; 40]] 1 2 2 eq_refl eq_refl eq_refl ltac:(lia))
    as (output & Hrun & H).
  exists output. split; [exact Hrun|].
  apply (proj2 (H 0 1 ltac:(lia) ltac:(lia))%nat). reflexivity.
Defined.

(** ** [distance_embedding_lookup] *)

Lemma shaped2_tf_matmul (a b : mat) (r c : nat) :
  length a = r -> width b = c -> shaped2 r c (tf_matmul a b).
Proof.
  intros Ha Hb. unfold tf_matmul. split; [now rewrite length_map|].
  intros i Hi. rewrite (nth_map_in _ _ i []) by lia.
  now rewrite length_map, length_seq.
Qed.

(** X11: [distance_embedding_lookup] on a [[B, L]] id tensor.  With [T] the
    table of shape [[D, E]], the output at a position is the row, at the
    id there, of [(T T^t - softmax(dist)) T], where [dist] is the matrix
    of token distances of size [D]; an id outside [[0, D)] gives the zero
    vector.  The table is returned as it is. *)
Theorem distance_embedding_lookup_rows
    (ids : list (list Z)) (distance_size embedding_size : nat)
    (distance_embedding_table : mat) (B L : nat) :
  has_shape2 B L ids = true ->
  has_shape2 distance_size embedding_size distance_embedding_table = true ->
  (0 < distance_size)%nat ->
  let distance_correlation_tensor :=
    mat_sub
      (tf_matmul_transpose_b distance_embedding_table distance_embedding_table)
      (map softmax (tf_cast (distance_matrix distance_size))) in
  snd (distance_embedding_lookup (Ids2 ids) distance_size embedding_size
         distance_embedding_table) = distance_embedding_table
  /\ forall b l, (b < B)%nat -> (l < L)%nat ->
       nth l (nth b (fst (distance_embedding_lookup (Ids2 ids) distance_size
                            embedding_size distance_embedding_table)) []) []
       = row_or_zeros
           (tf_matmul distance_correlation_tensor distance_embedding_table)
           distance_size embedding_size (nth2 ids b l 0%Z).
Proof.
  intros Hids Htable HD. cbv zeta.
  apply has_shape2_spec in Hids. apply has_shape2_spec in Htable.
  unfold distance_embedding_lookup. cbn [expand_ids].
  destruct (shape3 (tf_expand_dims_last ids)) as [[b0 l0] n0] eqn:Hs.
  cbn [fst snd]. split; [reflexivity|].
  intros b l Hb Hl.
  apply one_hot_lookup_rows with (B := B) (L := L); auto.
  apply shaped2_tf_matmul.
  - unfold mat_sub, tf_matmul_transpose_b, tf_cast.
    rewrite length_map2, !length_map, length_distance_matrix.
    destruct Htable as [-> _]. apply Nat.min_id.
  - now apply width_of_shaped2 with (V := distance_size).
Qed.

Lemma distance_embedding_lookup_rows_witness :
  nth 1 (nth 0 (fst (distance_embedding_lookup (Ids2 [ [0; 5] ]%Z) 2 1
                       [ [1]; [2] ])) []) []
  = [0].
Proof.
  destruct (distance_embedding_lookup_rows [ [0; 5] ]%Z 2 1 [ [1]; [2] ] 1 2
              eq_refl eq_refl ltac:(lia)) as (_ & Hrows).
  rewrite (Hrows 0 1)%nat by lia. reflexivity.
Defined.

(** ** Errors of [embedding_postprocessor] *)

Section PostprocessorErrors.

Context {tf : TensorFlow}.


End PostprocessorErrors.


(** ** [context_postprocessor] *)

(** X13: [context_postprocessor] returns its input unchanged when the context
    type is not used, raises without mask ids when it is, and otherwise
    adds at every position the row of the two-row mask table at the mask
    id (nothing for an id other than 0 and 1); it never normalises. *)
Theorem context_postprocessor_adds_mask_rows
    (input_tensor : tensor3) (mask_ids : option (list (list Z)))
    (mask_type_table : mat) (B L W : nat) :
  context_postprocessor input_tensor false mask_ids mask_type_table
    = Ok input_tensor /\
  context_postprocessor input_tensor true None mask_type_table
    = Raise (ValueError "`mask_ids` must be specified if`mask_ids` is True.") /\
  (forall ids,
     shape3 input_tensor = (B, L, W) ->
     has_shape3 B L W input_tensor = true ->
     has_shape2 B L ids = true ->
     has_shape2 2 W mask_type_table = true ->
     exists output,
       context_postprocessor input_tensor true (Some ids) mask_type_table
         = Ok output /\
       forall b l, (b < B)%nat -> (l < L)%nat ->
         nth l (nth b output []) [] =
         vec_add (nth l (nth b input_tensor []) [])
           (row_or_zeros mask_type_table 2 W (nth2 ids b l 0%Z))).
Proof.
  unfold context_postprocessor.
  destruct (shape3 input_tensor) as [[b0 l0] w0] eqn:Hs.
  split; [reflexivity|]. split; [reflexivity|].
  intros ids Hshape Hin Hids Htable. injection Hshape as -> -> ->.
  apply has_shape3_spec in Hin. apply has_shape2_spec in Hids.
  apply has_shape2_spec in Htable.
  cbn [bind]. eexists. split; [reflexivity|].
  intros b l Hb Hl. destruct Hin as [H1 H2]. destruct (H2 b Hb) as [H3 H4].
  rewrite (nth_tensor3_add _ _ B L); auto.
  - now rewrite nth_one_hot_channel by (auto; lia).
  - apply length_one_hot_channel.
  - unfold one_hot_channel, tf_reshape3.
    rewrite nth_tabulate by lia. unfold tf_reshape2. apply length_tabulate.
Qed.

Lemma context_postprocessor_adds_mask_rows_witness :
  exists output,
    context_postprocessor [[[1; 2]; [3; 4]]] true (Some [[1; 0]]%Z)
      [[10; 20]; [30; 40]] = Ok output /\
    nth 0 (nth 0 output []) [] = vec_add [1; 2] [30; 40].
Proof.
  destruct (proj2 (proj2 (context_postprocessor_adds_mask_rows
              [[[1; 2]; [3; 4]]] None [[10; 20]; [30; 40]] 1 2 2))
              [[1; 0]]%Z eq_refl eq_refl eq_refl eq_refl)
    as (output & Hrun & H).
  exists output. split; [exact Hrun|].
  now rewrite (H 0 0)%nat by lia.
Defined.

(** ** The lookups of the cluster and context channels *)


(** ** The gather path of [embedding_lookup] outside the vocabulary *)








(** ** [get_activation] *)

Lemma ascii_lower_idempotent (c : ascii) :
  ascii_lower (ascii_lower c) = ascii_lower c.
Proof.
  destruct c as [[] [] [] [] [] [] [] []]; reflexivity.
Qed.

Lemma lower_idempotent (s : string) : lower (lower s) = lower s.
Proof.
  induction s as [|c s IH]; cbn; [reflexivity|].
  now rewrite ascii_lower_idempotent, IH.
Qed.

Lemma lower_empty (s : string) :
  String.eqb (lower s) "" = String.eqb s "".
Proof. destruct s; reflexivity. Qed.

(** X16: [get_activation] looks a name up without regard to the case of its
    ASCII letters, accepts exactly the empty string, linear, relu, gelu and
    tanh, returns no function for the first two, and anything that is not
    a string is returned as it is. *)
Theorem get_activation_by_name `{TensorFlow} (s : string) :
  get_activation (ActivationName s) = get_activation (ActivationName (lower s))
  /\ (is_ok (get_activation (ActivationName s)) = true
      <-> In (lower s) known_activation_names)
  /\ (lower s = "relu"%string ->
      get_activation (ActivationName s) = Ok (Some tf_nn_relu))
  /\ (lower s = "gelu"%string ->
      get_activation (ActivationName s) = Ok (Some gelu))
  /\ (lower s = "tanh"%string ->
      get_activation (ActivationName s) = Ok (Some tanh))
  /\ (lower s = ""%string \/ lower s = "linear"%string ->
      get_activation (ActivationName s) = Ok None)
  /\ (~ In (lower s) known_activation_names ->
      get_activation (ActivationName s)
      = Raise (ValueError ("Unsupported activation: " ++ lower s)))
  /\ forall f, get_activation (ActivationValue f) = Ok f.
Proof.
  assert (Hrun : get_activation (ActivationName s)
                 = if String.eqb (lower s) "" then Ok None
                   else if String.eqb (lower s) "linear" then Ok None
                   else if String.eqb (lower s) "relu" then Ok (Some tf_nn_relu)
                   else if String.eqb (lower s) "gelu" then Ok (Some gelu)
                   else if String.eqb (lower s) "tanh" then Ok (Some tanh)
                   else Raise (ValueError ("Unsupported activation: " ++ lower s))).
  { unfold get_activation. now rewrite lower_empty. }
  split.
  { rewrite Hrun. unfold get_activation.
    rewrite lower_idempotent. reflexivity. }
  rewrite Hrun. unfold known_activation_names. cbn [In].
  destruct (String.eqb_spec (lower s) "") as [E0|E0];
    [rewrite E0; cbn; repeat split; auto; try discriminate; tauto|].
  destruct (String.eqb_spec (lower s) "linear") as [E1|E1];
    [rewrite E1; cbn; repeat split; auto; try discriminate; tauto|].
  destruct (String.eqb_spec (lower s) "relu") as [E2|E2];
    [rewrite E2; cbn; repeat split; auto; try discriminate; try tauto;
     intros [?|?]; discriminate|].
  destruct (String.eqb_spec (lower s) "gelu") as [E3|E3];
    [rewrite E3; cbn; repeat split; auto; try discriminate; try tauto;
     intros [?|?]; discriminate|].
  destruct (String.eqb_spec (lower s) "tanh") as [E4|E4];
    [rewrite E4; cbn; repeat split; auto; try discriminate; try tauto;
     intros [?|?]; discriminate|].
  cbn. repeat split; auto; try discriminate; try congruence.
  all: try (intros [?|[?|[?|[?|[?|[]]]]]]; congruence).
  intros [?|?]; congruence.
Qed.

Lemma get_activation_by_name_witness :
  get_activation (tf := plain_tf) (ActivationName "GeLU")
  = Ok (Some (gelu (tf := plain_tf))).
Proof.
  destruct (get_activation_by_name (H := plain_tf) "GeLU")
    as (_ & _ & _ & Hgelu & _).
  apply Hgelu. reflexivity.
Defined.

(** ** Dictionaries *)

Lemma dict_get_set {V} (d : dict V) (k k' : string) (v : V) :
  dict_get (dict_set d k v) k'
  = if String.eqb k k' then Some v else dict_get d k'.
Proof.
  induction d as [|[k0 v0] d IH]; cbn.
  - reflexivity.
  - destruct (String.eqb_spec k0 k) as [->|Hk]; cbn.
    + destruct (String.eqb_spec k k'); reflexivity.
    + rewrite IH.
      destruct (String.eqb_spec k0 k') as [->|Hk'];
        destruct (String.eqb_spec k k'); congruence.
Qed.

Lemma find_app {A} (p : A -> bool) (l1 l2 : list A) :
  find p (l1 ++ l2)
  = match find p l1 with Some x => Some x | None => find p l2 end.
Proof.
  induction l1 as [|a l1 IH]; cbn; [reflexivity|].
  destruct (p a); auto.
Qed.

(** ** [get_assignment_map_from_checkpoint] *)

Lemma split_last_colon_no_colon (q : string) :
  all_digits q = true -> split_last_colon q = None.
Proof.
  induction q as [|c q IH]; cbn; [reflexivity|].
  intros H. apply andb_prop in H as [Hc Hq]. rewrite (IH Hq).
  destruct (Ascii.eqb_spec c ":") as [->|]; [discriminate|reflexivity].
Qed.

Lemma split_last_colon_app (p q : string) :
  all_digits q = true ->
  split_last_colon (p ++ String ":" q) = Some (p, q).
Proof.
  intros Hq. induction p as [|c p IH]; cbn.
  - now rewrite split_last_colon_no_colon.
  - now rewrite IH.
Qed.

Lemma split_last_colon_inv (s p q : string) :
  split_last_colon s = Some (p, q) -> s = (p ++ String ":" q)%string.
Proof.
  revert p. induction s as [|c s IH]; cbn; intros p H; [discriminate|].
  destruct (split_last_colon s) as [[p' q']|].
  - injection H as <- <-. cbn. now rewrite (IH p' eq_refl).
  - destruct (Ascii.eqb_spec c ":") as [->|]; [|discriminate].
    now injection H as <- <-.
Qed.

Section FirstLoop.

Context {Var : Type}.
Variable var_name : Var -> string.

(** The live variables that answer to a checkpoint name. *)
Let answers (n : string) (var : Var) : bool :=
  negb (is_output_head (var_name var))
  && String.eqb (checkpoint_key (var_name var)) n.

Let first_loop (name_to_variable : dict Var) (var : Var) : dict Var :=
  let name := var_name var in
  if is_output_head name then name_to_variable
  else
    let name :=
      match re_match_port name with
      | Some group1 => group1
      | None => name
      end in
    dict_set name_to_variable name var.

Lemma first_loop_get (tvars : list Var) (d : dict Var) (n : string) :
  dict_get (fold_left first_loop tvars d) n
  = match find (answers n) (rev tvars) with
    | Some var => Some var
    | None => dict_get d n
    end.
Proof.
  revert d. induction tvars as [|var tvars IH]; intros d; cbn [fold_left rev].
  - reflexivity.
  - rewrite IH, find_app. destruct (find (answers n) (rev tvars)); auto.
    cbn [find]. unfold first_loop, answers, checkpoint_key.
    destruct (is_output_head (var_name var)); cbn [negb andb]; auto.
    rewrite dict_get_set.
    destruct (String.eqb _ n); reflexivity.
Qed.

Lemma name_to_variable_get (tvars : list Var) (n : string) :
  dict_get (name_to_variable_of var_name tvars) n
  = find (answers n) (rev tvars).
Proof.
  unfold name_to_variable_of.
  change (dict_get (fold_left first_loop tvars []) n = find (answers n) (rev tvars)).
  rewrite first_loop_get. now destruct (find _ _).
Qed.

End FirstLoop.

Section SecondLoop.

Context {Var Shape : Type}.
Variable name_to_variable : dict Var.

Let second_loop (maps : dict Var * dict nat) (x : string * Shape)
  : dict Var * dict nat :=
  let '(assignment_map, initialized_variable_names) := maps in
  let name := fst x in
  match dict_get name_to_variable name with
  | None => maps
  | Some var =>
      (dict_set assignment_map name var,
       dict_set (dict_set initialized_variable_names name 1%nat)
         (name ++ ":0") 1%nat)
  end.

Lemma second_loop_assignment (init_vars : list (string * Shape))
    (maps : dict Var * dict nat) (n : string) :
  dict_get (fst (fold_left second_loop init_vars maps)) n
  = if existsb (String.eqb n) (map fst init_vars) then
      match dict_get name_to_variable n with
      | Some var => Some var
      | None => dict_get (fst maps) n
      end
    else dict_get (fst maps) n.
Proof.
  revert maps. induction init_vars as [|[name shape] init_vars IH];
    intros [am names]; cbn [fold_left map existsb fst]; [reflexivity|].
  rewrite IH. unfold second_loop. cbn [fst].
  destruct (String.eqb_spec n name) as [->|Hn]; cbn [orb].
  - destruct (dict_get name_to_variable name) eqn:E; cbn [fst].
    + rewrite dict_get_set, String.eqb_refl.
      now destruct (existsb _ _).
    + now destruct (existsb _ _).
  - destruct (dict_get name_to_variable name) eqn:E; cbn [fst]; auto.
    rewrite dict_get_set.
    destruct (String.eqb_spec name n); [congruence|reflexivity].
Qed.

Lemma second_loop_names_kept (init_vars : list (string * Shape))
    (maps : dict Var * dict nat) (k : string) :
  dict_get (snd maps) k = Some 1%nat ->
  dict_get (snd (fold_left second_loop init_vars maps)) k = Some 1%nat.
Proof.
  revert maps. induction init_vars as [|[name shape] init_vars IH];
    intros [am names] H; cbn [fold_left]; [exact H|].
  apply IH. unfold second_loop. cbn [fst snd] in H |- *.
  destruct (dict_get name_to_variable name); cbn [snd]; auto.
  rewrite !dict_get_set.
  destruct (String.eqb _ k); auto. destruct (String.eqb _ k); auto.
Qed.

Lemma second_loop_names (init_vars : list (string * Shape))
    (maps : dict Var * dict nat) (n : string) :
  In n (map fst init_vars) ->
  dict_get name_to_variable n <> None ->
  dict_get (snd (fold_left second_loop init_vars maps)) n = Some 1%nat
  /\ dict_get (snd (fold_left second_loop init_vars maps)) (n ++ ":0")
     = Some 1%nat.
Proof.
  revert maps. induction init_vars as [|[name shape] init_vars IH];
    intros [am names] Hin Hn; cbn [fold_left map In fst] in Hin |- *;
    [tauto|].
  destruct (String.eqb_spec name n) as [->|Hne].
  - unfold second_loop at 2 4. cbn [fst].
    destruct (dict_get name_to_variable n); [|congruence].
    split; apply second_loop_names_kept; cbn [snd]; rewrite !dict_get_set.
    + rewrite String.eqb_refl. now destruct (String.eqb _ n).
    + now rewrite String.eqb_refl.
  - apply IH; [|exact Hn]. destruct Hin; [congruence|assumption].
Qed.

Lemma second_loop_names_only (init_vars : list (string * Shape))
    (maps : dict Var * dict nat) (k : string) (x : nat) :
  dict_get (snd (fold_left second_loop init_vars maps)) k = Some x ->
  dict_get (snd maps) k = Some x
  \/ x = 1%nat
     /\ exists n, In n (map fst init_vars)
                  /\ dict_get name_to_variable n <> None
                  /\ (k = n \/ k = (n ++ ":0")%string).
Proof.
  revert maps. induction init_vars as [|[name shape] init_vars IH];
    intros [am names] H; cbn [fold_left map In fst] in H |- *; [now left|].
  apply IH in H as [H|(-> & n & Hin & Hn & Hk)].
  - unfold second_loop in H. cbn [fst snd] in H |- *.
    destruct (dict_get name_to_variable name) eqn:E; cbn [snd] in H;
      [|now left].
    rewrite !dict_get_set in H.
    destruct (String.eqb_spec (name ++ ":0") k) as [<-|H1].
    { right. split; [congruence|]. exists name.
      repeat split; auto; congruence. }
    destruct (String.eqb_spec name k) as [<-|H2].
    { right. split; [congruence|]. exists name.
      repeat split; auto; congruence. }
    now left.
  - right. split; [reflexivity|]. exists n. repeat split; auto.
Qed.

End SecondLoop.

Lemma existsb_eqb_In (n : string) (l : list string) :
  existsb (String.eqb n) l = true <-> In n l.
Proof.
  rewrite existsb_exists. split.
  - intros (x & Hx & E). apply String.eqb_eq in E. now subst.
  - intros H. exists n. split; [exact H|apply String.eqb_refl].
Qed.

(** X17: [get_assignment_map_from_checkpoint].  A checkpoint name is
    assigned exactly when some live variable other than the two output
    heads carries it as its name without the port suffix, and then it is
    assigned the last such variable of [tvars]; every assigned name is
    marked initialised, with and without the suffix [:0], and nothing else
    is marked. *)
Theorem assignment_map_from_checkpoint {Var Shape : Type}
    (var_name : Var -> string) (tvars : list Var)
    (init_vars : list (string * Shape)) :
  let maps := get_assignment_map_from_checkpoint var_name tvars init_vars in
  let assignment_map := fst maps in
  let initialized_variable_names := snd maps in
  (forall n,
     dict_get assignment_map n
     = if existsb (String.eqb n) (map fst init_vars) then
         find (fun var =>
                 negb (is_output_head (var_name var))
                 && String.eqb (checkpoint_key (var_name var)) n)
              (rev tvars)
       else None)
  /\ (forall n var,
        dict_get assignment_map n = Some var ->
        In var tvars
        /\ var_name var <> "output_weights:0"%string
        /\ var_name var <> "output_bias:0"%string
        /\ checkpoint_key (var_name var) = n
        /\ In n (map fst init_vars)
        /\ dict_get initialized_variable_names n = Some 1%nat
        /\ dict_get initialized_variable_names (n ++ ":0") = Some 1%nat)
  /\ (forall k x,
        dict_get initialized_variable_names k = Some x ->
        x = 1%nat
        /\ exists n, dict_get assignment_map n <> None
                     /\ (k = n \/ k = (n ++ ":0")%string)).
Proof.
  cbv zeta.
  assert (Hmap : forall n,
    dict_get (fst (get_assignment_map_from_checkpoint var_name tvars init_vars)) n
    = if existsb (String.eqb n) (map fst init_vars) then
        dict_get (name_to_variable_of var_name tvars) n
      else None).
  { intros n. unfold get_assignment_map_from_checkpoint.
    etransitivity;
      [exact (second_loop_assignment (name_to_variable_of var_name tvars)
                init_vars ([], []) n)|].
    cbn [fst dict_get]. destruct (existsb _ _); auto.
    now destruct (dict_get _ n). }
  split; [|split].
  - intros n. rewrite Hmap, name_to_variable_get. reflexivity.
  - intros n var H. rewrite Hmap in H.
    destruct (existsb _ _) eqn:Ein; [|discriminate].
    apply existsb_eqb_In in Ein.
    pose proof H as Hfind. rewrite name_to_variable_get in Hfind.
    apply find_some in Hfind as [Hin Hp].
    apply andb_prop in Hp as [Hhead Hkey].
    apply String.eqb_eq in Hkey. apply negb_true_iff in Hhead.
    unfold is_output_head in Hhead. apply orb_false_elim in Hhead as [Hw Hb].
    apply String.eqb_neq in Hw, Hb.
    repeat split; auto.
    + now apply in_rev.
    + apply (second_loop_names (name_to_variable_of var_name tvars));
        [exact Ein|congruence].
    + apply (second_loop_names (name_to_variable_of var_name tvars));
        [exact Ein|congruence].
  - intros k x H. unfold get_assignment_map_from_checkpoint in H.
    apply second_loop_names_only in H as [H|(-> & n & Hin & Hn & Hk)];
      [discriminate|].
    split; [reflexivity|]. exists n. split; [|exact Hk].
    rewrite Hmap. apply existsb_eqb_In in Hin. now rewrite Hin.
Qed.

Lemma assignment_map_from_checkpoint_witness :
  let maps :=
    get_assignment_map_from_checkpoint (Shape := list nat)
      (fun name : string => name)
      [ "bert/pooler/dense/kernel:0"; "output_weights:0" ]%string
      [ ("bert/pooler/dense/kernel"%string, [1; 1]%nat);
        ("output_weights"%string, [2; 1]%nat) ] in
  dict_get (fst maps) "bert/pooler/dense/kernel"
  = Some "bert/pooler/dense/kernel:0"%string
  /\ dict_get (fst maps) "output_weights" = None
  /\ dict_get (snd maps) "bert/pooler/dense/kernel:0" = Some 1%nat.
Proof.
  cbv zeta.
  destruct (assignment_map_from_checkpoint (Shape := list nat)
              (fun name : string => name)
              [ "bert/pooler/dense/kernel:0"; "output_weights:0" ]%string
              [ ("bert/pooler/dense/kernel"%string, [1; 1]%nat);
                ("output_weights"%string, [2; 1]%nat) ])
    as (Hmap & Hassigned & _).
  split; [|split].
  - rewrite Hmap. reflexivity.
  - rewrite Hmap. reflexivity.
  - apply (Hassigned "bert/pooler/dense/kernel"%string
             "bert/pooler/dense/kernel:0"%string).
    rewrite Hmap. reflexivity.
Defined.

(** X18: the key of a variable name.  A name that ends in a colon and a
    port number loses that suffix; the suffix [:0] that
    [get_assignment_map_from_checkpoint] appends to a checkpoint name is
    the one its first loop strips from the names of live variables. *)
Theorem checkpoint_key_strips_port (name port : string) :
  all_digits port = true -> port <> ""%string ->
  checkpoint_key (name ++ String ":" port) = name
  /\ checkpoint_key (name ++ ":0") = name
  /\ (forall s, re_match_port s = None -> checkpoint_key s = s)
  /\ (forall s p, re_match_port s = Some p ->
        exists q, s = (p ++ String ":" q)%string
                  /\ all_digits q = true /\ q <> ""%string).
Proof.
  intros Hd Hne.
  assert (Hstrip : forall p q, all_digits q = true -> q <> ""%string ->
                     re_match_port (p ++ String ":" q) = Some p).
  { intros p q Hq Hq'. unfold re_match_port.
    rewrite split_last_colon_app by exact Hq. rewrite Hq.
    destruct (String.eqb_spec q ""); [contradiction|reflexivity]. }
  repeat split.
  - unfold checkpoint_key. now rewrite Hstrip.
  - unfold checkpoint_key. rewrite (Hstrip name "0"%string); auto. discriminate.
  - intros s H. unfold checkpoint_key. now rewrite H.
  - intros s p H. unfold re_match_port in H.
    destruct (split_last_colon s) as [[p' q]|] eqn:E; [|discriminate].
    destruct (String.eqb_spec q "") as [|Hq]; cbn in H; [discriminate|].
    destruct (all_digits q) eqn:Hq'; [|discriminate].
    injection H as <-. exists q. repeat split; auto.
    now apply split_last_colon_inv.
Qed.

Lemma checkpoint_key_strips_port_witness :
  checkpoint_key "bert/embeddings/word_embeddings:12"
  = "bert/embeddings/word_embeddings"%string.
Proof.
  apply (checkpoint_key_strips_port "bert/embeddings/word_embeddings" "12");
    [reflexivity|discriminate].
Defined.

(** ** [BertConfig.from_dict] and [to_dict] *)

Lemma dict_get_app {V} (d1 d2 : dict V) (k : string) :
  dict_get (d1 ++ d2) k
  = match dict_get d1 k with Some v => Some v | None => dict_get d2 k end.
Proof.
  induction d1 as [|[k0 v0] d1 IH]; cbn; [reflexivity|].
  destruct (String.eqb k0 k); auto.
Qed.

Lemma dict_get_None {V} (d : dict V) (k : string) :
  ~ In k (dict_keys d) -> dict_get d k = None.
Proof.
  induction d as [|[k0 v0] d IH]; cbn; [reflexivity|]. intros H.
  destruct (String.eqb_spec k0 k) as [->|]; [tauto|]. apply IH. tauto.
Qed.

Lemma dict_get_In {V} (d : dict V) (k : string) (v : V) :
  dict_get d k = Some v -> In k (dict_keys d).
Proof.
  induction d as [|[k0 v0] d IH]; cbn; [discriminate|].
  destruct (String.eqb_spec k0 k) as [->|]; auto.
Qed.

Lemma dict_get_rev {V} (d : dict V) (k : string) :
  NoDup (dict_keys d) -> dict_get (rev d) k = dict_get d k.
Proof.
  induction d as [|[k0 v0] d IH]; cbn; [reflexivity|].
  intros H. inversion H as [|? ? Hk0 Hd]; subst.
  rewrite dict_get_app, (IH Hd). cbn.
  destruct (String.eqb_spec k0 k) as [->|].
  - now rewrite dict_get_None.
  - now destruct (dict_get d k).
Qed.

Lemma dict_get_update {V} (items : list (string * V)) (d : dict V)
    (k : string) :
  dict_get (dict_update d items) k
  = match dict_get (rev items) k with
    | Some v => Some v
    | None => dict_get d k
    end.
Proof.
  unfold dict_update. revert d.
  induction items as [|[k0 v0] items IH]; intros d; cbn [fold_left rev];
    [reflexivity|].
  rewrite IH, dict_get_app. destruct (dict_get (rev items) k); auto.
  cbn. rewrite dict_get_set. destruct (String.eqb k0 k); reflexivity.
Qed.

Lemma dict_set_present {V} (pre post : dict V) (k : string) (v0 v : V) :
  ~ In k (dict_keys pre) ->
  dict_set (pre ++ (k, v0) :: post) k v = pre ++ (k, v) :: post.
Proof.
  induction pre as [|[k1 v1] pre IH]; cbn; intros H.
  - now rewrite String.eqb_refl.
  - destruct (String.eqb_spec k1 k) as [->|]; [tauto|].
    rewrite IH; tauto.
Qed.

Lemma dict_set_absent {V} (d : dict V) (k : string) (v : V) :
  ~ In k (dict_keys d) -> dict_set d k v = d ++ [(k, v)].
Proof.
  induction d as [|[k1 v1] d IH]; cbn; intros H; [reflexivity|].
  destruct (String.eqb_spec k1 k) as [->|]; [tauto|].
  rewrite IH; tauto.
Qed.

Lemma dict_keys_set {V} (d : dict V) (k : string) (v : V) :
  dict_keys (dict_set d k v)
  = if existsb (String.eqb k) (dict_keys d) then dict_keys d
    else dict_keys d ++ [k].
Proof.
  unfold dict_keys.
  induction d as [|[k1 v1] d IH]; cbn [dict_set map fst existsb];
    [reflexivity|].
  destruct (String.eqb_spec k1 k) as [->|Hne]; cbn [map fst].
  - now rewrite String.eqb_refl.
  - rewrite IH. destruct (String.eqb_spec k k1); [congruence|]. cbn [orb].
    now destruct (existsb _ _).
Qed.

Lemma existsb_eqb_false (k : string) (l : list string) :
  existsb (String.eqb k) l = false -> ~ In k l.
Proof.
  intros E Hin. rewrite <- not_true_iff_false in E. apply E.
  apply existsb_exists. exists k. split; [exact Hin|apply String.eqb_refl].
Qed.

(** Updating keeps the keys that were there, in their places. *)
Lemma dict_keys_update {V} (items : list (string * V)) (d : dict V) :
  NoDup (dict_keys d) ->
  NoDup (dict_keys (dict_update d items))
  /\ exists more, dict_keys (dict_update d items) = dict_keys d ++ more.
Proof.
  unfold dict_update. revert d.
  induction items as [|[k v] items IH]; intros d Hd; cbn [fold_left].
  - split; [exact Hd|]. exists []. now rewrite app_nil_r.
  - cbn [fst snd].
    assert (Hk : NoDup (dict_keys (dict_set d k v))
                 /\ exists m, dict_keys (dict_set d k v) = dict_keys d ++ m).
    { rewrite dict_keys_set. destruct (existsb _ _) eqn:E.
      - split; [exact Hd|]. exists []. now rewrite app_nil_r.
      - split; [|now exists [k]].
        apply existsb_eqb_false in E.
        apply NoDup_app; [exact Hd|repeat constructor; cbn; tauto|].
        intros s Hs [<-|[]]. tauto. }
    destruct Hk as (Hnd & m & Hm).
    destruct (IH _ Hnd) as (Hnd' & more & Hmore).
    split; [exact Hnd'|]. exists (m ++ more).
    now rewrite Hmore, Hm, app_assoc.
Qed.

Lemma dict_update_same_keys {V} (p d0 pre : dict V) :
  dict_keys d0 = dict_keys p ->
  NoDup (dict_keys pre ++ dict_keys p) ->
  dict_update (pre ++ d0) p = pre ++ p.
Proof.
  unfold dict_update. revert d0 pre.
  induction p as [|[k v] p IH]; intros [|[k0 v0] d0] pre Hk Hnd;
    cbn in Hk; try discriminate; cbn [fold_left fst snd].
  - reflexivity.
  - injection Hk as -> Hk.
    rewrite dict_set_present.
    2:{ intros Hin. apply NoDup_app_remove_r in Hnd as Hpre.
        cbn in Hnd. apply NoDup_remove_2 in Hnd. apply Hnd.
        apply in_or_app. now left. }
    change (pre ++ (k, v) :: d0) with (pre ++ [(k, v)] ++ d0).
    change (pre ++ (k, v) :: p) with (pre ++ [(k, v)] ++ p).
    rewrite !app_assoc. apply IH; [exact Hk|].
    unfold dict_keys in *. rewrite map_app. cbn [map fst].
    rewrite <- app_assoc. exact Hnd.
Qed.

Lemma dict_update_new_keys {V} (q d : dict V) :
  NoDup (dict_keys d ++ dict_keys q) ->
  dict_update d q = d ++ q.
Proof.
  unfold dict_update. revert d.
  induction q as [|[k v] q IH]; intros d Hnd; cbn [fold_left fst snd].
  - now rewrite app_nil_r.
  - rewrite dict_set_absent.
    2:{ intros Hin. cbn in Hnd. apply NoDup_remove_2 in Hnd. apply Hnd.
        apply in_or_app. now left. }
    change (d ++ (k, v) :: q) with (d ++ [(k, v)] ++ q).
    rewrite app_assoc. apply IH.
    unfold dict_keys in *. rewrite map_app. cbn [map fst].
    rewrite <- app_assoc. exact Hnd.
Qed.

Lemma dict_update_prefix {V} (d0 d : dict V) (more : list string) :
  NoDup (dict_keys d) ->
  dict_keys d = dict_keys d0 ++ more ->
  dict_update d0 d = d.
Proof.
  intros Hnd Hk.
  set (n := length d0).
  assert (Hsplit : d = firstn n d ++ skipn n d)
    by (symmetry; apply firstn_skipn).
  assert (Hfirst : dict_keys (firstn n d) = dict_keys d0).
  { unfold dict_keys in *. rewrite <- firstn_map, Hk.
    rewrite firstn_app, firstn_all2 by (rewrite length_map; subst n; lia).
    rewrite length_map. subst n. rewrite Nat.sub_diag. cbn.
    now rewrite app_nil_r. }
  assert (Hnd' : NoDup (dict_keys (firstn n d) ++ dict_keys (skipn n d))).
  { unfold dict_keys in *. rewrite <- map_app, <- Hsplit. exact Hnd. }
  rewrite Hsplit at 1. unfold dict_update. rewrite fold_left_app.
  fold (dict_update d0 (firstn n d)).
  assert (Hsame : dict_update ([] ++ d0) (firstn n d) = [] ++ firstn n d).
  { apply dict_update_same_keys; [now symmetry|].
    cbn. apply NoDup_app_remove_r in Hnd'. exact Hnd'. }
  cbn [app] in Hsame. rewrite Hsame.
  fold (dict_update (firstn n d) (skipn n d)).
  rewrite dict_update_new_keys by exact Hnd'. now symmetry.
Qed.

Lemma NoDup_BertConfig_keys (v : pyval) : NoDup (dict_keys (BertConfig_init v)).
Proof.
  cbn. repeat constructor; cbn;
    intros H; repeat (destruct H as [H|H]; [discriminate|]); exact H.
Qed.

(** X19: [BertConfig.from_dict].  An attribute of the new configuration is
    the value the dictionary gives for it and, where the dictionary has no
    such key, the default of the constructor, [None] for [vocab_size];
    keys that name no constructor argument become attributes too.  Writing
    the configuration out with [to_dict] and reading it back gives the
    same configuration. *)
Theorem from_dict_attributes (json_object : dict pyval) :
  NoDup (dict_keys json_object) ->
  (forall key,
     dict_get (from_dict json_object) key
     = match dict_get json_object key with
       | Some value => Some value
       | None => dict_get (BertConfig_init PyNone) key
       end)
  /\ (dict_get json_object "vocab_size" = None ->
      dict_get (from_dict json_object) "vocab_size" = Some PyNone)
  /\ from_dict (to_dict (from_dict json_object)) = from_dict json_object.
Proof.
  intros Hnd.
  assert (Hget : forall key,
    dict_get (from_dict json_object) key
    = match dict_get json_object key with
      | Some value => Some value
      | None => dict_get (BertConfig_init PyNone) key
      end).
  { intros key. unfold from_dict. cbv zeta.
    now rewrite dict_get_update, dict_get_rev. }
  split; [exact Hget|split].
  - intros H. now rewrite Hget, H.
  - unfold to_dict. unfold from_dict at 1. cbv zeta.
    destruct (dict_keys_update json_object (BertConfig_init PyNone)
                (NoDup_BertConfig_keys PyNone)) as (Hnd' & more & Hmore).
    apply dict_update_prefix with (more := more); assumption.
Qed.

Lemma from_dict_attributes_witness :
  dict_get (from_dict [ ("hidden_size"%string, PyInt 128);
                        ("cluster_size"%string, PyInt 40) ]) "cluster_size"
  = Some (PyInt 40)
  /\ dict_get (from_dict [ ("hidden_size"%string, PyInt 128);
                           ("cluster_size"%string, PyInt 40) ]) "vocab_size"
     = Some PyNone.
Proof.
  assert (Hnd : NoDup (dict_keys [ ("hidden_size"%string, PyInt 128);
                                   ("cluster_size"%string, PyInt 40) ])).
  { cbn. repeat constructor; cbn;
      intros H; repeat (destruct H as [H|H]; [discriminate|]); exact H. }
  destruct (from_dict_attributes _ Hnd) as (Hget & Hvocab & _).
  split.
  - rewrite Hget. reflexivity.
  - apply Hvocab. reflexivity.
Defined.

(** ** [static_initializer] *)

Section StaticInitializer.

Variable py_float : string -> option R.
Variables cluster_size embedding_size : nat.

Let read_line (state : mat * nat) (line : list string)
  : result (mat * nat) :=
  let '(static_embed, index) := state in
  field <- py_index line 1 ;;
  decoyArray <-
    mapM (fun currVal =>
            match py_float currVal with
            | Some x => Ok x
            | None =>
                Raise (ValueError "could not convert string to float")
            end)
         (split_on "," field) ;;
  static_embed <-
    np_assign_row static_embed embedding_size index decoyArray ;;
  Ok (static_embed, S index).

Lemma length_embedding_row (line : list string) (row : vec) :
  embedding_row py_float embedding_size line = Ok row ->
  length row = embedding_size.
Proof.
  unfold embedding_row.
  destruct (py_index line 1) as [field|]; cbn [bind]; [|discriminate].
  destruct (mapM _ _) as [arr|]; cbn [bind]; [|discriminate].
  destruct (Nat.eqb_spec (length arr) embedding_size) as [E|E].
  - now intros [= <-].
  - destruct (length arr =? 1)%nat; [|discriminate].
    intros [= <-]. apply repeat_length.
Qed.

Lemma read_line_ok (m : mat) (index : nat) (line : list string) :
  is_ok (read_line (m, index) line)
  = (index <? length m)%nat
    && is_ok (embedding_row py_float embedding_size line).
Proof.
  unfold read_line, embedding_row, np_assign_row.
  destruct (py_index line 1) as [field|]; cbn [bind is_ok];
    [|now rewrite andb_false_r].
  destruct (mapM _ _) as [arr|]; cbn [bind is_ok];
    [|now rewrite andb_false_r].
  destruct (index <? length m)%nat; cbn [bind is_ok andb]; [|reflexivity].
  destruct (length arr =? embedding_size)%nat; cbn [bind is_ok]; auto.
  destruct (length arr =? 1)%nat; reflexivity.
Qed.

Lemma read_line_value (m m' : mat) (index index' : nat)
    (line : list string) :
  read_line (m, index) line = Ok (m', index') ->
  index' = S index /\ (index < length m)%nat
  /\ exists row, embedding_row py_float embedding_size line = Ok row
                 /\ m' = list_set m index row.
Proof.
  unfold read_line, embedding_row, np_assign_row.
  destruct (py_index line 1) as [field|]; cbn [bind]; [|discriminate].
  destruct (mapM _ _) as [arr|]; cbn [bind]; [|discriminate].
  destruct (Nat.ltb_spec index (length m)) as [Hi|Hi]; cbn [bind];
    [|discriminate].
  destruct (length arr =? embedding_size)%nat; cbn [bind].
  - intros [= <- <-]. repeat split; auto. now exists arr.
  - destruct (length arr =? 1)%nat; cbn [bind]; [|discriminate].
    intros [= <- <-]. repeat split; auto.
    now exists (repeat (hd 0 arr) embedding_size).
Qed.

Lemma read_lines_value (reader : list (list string)) :
  forall (m0 m : mat) (i0 i : nat),
    foldM read_line reader (m0, i0) = Ok (m, i) ->
    i = (i0 + length reader)%nat
    /\ length m = length m0
    /\ (reader <> [] -> (i <= length m0)%nat)
    /\ (forall k, (k < i0 \/ i <= k)%nat -> nth k m [] = nth k m0 [])
    /\ (forall j, (j < length reader)%nat ->
          embedding_row py_float embedding_size (nth j reader [])
          = Ok (nth (i0 + j) m [])).
Proof.
  induction reader as [|line reader IH]; intros m0 m i0 i H;
    cbn [foldM] in H.
  - injection H as <- <-. cbn [length]. repeat split; auto; try lia.
    now intros [].
  - destruct (read_line (m0, i0) line) as [[m1 i1]|] eqn:E; cbn [bind] in H;
      [|discriminate].
    apply read_line_value in E as (-> & Hi0 & row & Hrow & ->).
    apply IH in H as (-> & Hlen & Hle & Hkeep & Hrows).
    rewrite length_list_set in Hlen, Hle. cbn [length].
    split; [lia|]. split; [exact Hlen|]. split.
    { intros _. destruct reader as [|l r]; [cbn; lia|].
      assert (l :: r <> []) as Hne by discriminate.
      specialize (Hle Hne). cbn [length] in *. lia. }
    split.
    { intros k Hk. rewrite Hkeep by lia. rewrite nth_list_set.
      destruct (Nat.eqb_spec k i0); [lia|reflexivity]. }
    intros [|j] Hj.
    + rewrite Nat.add_0_r. cbn [nth]. rewrite Hkeep by lia.
      rewrite nth_list_set, Nat.eqb_refl.
      destruct (Nat.ltb_spec i0 (length m0)); [exact Hrow|lia].
    + cbn [nth]. rewrite Hrows by lia.
      now replace (S i0 + j)%nat with (i0 + S j)%nat by lia.
Qed.

Lemma read_lines_ok (reader : list (list string)) :
  forall (m0 : mat) (i0 : nat),
    (i0 <= length m0)%nat ->
    is_ok (foldM read_line reader (m0, i0))
    = (i0 + length reader <=? length m0)%nat
      && forallb (fun line =>
                    is_ok (embedding_row py_float embedding_size line))
           reader.
Proof.
  induction reader as [|line reader IH]; intros m0 i0 Hi0;
    cbn [foldM forallb length].
  - cbn. rewrite Nat.add_0_r, andb_true_r. symmetry.
    now apply Nat.leb_le.
  - pose proof (read_line_ok m0 i0 line) as Hok.
    destruct (read_line (m0, i0) line) as [[m1 i1]|] eqn:E; cbn [bind].
    + pose proof E as E'.
      apply read_line_value in E' as (-> & Hlt & row & Hrow & ->).
      rewrite IH by (rewrite length_list_set; lia).
      rewrite length_list_set, Hrow. cbn [is_ok andb].
      now replace (i0 + S (length reader))%nat
        with (S i0 + length reader)%nat by lia.
    + cbn [is_ok] in *. symmetry in Hok.
      apply andb_false_iff in Hok as [Hok|Hok].
      * apply Nat.ltb_ge in Hok.
        destruct (Nat.leb_spec (i0 + S (length reader)) (length m0));
          [lia|reflexivity].
      * rewrite Hok. cbn [andb]. now rewrite andb_false_r.
Qed.

Lemma static_initializer_fold (reader : list (list string)) :
  static_initializer py_float reader cluster_size embedding_size
  = (state <-
       foldM read_line reader
         (repeat (repeat 0 embedding_size) cluster_size, 0%nat) ;;
     Ok (fst state)).
Proof. reflexivity. Qed.

End StaticInitializer.

(** X20: [static_initializer].  The file is loaded exactly when it has
    at most [cluster_size] lines and every line gives a row: a second
    field whose comma-separated values all convert, [embedding_size] of
    them or a single one.  The matrix then has shape
    [[cluster_size, embedding_size]], its row [j] is the row of line [j],
    and the rows after the last line are zero. *)
Theorem static_initializer_table (py_float : string -> option R)
    (reader : list (list string)) (cluster_size embedding_size : nat) :
  is_ok (static_initializer py_float reader cluster_size embedding_size)
  = (length reader <=? cluster_size)%nat
    && forallb (fun line => is_ok (embedding_row py_float embedding_size line))
         reader
  /\ forall static_embed,
       static_initializer py_float reader cluster_size embedding_size
       = Ok static_embed ->
       has_shape2 cluster_size embedding_size static_embed = true
       /\ (forall j, (j < length reader)%nat ->
             embedding_row py_float embedding_size (nth j reader [])
             = Ok (nth j static_embed []))
       /\ (forall k, (length reader <= k < cluster_size)%nat ->
             nth k static_embed [] = repeat 0 embedding_size).
Proof.
  rewrite static_initializer_fold. split.
  - pose proof (read_lines_ok py_float embedding_size reader
                  (repeat (repeat 0 embedding_size) cluster_size) 0%nat) as H.
    rewrite repeat_length in H. cbn [Nat.add] in H.
    rewrite <- H by lia.
    now destruct (foldM _ _ _).
  - intros m H.
    destruct (foldM _ _ _) as [[m' i]|] eqn:E; cbn [bind fst] in H;
      [|discriminate].
    injection H as ->.
    apply read_lines_value in E as (-> & Hlen & Hle & Hkeep & Hrows).
    rewrite repeat_length in Hlen, Hle. cbn [Nat.add] in *.
    assert (Hzero : forall k, (length reader <= k < cluster_size)%nat ->
                      nth k m [] = repeat 0 embedding_size).
    { intros k Hk. rewrite Hkeep by lia.
      rewrite (nth_indep _ [] (repeat 0 embedding_size))
        by (rewrite repeat_length; lia).
      apply nth_repeat. }
    split; [|split; [exact Hrows|exact Hzero]].
    apply shaped2_has_shape. split; [exact Hlen|].
    intros k Hk.
    destruct (Nat.lt_ge_cases k (length reader)) as [Hlt|Hge].
    + apply (length_embedding_row py_float embedding_size (nth k reader [])).
      now apply Hrows.
    + rewrite Hzero by lia. apply repeat_length.
Qed.

Lemma static_initializer_table_witness :
  let py_float := fun s : string =>
    if String.eqb s "1" then Some 1
    else if String.eqb s "2" then Some 2
    else if String.eqb s "3" then Some 3 else None in
  let reader := [ [ "c0"; "1,2" ]; [ "c1"; "3" ] ]%string in
  static_initializer py_float reader 3 2 = Ok [ [1; 2]; [3; 3]; [0; 0] ]
  /\ has_shape2 3 2 [ [1; 2]; [3; 3]; [0; 0] ] = true.
Proof.
  cbv zeta.
  assert (E : static_initializer
                (fun s : string =>
                   if String.eqb s "1" then Some 1
                   else if String.eqb s "2" then Some 2
                   else if String.eqb s "3" then Some 3 else None)
                [ [ "c0"; "1,2" ]; [ "c1"; "3" ] ]%string 3 2
              = Ok [ [1; 2]; [3; 3]; [0; 0] ]) by reflexivity.
  split; [exact E|].
  apply (static_initializer_table _ _ _ _) in E. apply E.
Defined.

(** ** The pooler and [attention_layer]: when they run, and the shape and
    range of what they return *)





Section AttentionLayerRuns.

Context {tf : TensorFlow}.

Variable vars : attention_vars.
Variables from_tensor to_tensor : tensor23.
Variables attention_mask sub_attention_mask : option tensor3.
Variables num_attention_heads size_per_head : nat.
Variables query_act key_act value_act : option (R -> R).
Variable attention_probs_dropout_prob : option R.
Variable do_return_2d_tensor : bool.
Variables batch_size from_seq_length to_seq_length : option nat.

Let run : result tensor23 :=
  attention_layer vars from_tensor to_tensor attention_mask
    sub_attention_mask num_attention_heads size_per_head
    query_act key_act value_act attention_probs_dropout_prob
    do_return_2d_tensor batch_size from_seq_length to_seq_length.



End AttentionLayerRuns.


